(** * User-interactive authentication: a model of synapse/handlers/auth.py

    The development follows the Python 2 source of [AuthHandler]:
    the session table with its save-and-prune discipline, the
    [check_auth] / [add_oob_auth] state machine over a registry of
    checkers, the macaroon token generators, and the peppered password
    check.  Definitions come first (in the order of the source file),
    theorems afterwards. *)

From stdpp Require Import gmap strings list fin_maps pretty.

Set Warnings "-register-all".
Local Open Scope string_scope.
Local Open Scope Z_scope.

(** ** Python values

    Request bodies are parsed JSON: the values a client can put under a
    key.  (JSON numbers are kept as integers.) *)

Inductive value :=
| VNone
| VBool (b : bool)
| VInt (n : Z)
| VStr (s : string)
| VList (l : list value)
| VDict (d : gmap string value).

Abbreviation dict := (gmap string value).

(** Python's [bool(v)]. *)
Definition truthy (v : value) : bool :=
  match v with
  | VNone => false
  | VBool b => b
  | VInt n => negb (Z.eqb n 0)
  | VStr s => negb (String.eqb s "")
  | VList l => match l with [] => false | _ => true end
  | VDict d => negb (Nat.eqb (size d) 0)
  end.

Definition is_str (k : string) (v : value) : bool :=
  match v with VStr s => String.eqb s k | _ => false end.

(** ** Exceptions and outcomes *)

(** Modelled from the spec: the error codes of synapse.api.errors.Codes
    that this module names (the taxonomy of section 7). *)
Inductive Codes :=
| UNRECOGNIZED | MISSING_PARAM | FORBIDDEN | UNKNOWN_TOKEN
| UNAUTHORIZED | CAPTCHA_NEEDED | NOT_FOUND.

(** The exception classes that occur in the module.  [TypeError],
    [ValueError] and [MacaroonException] stand for the class and its
    subclasses, as an [except] clause sees them. *)
Inductive exn :=
| LoginError (code : Z) (msg : string) (errcode : Codes)
| AuthError (code : Z) (msg : string) (errcode : Codes)
| TypeError
| KeyError
| ValueError
| MacaroonException
| OtherException (cls : string).

Definition missing_param : exn := LoginError 400 "" MISSING_PARAM.
Definition forbidden : exn := LoginError 403 "" FORBIDDEN.
Definition unknown_token : exn := AuthError 401 "Invalid token" UNKNOWN_TOKEN.

(** What running a piece of Python yields: a value, a raised exception,
    or nothing (a loop that does not end within the random strings the
    model was given). *)
Inductive outcome (A : Type) :=
| Ok (a : A)
| Raise (e : exn)
| Diverge.
Arguments Ok {A} a.
Arguments Raise {A} e.
Arguments Diverge {A}.

Definition obind {A B} (o : outcome A) (k : A → outcome B) : outcome B :=
  match o with
  | Ok a => k a
  | Raise e => Raise e
  | Diverge => Diverge
  end.

Notation "'let?' x ':=' o 'in' k" := (obind o (fun x => k))
  (at level 10, x pattern, o at level 100, k at level 200).

(** [try: body except (classes): handler] *)
Definition try_except {A} (body : outcome A) (caught : exn → bool)
    (handler : outcome A) : outcome A :=
  match body with
  | Raise e => if caught e then handler else Raise e
  | r => r
  end.

(** [k in v] for a string constant [k]. *)
Definition py_contains (k : string) (v : value) : outcome bool :=
  match v with
  | VDict d => Ok (bool_decide (is_Some (d !! k)))
  | VList l => Ok (existsb (is_str k) l)
  | VStr s => Ok (bool_decide (is_Some (String.index 0 k s)))
  | _ => Raise TypeError
  end.

(** [v[k]] for a string constant [k]. *)
Definition py_getitem (v : value) (k : string) : outcome value :=
  match v with
  | VDict d => match d !! k with Some x => Ok x | None => Raise KeyError end
  | _ => Raise TypeError
  end.

(** ** Sessions

    A session is a dict with the fixed key ["id"] and the optional keys
    ["clientdict"], ["creds"], ["serverdict"] and ["last_used"]; an
    absent key is [None]. *)

Record session := Session {
  id : string;
  clientdict : option dict;
  creds : option dict;
  serverdict : option dict;
  last_used : option Z;
}.

Definition set_clientdict (cd : dict) (s : session) : session :=
  Session (id s) (Some cd) (creds s) (serverdict s) (last_used s).
Definition set_creds (c : dict) (s : session) : session :=
  Session (id s) (clientdict s) (Some c) (serverdict s) (last_used s).
Definition set_serverdict (d : dict) (s : session) : session :=
  Session (id s) (clientdict s) (creds s) (Some d) (last_used s).
Definition set_last_used (t : Z) (s : session) : session :=
  Session (id s) (clientdict s) (creds s) (serverdict s) (Some t).

(** The credentials a session holds; a session without the ["creds"] key
    holds none. *)
Definition session_creds (s : session) : dict := default ∅ (creds s).

(** ** The handler

    The mutable part of [AuthHandler]: [self.sessions], the reading of
    [self.hs.get_clock()] (it changes between calls, not within one) and
    the strings [stringutils.random_string(24)] is going to return. *)

Record AuthHandler := Handler {
  sessions : gmap string session;
  clock : Z;
  random_strings : list string;
}.

Definition set_sessions (tbl : gmap string session) (h : AuthHandler) : AuthHandler :=
  Handler tbl (clock h) (random_strings h).
Definition set_clock (t : Z) (h : AuthHandler) : AuthHandler :=
  Handler (sessions h) t (random_strings h).

(** Every session of the table is stored under its own id. *)
Definition table_ok (h : AuthHandler) : Prop :=
  ∀ k s, sessions h !! k = Some s → id s = k.

(** [sess] is a session of the table: the object the table holds under
    the session's id. *)
Definition live (h : AuthHandler) (sess : session) : Prop :=
  table_ok h ∧ sessions h !! id sess = Some sess.

(** Computations of the handler: the table is kept when an exception
    passes through. *)
Definition M (A : Type) : Type := AuthHandler → outcome A * AuthHandler.

Definition ret {A} (a : A) : M A := fun h => (Ok a, h).
Definition raise {A} (e : exn) : M A := fun h => (Raise e, h).
Definition lift {A} (o : outcome A) : M A := fun h => (o, h).
Definition bind {A B} (m : M A) (k : A → M B) : M B :=
  fun h =>
    match m h with
    | (Ok a, h') => k a h'
    | (Raise e, h') => (Raise e, h')
    | (Diverge, h') => (Diverge, h')
    end.

Notation "'let!' x ':=' m 'in' k" := (bind m (fun x => k))
  (at level 10, x pattern, m at level 100, k at level 200).

(** The session dict is one object, reachable from [self.sessions] and
    from the local variable [session]; an assignment [session[k] = v]
    is seen through both.  The model keeps the local record and writes
    it through to the table entry under its id. *)
Definition write_session (s : session) : M session :=
  fun h => (Ok s, set_sessions (<[id s := s]> (sessions h)) h).

(** ** Checkers *)

Definition checker := value → string → outcome value.


(** pymacaroons.Macaroon as far as the handler builds it: the
    constructor arguments and the ordered first-party caveats. *)
Record Macaroon := MkMacaroon {
  location : string;
  identifier : string;
  key : string;
  caveats : list string;
}.

Definition add_first_party_caveat (c : string) (m : Macaroon) : Macaroon :=
  MkMacaroon (location m) (identifier m) (key m) (caveats m ++ [c]).

(** The home server and the collaborators the handler calls: the checker
    registry built in [__init__], configuration values, the account
    store, bcrypt, pymacaroons and the auth API. *)
Record HomeServer := {
  checkers : gmap string checker;
  LoginType_RECAPTCHA : string;
  recaptcha_public_key : value;
  server_name : string;
  macaroon_secret_key : string;
  password_pepper : string;
  get_users_by_id_case_insensitive : string → outcome (gmap string (option string));
  hashpw : string → string → outcome string;
  serialize : Macaroon → string;
  deserialize : string → outcome Macaroon;
  get_user_id_from_macaroon : Macaroon → outcome string;
  validate_macaroon : Macaroon → string → bool → string → outcome unit;
}.

(** ** Session store *)

Definition SESSION_EXPIRE_MS : Z := 48 * 60 * 60 * 1000.

(** Body of the loop in [_prune_sessions] for one item. *)
Definition prune_step (now : Z) (sid : string) (sess : session)
    (tbl : gmap string session) : gmap string session :=
  let last_used := match last_used sess with Some t => t | None => 0 end in
  if decide (last_used < now - SESSION_EXPIRE_MS) then delete sid tbl else tbl.

(** A session is stale at [now] when its [last_used] (0 when the key is
    absent) lies more than [SESSION_EXPIRE_MS] in the past: the
    condition of the [if] above. *)
Definition stale (now : Z) (sess : session) : Prop :=
  default 0 (last_used sess) < now - SESSION_EXPIRE_MS.

#[global] Instance stale_dec now sess : Decision (stale now sess).
Proof. unfold stale. apply _. Defined.

(** [for sid, sess in self.sessions.items()]: in Python 2 [items()] is a
    list made before the loop starts, so the deletions do not disturb
    the iteration. *)
Definition _prune_sessions (now : Z) (tbl : gmap string session) : gmap string session :=
  map_fold (prune_step now) tbl tbl.

(** [_save_session] changes its argument in place; the changed record is
    the result. *)
Definition _save_session (sess : session) : M session :=
  fun h =>
    let sess := set_last_used (clock h) sess in
    let tbl := <[id sess := sess]> (sessions h) in
    (Ok sess, set_sessions (_prune_sessions (clock h) tbl) h).

(** The [while] loop of [_get_session_info]: draw until the string is
    not a key of the table. *)
Fixpoint fresh_session_id (draws : list string) (tbl : gmap string session)
    : option (string * list string) :=
  match draws with
  | [] => None
  | d :: rest =>
      match tbl !! d with
      | Some _ => fresh_session_id rest tbl
      | None => Some (d, rest)
      end
  end.

Definition new_session (sid : string) : session := Session sid None None None None.

Definition _get_session_info (session_id : value) : M session :=
  fun h =>
    match session_id with
    | VList _ | VDict _ => (Raise TypeError, h)   (* unhashable *)
    | _ =>
        (* if session_id not in self.sessions: session_id = None *)
        let session_id :=
          match session_id with
          | VStr s => match sessions h !! s with Some _ => VStr s | None => VNone end
          | _ => VNone
          end in
        if negb (truthy session_id) then
          match fresh_session_id (random_strings h) (sessions h) with
          | Some (sid, rest) =>
              let sess := new_session sid in
              (Ok sess, Handler (<[sid := sess]> (sessions h)) (clock h) rest)
          | None => (Diverge, Handler (sessions h) (clock h) [])
          end
        else
          match session_id with
          | VStr s =>
              match sessions h !! s with
              | Some sess => (Ok sess, h)
              | None => (Raise KeyError, h)
              end
          | _ => (Raise KeyError, h)
          end
    end.

(** ** The authentication state machine *)

(** The response of an incomplete attempt: the dict built by
    [_auth_dict_for_flows], with the optional key ["completed"]. *)
Record flow_response := FlowResponse {
  resp_session : string;
  resp_flows : list (list string);
  resp_params : dict;
  resp_completed : option (list string);
}.

Definition _get_params_recaptcha (hs : HomeServer) : value :=
  VDict {[ "public_key" := recaptcha_public_key hs ]}.

Definition _auth_dict_for_flows (hs : HomeServer) (flows : list (list string))
    (sess : session) : flow_response :=
  let public_flows := flows in
  let get_params : gmap string value :=
    {[ LoginType_RECAPTCHA hs := _get_params_recaptcha hs ]} in
  let params :=
    fold_left (fun params f =>
      fold_left (fun (params : dict) stage =>
        match get_params !! stage, params !! stage with
        | Some p, None => <[stage := p]> params
        | _, _ => params
        end) f params) public_flows ∅ in
  FlowResponse (id sess) public_flows params None.

(** The tuple [(authed, dict, clientdict, session_id)]: when [authed] is
    true the first dict is the credentials, otherwise the response for
    the client. *)
Inductive auth_result :=
| Authed (creds : dict) (params : dict) (session_id : string)
| NotAuthed (resp : flow_response) (params : dict) (session_id : string).

Definition authed (r : auth_result) : bool :=
  match r with Authed _ _ _ => true | NotAuthed _ _ _ => false end.
Definition result_params (r : auth_result) : dict :=
  match r with Authed _ p _ | NotAuthed _ p _ => p end.
Definition result_session_id (r : auth_result) : string :=
  match r with Authed _ _ s | NotAuthed _ _ s => s end.

(** [len(set(f) - set(creds.keys())) == 0] *)
Definition flow_done (creds : dict) (f : list string) : bool :=
  Nat.eqb (size ((list_to_set f : gset string) ∖ dom creds)) 0.

(** The [for f in flows] loop at the end of [check_auth]: the first
    completed flow returns. *)
Definition some_flow_done (creds : dict) (flows : list (list string)) : bool :=
  existsb (flow_done creds) flows.

(** [authdict['type'] not in self.checkers] followed by the lookup. *)
Definition find_checker (hs : HomeServer) (ty : value) (not_found : exn)
    : outcome (string * checker) :=
  match ty with
  | VList _ | VDict _ => Raise TypeError   (* unhashable *)
  | VStr t =>
      match checkers hs !! t with
      | Some c => Ok (t, c)
      | None => Raise not_found
      end
  | _ => Raise not_found
  end.

(** [check_auth] and [add_oob_auth] are written as the blocks of the
    source, in the order of the source.  The local variable [clientdict]
    is called [params] here (the record fields have the names of the
    session keys); the local [creds] is the object [session['creds']],
    read as [session_creds sess]. *)

(** Lines 114-120: take the ['auth'] entry out of the request and read
    the session id from it. *)
Definition split_auth (params : dict) : outcome (value * value * dict) :=
  match params !! "auth" with
  | Some authdict =>
      let params := delete "auth" params in
      let? has_session := py_contains "session" authdict in
      if (has_session : bool) then
        let? sid := py_getitem authdict "session" in Ok (authdict, sid, params)
      else Ok (authdict, VNone, params)
  | None => Ok (VNone, VNone, params)
  end.

(** Lines 123-136: store the parameters of this request in the session,
    or take the stored ones. *)
Definition remember_params (sess : session) (params : dict) : M (session * dict) :=
  if negb (Nat.eqb (size params) 0) then
    let! sess := write_session (set_clientdict params sess) in
    let! sess := _save_session sess in
    ret (sess, params)
  else
    match clientdict sess with
    | Some stored => ret (sess, stored)
    | None => ret (sess, params)
    end.

(** [if 'creds' not in session: session['creds'] = {}] *)
Definition ensure_creds (sess : session) : M session :=
  match creds sess with
  | Some _ => ret sess
  | None => write_session (set_creds ∅ sess)
  end.

(** [creds[stage] = result; self._save_session(session)] *)
Definition record_credential (stage : string) (result : value) (sess : session)
    : M session :=
  let earned := <[stage := result]> (session_creds sess) in
  let! sess := write_session (set_creds earned sess) in
  _save_session sess.

(** Lines 150-157: check the auth type that is being presented. *)
Definition present_stage (hs : HomeServer) (authdict : value) (clientip : string)
    (sess : session) : M session :=
  let! has_type := lift (py_contains "type" authdict) in
  if (has_type : bool) then
    let! ty := lift (py_getitem authdict "type") in
    let! (t, check) := lift (find_checker hs ty (LoginError 400 "" UNRECOGNIZED)) in
    let! result := lift (check authdict clientip) in
    if truthy result then record_credential t result sess
    else ret sess
  else ret sess.

(** Lines 159-166: the first completed flow ends the authentication;
    otherwise the flows are sent again with the stages completed so
    far.  [creds.keys()] lists the keys in the order of the Python
    dict, which a finite map does not record: the list built here has
    the same elements, and what is proved of it is up to
    permutation. *)
Definition conclude (hs : HomeServer) (flows : list (list string)) (sess : session)
    (params : dict) : auth_result :=
  let earned := session_creds sess in
  if some_flow_done earned flows then Authed earned params (id sess)
  else
    let r := _auth_dict_for_flows hs flows sess in
    let r := FlowResponse (resp_session r) (resp_flows r) (resp_params r)
               (Some (elements (dom earned))) in
    NotAuthed r params (id sess).

Definition check_auth (hs : HomeServer) (flows : list (list string))
    (params : dict) (clientip : string) : M auth_result :=
  let! (authdict, sid, params) := lift (split_auth params) in
  let! sess := _get_session_info sid in
  let! (sess, params) := remember_params sess params in
  if negb (truthy authdict) then
    ret (NotAuthed (_auth_dict_for_flows hs flows sess) params (id sess))
  else
    let! sess := ensure_creds sess in
    let! sess := present_stage hs authdict clientip sess in
    ret (conclude hs flows sess params).

Definition add_oob_auth (hs : HomeServer) (stagetype : string) (authdict : value)
    (clientip : string) : M bool :=
  let! (_, check) :=
    lift (find_checker hs (VStr stagetype) missing_param) in
  let! has_session := lift (py_contains "session" authdict) in
  if negb has_session then raise missing_param
  else
    let! sid := lift (py_getitem authdict "session") in
    let! sess := _get_session_info sid in
    let! sess := ensure_creds sess in
    let! result := lift (check authdict clientip) in
    if truthy result then
      let! _ := record_credential stagetype result sess in
      ret true
    else ret false.

(** [get_session_id]: the extraction of lines 114-120 without touching
    the request or the table. *)
Definition get_session_id (params : dict) : outcome value :=
  match params !! "auth" with
  | Some authdict =>
      let? has_session := py_contains "session" authdict in
      if (has_session : bool) then py_getitem authdict "session" else Ok VNone
  | None => Ok VNone
  end.

(** [sess.setdefault('serverdict', {})] *)
Definition setdefault_serverdict (sess : session) : M (session * dict) :=
  match serverdict sess with
  | Some d => ret (sess, d)
  | None =>
      let! sess := write_session (set_serverdict ∅ sess) in
      ret (sess, ∅)
  end.

Definition set_session_data (session_id : value) (key : string) (v : value) : M unit :=
  let! sess := _get_session_info session_id in
  let! (sess, d) := setdefault_serverdict sess in
  let! sess := write_session (set_serverdict (<[key := v]> d) sess) in
  let! _ := _save_session sess in
  ret ().

Definition get_session_data (session_id : value) (key : string) (dflt : value)
    : M value :=
  let! sess := _get_session_info session_id in
  let! (_, d) := setdefault_serverdict sess in
  ret (default dflt (d !! key)).

(** [_check_dummy_auth] *)
Definition _check_dummy_auth : checker := fun _ _ => Ok (VBool true).

(** ** Local password verification *)

(** [validate_hash]: [stored_hash] is [None] for an account without a
    password hash.  [encode('utf-8')] leaves a hash string as it is. *)
Definition validate_hash (hs : HomeServer) (password : string)
    (stored_hash : option string) : outcome bool :=
  match stored_hash with
  | Some h =>
      if truthy (VStr h) then
        let? computed := hashpw hs (password +:+ password_pepper hs) h in
        Ok (String.eqb computed h)
      else Ok false
  | None => Ok false
  end.

Definition _find_user_id_and_pwd_hash (hs : HomeServer) (user_id : string)
    : outcome (string * option string) :=
  let? user_infos := get_users_by_id_case_insensitive hs user_id in
  if Nat.eqb (size user_infos) 0 then Raise forbidden
  else if (1 <? size user_infos)%nat then
    match user_infos !! user_id with
    | None => Raise forbidden
    | Some h => Ok (user_id, h)
    end
  else
    (* user_infos.popitem() on a dict with one item *)
    match map_to_list user_infos with
    | item :: _ => Ok item
    | [] => Raise KeyError
    end.

Definition _check_local_password (hs : HomeServer) (user_id password : string)
    : outcome string :=
  let? (user_id, password_hash) := _find_user_id_and_pwd_hash hs user_id in
  let? result := validate_hash hs password password_hash in
  if negb result then Raise forbidden
  else Ok user_id.

(** The specification's account of local verification once the account
    is resolved to [(canonical, stored)]: an absent hash or a mismatch
    is forbidden, a match gives the canonical id.  (An exception of
    [hashpw] is neither.) *)
Definition local_verdict (hs : HomeServer) (password canonical : string)
    (stored : option string) : outcome string :=
  match stored with
  | None => Raise forbidden
  | Some h =>
      if decide (h = "") then Raise forbidden
      else
        match hashpw hs (password +:+ password_pepper hs) h with
        | Ok computed => if decide (computed = h) then Ok canonical else Raise forbidden
        | Raise e => Raise e
        | Diverge => Diverge
        end
  end.

(** ** Tokens *)

Definition _generate_base_macaroon (hs : HomeServer) (user_id : string) : Macaroon :=
  let macaroon := MkMacaroon (server_name hs) "key" (macaroon_secret_key hs) [] in
  let macaroon := add_first_party_caveat "gen = 1" macaroon in
  let macaroon := add_first_party_caveat ("user_id = " +:+ user_id) macaroon in
  macaroon.

(** The macaroon [generate_access_token] serializes.  [extra_caveats]
    and [duration_in_ms] are [None] when the caller leaves them out;
    [now] is the reading of the clock. *)
Definition access_macaroon (hs : HomeServer) (now : Z) (user_id : string)
    (extra_caveats : option (list string)) (duration_in_ms : option Z) : Macaroon :=
  let duration_in_ms := default (60 * 60 * 1000) duration_in_ms in
  (* extra_caveats = extra_caveats or [] *)
  let extra_caveats := default [] extra_caveats in
  let macaroon := _generate_base_macaroon hs user_id in
  let macaroon := add_first_party_caveat "type = access" macaroon in
  let expiry := now + duration_in_ms in
  let macaroon := add_first_party_caveat ("time < " +:+ pretty expiry) macaroon in
  fold_left (fun m caveat => add_first_party_caveat caveat m) extra_caveats macaroon.

Definition generate_access_token (hs : HomeServer) (h : AuthHandler) (user_id : string)
    (extra_caveats : option (list string)) (duration_in_ms : option Z) : string :=
  serialize hs (access_macaroon hs (clock h) user_id extra_caveats duration_in_ms).

(** [nonce] is what [stringutils.random_string_with_symbols(16)] returns
    on this call. *)
Definition refresh_macaroon (hs : HomeServer) (nonce : string) (user_id : string)
    : Macaroon :=
  let m := _generate_base_macaroon hs user_id in
  let m := add_first_party_caveat "type = refresh" m in
  add_first_party_caveat ("nonce = " +:+ nonce) m.

Definition generate_refresh_token (hs : HomeServer) (nonce : string) (user_id : string)
    : string :=
  serialize hs (refresh_macaroon hs nonce user_id).

Definition login_macaroon (hs : HomeServer) (now : Z) (user_id : string)
    (duration_in_ms : option Z) : Macaroon :=
  let duration_in_ms := default (2 * 60 * 1000) duration_in_ms in
  let macaroon := _generate_base_macaroon hs user_id in
  let macaroon := add_first_party_caveat "type = login" macaroon in
  let expiry := now + duration_in_ms in
  add_first_party_caveat ("time < " +:+ pretty expiry) macaroon.

Definition generate_short_term_login_token (hs : HomeServer) (h : AuthHandler)
    (user_id : string) (duration_in_ms : option Z) : string :=
  serialize hs (login_macaroon hs (clock h) user_id duration_in_ms).

Definition delete_pusher_macaroon (hs : HomeServer) (user_id : string) : Macaroon :=
  let macaroon := _generate_base_macaroon hs user_id in
  add_first_party_caveat "type = delete_pusher" macaroon.

Definition generate_delete_pusher_token (hs : HomeServer) (user_id : string) : string :=
  serialize hs (delete_pusher_macaroon hs user_id).

(** The classes named by the [except] clause of
    [validate_short_term_login_token_and_get_user_id]. *)
Definition token_fault (e : exn) : bool :=
  match e with
  | MacaroonException | TypeError | ValueError => true
  | _ => false
  end.

(** The failures the [try] block is written for: the classes of the
    [except] clause, and the unknown-token error (401) that the auth
    API raises itself. *)
Definition token_failure (e : exn) : Prop :=
  token_fault e = true ∨ ∃ msg, e = AuthError 401 msg UNKNOWN_TOKEN.

Definition fails_as_token {A} (o : outcome A) : Prop :=
  match o with
  | Ok _ => True
  | Raise e => token_failure e
  | Diverge => False
  end.

Definition validate_short_term_login_token_and_get_user_id (hs : HomeServer)
    (login_token : string) : outcome string :=
  try_except
    (let? macaroon := deserialize hs login_token in
     let? user_id := get_user_id_from_macaroon hs macaroon in
     let? _ := validate_macaroon hs macaroon "login" true user_id in
     Ok user_id)
    token_fault
    (Raise unknown_token).

(** ** A small deployment

    A concrete home server and handler, used to run the definitions on
    examples. *)

Module Sample.

(** LoginType.DUMMY, as in the scenario of section 8. *)
Definition DUMMY : string := "m.login.dummy".
Definition RECAPTCHA : string := "m.login.recaptcha".

(** A checker that rejects every attempt, the way the recaptcha
    checker does for a wrong response. *)
Definition reject : checker := fun _ _ => Raise (LoginError 401 "" UNAUTHORIZED).

(** A checker with a falsy result. *)
Definition undecided : checker := fun _ _ => Ok VNone.

Definition lower_ascii (c : Ascii.ascii) : Ascii.ascii :=
  let n := Ascii.nat_of_ascii c in
  if ((65 <=? n) && (n <=? 90))%nat then Ascii.ascii_of_nat (n + 32) else c.

Fixpoint lower (s : string) : string :=
  match s with
  | EmptyString => EmptyString
  | String c rest => String (lower_ascii c) (lower rest)
  end.

Definition accounts : gmap string (option string) :=
  {[ "@bob:example.org" := Some "$2b$secret";
     "@alice:example.org" := Some "$2b$wonderland";
     "@Alice:example.org" := Some "$2b$looking-glass";
     "@carol:example.org" := None ]}.

(** Modelled from the spec: the account store's case-insensitive id
    lookup (section 6), which is not part of the handler: the accounts
    whose id equals the given one up to case, with their hashes. *)
Definition users_by_id_case_insensitive (user_id : string)
    : outcome (gmap string (option string)) :=
  Ok (filter (fun kv => lower kv.1 = lower user_id) accounts).

(** A stand-in for [bcrypt.hashpw(password, salt)]: like bcrypt it
    raises ValueError ("Invalid salt") for a salt that does not start
    with a version tag, and otherwise answers with a string that
    starts with the salt's prefix. *)
Definition toy_hashpw (password salt : string) : outcome string :=
  if String.prefix "$2" salt then Ok (String.substring 0 4 salt +:+ password)
  else Raise ValueError.

Definition join_caveats (m : Macaroon) : string :=
  fold_right (fun c acc => c +:+ ";" +:+ acc) "" (caveats m).

Definition login_token_of_bob : Macaroon :=
  MkMacaroon "example.org" "key" "s3cr3t"
    ["gen = 1"; "user_id = @bob:example.org"; "type = login"; "time < 1470000120000"].

Definition toy_deserialize (t : string) : outcome Macaroon :=
  if String.eqb t (join_caveats login_token_of_bob) then Ok login_token_of_bob
  else Raise MacaroonException.

Definition toy_get_user_id (m : Macaroon) : outcome string :=
  match List.find (String.prefix "user_id = ") (caveats m) with
  | Some c => Ok (String.substring 10 (String.length c - 10) c)
  | None => Raise (AuthError 401 "No user caveat in macaroon" UNKNOWN_TOKEN)
  end.

Definition toy_validate (m : Macaroon) (type_string : string) (verify_expiry : bool)
    (user_id : string) : outcome unit :=
  if existsb (String.eqb ("type = " +:+ type_string)) (caveats m) then Ok ()
  else Raise MacaroonException.

Definition hs : HomeServer := {|
  checkers := {[ DUMMY := _check_dummy_auth; RECAPTCHA := reject;
                 "org.example.undecided" := undecided ]};
  LoginType_RECAPTCHA := RECAPTCHA;
  recaptcha_public_key := VStr "public";
  server_name := "example.org";
  macaroon_secret_key := "s3cr3t";
  password_pepper := "";
  get_users_by_id_case_insensitive := users_by_id_case_insensitive;
  hashpw := toy_hashpw;
  serialize := join_caveats;
  deserialize := toy_deserialize;
  get_user_id_from_macaroon := toy_get_user_id;
  validate_macaroon := toy_validate;
|}.

(** A handler just started, at a clock reading of the year 2016. *)
Definition start : AuthHandler :=
  Handler ∅ 1470000000000
    ["abcdefghijklmnopqrstuvwx"; "ABCDEFGHIJKLMNOPQRSTUVWX"; "zyxwvutsrqponmlkjihgfedc"].

Definition ip : string := "203.0.113.7".

(** The result of a run that returned. *)
Definition result_of (run : outcome auth_result * AuthHandler) : auth_result :=
  match run.1 with
  | Ok r => r
  | _ => NotAuthed (FlowResponse "" [] ∅ None) ∅ ""
  end.

(** First request of a registration: parameters and the dummy stage. *)
Definition first_request : dict :=
  {[ "username" := VStr "bob";
     "auth" := VDict {[ "type" := VStr DUMMY ]} ]}.

Definition first_run := check_auth hs [[DUMMY]] first_request ip start.

End Sample.

(* ===================================================================== *)
(** * More of the handler *)
(* ===================================================================== *)

(** ** How the table changes

    [kept_by h h']: a session of [h] that is still in the table of [h']
    has all the credential keys it had (its values may be newer). *)
Definition kept_by (h h' : AuthHandler) : Prop :=
  ∀ k s, sessions h !! k = Some s →
    sessions h' !! k = None ∨
    ∃ s', sessions h' !! k = Some s' ∧
          dom (session_creds s) ⊆ dom (session_creds s').

(** [descends h h']: every session of [h'] is a later version of the
    session [h] holds under the same id, with at least its credential
    keys; sessions of [h] may be gone. *)
Definition descends (h h' : AuthHandler) : Prop :=
  ∀ k, sessions h' !! k = None ∨
       ∃ s s', sessions h !! k = Some s ∧ sessions h' !! k = Some s' ∧
               dom (session_creds s) ⊆ dom (session_creds s').

(** ** The built-in checkers *)

(** [v[k] = x] for a string constant [k]. *)
Definition py_setitem (v : value) (k : string) (x : value) : outcome value :=
  match v with
  | VDict d => Ok (VDict (<[k := x]> d))
  | _ => Raise TypeError
  end.

Definition is_KeyError (e : exn) : bool :=
  match e with KeyError => true | _ => false end.

Definition is_LoginError (e : exn) : bool :=
  match e with LoginError _ _ _ => true | _ => false end.

(** What [client.post_urlencoded_get_json] ends with: the parsed body,
    twisted's PartialDownloadError (which carries the bytes received in
    its [response]), or another exception. *)
Inductive http_reply :=
| HttpBody (body : value)
| HttpPartialDownload (response : string)
| HttpError (e : exn).

(** What the checkers reach through the home server besides the fields
    of [HomeServer]: the captcha configuration and HTTP client,
    simplejson, and the identity handler. *)
Record Services := {
  recaptcha_siteverify_api : string;
  recaptcha_private_key : value;
  post_urlencoded_get_json : string → dict → http_reply;
  simplejson_loads : string → outcome value;
  threepid_from_creds : value → outcome value;
}.

Definition _check_recaptcha (sv : Services) : checker :=
  fun authdict clientip =>
    let? user_response :=
      try_except (py_getitem authdict "response") is_KeyError
        (Raise (LoginError 400 "Captcha response is required" CAPTCHA_NEEDED)) in
    let? resp_body :=
      match post_urlencoded_get_json sv (recaptcha_siteverify_api sv)
              {[ "secret" := recaptcha_private_key sv;
                 "response" := user_response;
                 "remoteip" := VStr clientip ]} with
      | HttpBody body => Ok body
      | HttpPartialDownload data => simplejson_loads sv data
      | HttpError e => Raise e
      end in
    let? has_success := py_contains "success" resp_body in
    if (has_success : bool) then
      (* the arguments of logger.info, then the test *)
      let? success := py_getitem resp_body "success" in
      if truthy success then Ok (VBool true)
      else Raise (LoginError 401 "" UNAUTHORIZED)
    else Raise (LoginError 401 "" UNAUTHORIZED).

Definition _check_email_identity (sv : Services) : checker :=
  fun authdict _ =>
    let? has_creds := py_contains "threepid_creds" authdict in
    if negb has_creds then
      Raise (LoginError 400 "Missing threepid_creds" MISSING_PARAM)
    else
      let? threepid_creds := py_getitem authdict "threepid_creds" in
      let? threepid := threepid_from_creds sv threepid_creds in
      if negb (truthy threepid) then Raise (LoginError 401 "" UNAUTHORIZED)
      else
        let? threepid_creds := py_getitem authdict "threepid_creds" in
        py_setitem threepid "threepid_creds" threepid_creds.

(** ** Accounts and password hashes *)

(** [check_user_exists]: the canonical id, or [None]. *)
Definition check_user_exists (hs : HomeServer) (user_id : string)
    : outcome (option string) :=
  try_except
    (let? res := _find_user_id_and_pwd_hash hs user_id in Ok (Some res.1))
    is_LoginError
    (Ok None).

(** [hash]: [salt] is what [bcrypt.gensalt(self.bcrypt_rounds)] returns
    on this call. *)
Definition hash (hs : HomeServer) (salt : string) (password : string)
    : outcome string :=
  hashpw hs (password +:+ password_pepper hs) salt.

(** ** Password verification against the directory and the accounts *)

(** [len(v)] *)
Definition py_len (v : value) : outcome nat :=
  match v with
  | VStr s => Ok (String.length s)
  | VList l => Ok (length l)
  | VDict d => Ok (size d)
  | _ => Raise TypeError
  end.

(** [v[0]] *)
Definition py_first (v : value) : outcome value :=
  match v with
  | VList (x :: _) => Ok x
  | VList [] => Raise (OtherException "IndexError")
  | VStr (String c _) => Ok (VStr (String c EmptyString))
  | VStr EmptyString => Raise (OtherException "IndexError")
  | VDict _ => Raise KeyError
  | _ => Raise TypeError
  end.

(** ldap3.core.exceptions.LDAPException and its subclasses. *)
Definition LDAPException : exn := OtherException "LDAPException".
Definition is_LDAPException (e : exn) : bool :=
  match e with
  | OtherException cls => String.eqb cls "LDAPException"
  | _ => false
  end.

(** The calls the handler makes on ldap3, in the order of the source:
    [ldap3.Server(uri)], [ldap3.Connection(server, user, password)]
    (with [auto_bind=True] or without), and on the connection
    [start_tls()], [bind()], [unbind()] and [search(...)]. *)
Inductive ldap_call :=
| LdapServer (uri : string)
| LdapConnection (user password : value) (auto_bind : bool)
| LdapStartTls
| LdapBind
| LdapUnbind
| LdapSearch (search_base search_filter : string) (attributes : option (list string)).

(** The LDAP configuration read in [__init__], [synapse.config.ldap.LDAPMode],
    the ldap3 library, and what else password checking reaches:
    [synapse.types.UserID] and the registration handler.  The directory
    answers a call by returning a value or raising, depending on the
    calls made so far (the list ends with the call being answered);
    [ldap3_response] is [conn.response] after these calls. *)
Record Directory := {
  ldap3_imported : bool;
  ldap_enabled : bool;
  ldap_mode : string;
  ldap_uri : string;
  ldap_start_tls : bool;
  ldap_base : string;
  ldap_filter : option string;
  ldap_attributes : gmap string string;
  ldap_bind_dn : value;
  ldap_bind_password : value;
  LDAPMode_SIMPLE : string;
  LDAPMode_SEARCH : string;
  LDAPMode_LIST : list string;
  ldap3_call : list ldap_call → outcome value;
  ldap3_response : list ldap_call → value;
  UserID_from_string_localpart : string → outcome string;
  UserID_create_to_string : string → string → string;
  hostname : string;
  register : string → outcome (string * string);
}.

(** One call on ldap3: the call is added to the calls made, and the
    directory answers. *)
Definition ldap_do (d : Directory) (made : list ldap_call) (call : ldap_call)
    : outcome (value * list ldap_call) :=
  let made := (made ++ [call])%list in
  let? answer := ldap3_call d made in
  Ok (answer, made).

(** [self.ldap_attributes[k]] *)
Definition ldap_attribute (d : Directory) (k : string) : outcome string :=
  match ldap_attributes d !! k with
  | Some a => Ok a
  | None => Raise KeyError
  end.

(** [conn = ldap3.Connection(server, user, password)], then
    [conn.start_tls()] if configured, then [conn.bind()]: the opening of
    both modes.  What the calls return is not looked at. *)
Definition ldap_connect_and_bind (d : Directory) (made : list ldap_call)
    (user password : value) : outcome (list ldap_call) :=
  let? (_, made) := ldap_do d made (LdapConnection user password false) in
  let? made :=
    if ldap_start_tls d then
      let? (_, made) := ldap_do d made LdapStartTls in Ok made
    else Ok made in
  let? (_, made) := ldap_do d made LdapBind in
  Ok made.

(** Where the first part of [_check_ldap_password] leaves the local
    variable [conn]: never assigned, or a connection (the calls made),
    unless the function has returned false already. *)
Inductive ldap_conn :=
| ConnUnbound
| Conn (made : list ldap_call)
| ReturnedFalse.

Definition option_truthy (o : option string) : bool :=
  match o with Some s => truthy (VStr s) | None => false end.

Definition _check_ldap_password (hs : HomeServer) (d : Directory)
    (user_id : string) (password : value) : outcome bool :=
  if negb (ldap3_imported d) || negb (ldap_enabled d) then Ok false
  else if negb (bool_decide (ldap_mode d ∈ LDAPMode_LIST d)) then
    Raise (OtherException "RuntimeError")
  else
    try_except
      (let? (_, made) := ldap_do d [] (LdapServer (ldap_uri d)) in
       let? localpart := UserID_from_string_localpart d user_id in
       let? conn :=
         if String.eqb (ldap_mode d) (LDAPMode_SIMPLE d) then
           (* bind with the the local users ldap credentials *)
           let? uid := ldap_attribute d "uid" in
           let bind_dn := uid +:+ "=" +:+ localpart +:+ "," +:+ ldap_base d in
           let? made := ldap_connect_and_bind d made (VStr bind_dn) password in
           Ok (Conn made)
         else if String.eqb (ldap_mode d) (LDAPMode_SEARCH d) then
           (* connect with preconfigured credentials and search for local user *)
           let? made :=
             ldap_connect_and_bind d made (ldap_bind_dn d) (ldap_bind_password d) in
           let? uid := ldap_attribute d "uid" in
           let query := "(" +:+ uid +:+ "=" +:+ localpart +:+ ")" in
           let query :=
             if option_truthy (ldap_filter d)
             then "(&" +:+ query +:+ default "" (ldap_filter d) +:+ ")"
             else query in
           let? (result, made) :=
             ldap_do d made (LdapSearch (ldap_base d) query None) in
           let response := ldap3_response d made in
           let? exactly_one :=
             if truthy result then
               let? n := py_len response in Ok (Nat.eqb n 1)
             else Ok false in
           if (exactly_one : bool) then
             let? entry := py_first response in
             let? user_dn := py_getitem entry "dn" in
             (* unbind and reconnect, rebind with found dn *)
             let? (_, made) := ldap_do d made LdapUnbind in
             let? (_, made) := ldap_do d made (LdapConnection user_dn password true) in
             Ok (Conn made)
           else
             (* found 0 or > 1 results, abort! *)
             let? _ := py_len response in
             Ok ReturnedFalse
         else Ok ConnUnbound in
       match conn with
       | ReturnedFalse => Ok false
       | ConnUnbound => Raise (OtherException "UnboundLocalError")
       | Conn made =>
           (* check for existing account, if none exists, create one *)
           let? existing := check_user_exists hs user_id in
           if negb (option_truthy existing) then
             let? uid := ldap_attribute d "uid" in
             let query := "(" +:+ uid +:+ "=" +:+ localpart +:+ ")" in
             let query :=
               if String.eqb (ldap_mode d) (LDAPMode_SEARCH d)
                  && option_truthy (ldap_filter d)
               then "(&" +:+ query +:+ default "" (ldap_filter d) +:+ ")"
               else query in
             let? name_attribute := ldap_attribute d "name" in
             let? mail_attribute := ldap_attribute d "mail" in
             let? (result, made) :=
               ldap_do d made
                 (LdapSearch (ldap_base d) query
                    (Some [name_attribute; mail_attribute])) in
             let response := ldap3_response d made in
             let? n := py_len response in
             if Nat.eqb n 1 then
               let? entry := py_first response in
               let? attrs := py_getitem entry "attributes" in
               let? mails := py_getitem attrs mail_attribute in
               let? mail := py_first mails in
               let? names := py_getitem attrs name_attribute in
               let? name := py_first names in
               (* create account *)
               let? _ := register d localpart in
               Ok true
             else
               let? _ := py_len result in
               Ok false
           else Ok true
       end)
      is_LDAPException
      (Ok false).

(** [validate_hash] and [_check_local_password] for a password that is
    any value of the request: [password + pepper] needs a string. *)
Definition validate_hash_any (hs : HomeServer) (password : value)
    (stored_hash : option string) : outcome bool :=
  match password with
  | VStr p => validate_hash hs p stored_hash
  | _ => if option_truthy stored_hash then Raise TypeError else Ok false
  end.

Definition _check_local_password_any (hs : HomeServer) (user_id : string)
    (password : value) : outcome string :=
  let? (user_id, password_hash) := _find_user_id_and_pwd_hash hs user_id in
  let? result := validate_hash_any hs password password_hash in
  if negb result then Raise forbidden
  else Ok user_id.

Definition _check_password (hs : HomeServer) (d : Directory) (user_id : string)
    (password : value) : outcome string :=
  let? valid_ldap := _check_ldap_password hs d user_id password in
  if (valid_ldap : bool) then Ok user_id
  else _check_local_password_any hs user_id password.

Definition validate_password_login (hs : HomeServer) (d : Directory)
    (user_id : string) (password : value) : outcome string :=
  _check_password hs d user_id password.

Definition _check_password_auth (hs : HomeServer) (d : Directory) : checker :=
  fun authdict _ =>
    let? has_user := py_contains "user" authdict in
    let? missing :=
      if negb has_user then Ok true
      else let? has_password := py_contains "password" authdict in
           Ok (negb has_password) in
    if (missing : bool) then Raise missing_param
    else
      let? user_id := py_getitem authdict "user" in
      let? password := py_getitem authdict "password" in
      match user_id with
      | VStr user_id =>
          let user_id :=
            if negb (String.prefix "@" user_id)
            then UserID_create_to_string d user_id (hostname d)
            else user_id in
          let? canonical := _check_password hs d user_id password in
          Ok (VStr canonical)
      | _ => Raise (OtherException "AttributeError")
      end.

(** ** Tokens and passwords in the account store *)

(** The exceptions of this part of the handler: [SynapseError] and
    [StoreError] of synapse.api.errors, with their fields, and any
    other exception. *)
Inductive account_exn :=
| SynapseError (code : Z) (msg : string) (errcode : Codes)
| StoreError (code : Z) (msg : string)
| PyError (e : exn).

(** The operations on the account store, the device handler and the
    pusher pool that the handler starts, with their arguments. *)
Inductive store_op :=
| add_access_token_to_user (user_id token : string) (device_id : option string)
| add_refresh_token_to_user (user_id token : string) (device_id : option string)
| check_device_registered (user_id device_id : string)
    (initial_display_name : option string)
| user_set_password_hash (user_id password_hash : string)
| user_delete_access_tokens (user_id : string) (except_token_ids : list value)
| remove_pushers_by_user (user_id : string) (except_token_ids : list value)
| user_add_threepid (user_id medium address : string) (validated_at now : Z).

(** The store answers an operation by completing it or by raising,
    depending on the operations so far (the list ends with the
    operation being answered). *)
Definition store_oracle := list store_op → option account_exn.

(** How a computation on the store ends. *)
Inductive ended (A : Type) :=
| Returned (a : A)
| Raised (e : account_exn)
| Unended.
Arguments Returned {A} a.
Arguments Raised {A} e.
Arguments Unended {A}.

(** A computation on the store: from the operations performed so far
    to its end and the operations performed by then. *)
Definition Store (A : Type) : Type := list store_op → ended A * list store_op.

Definition sret {A} (a : A) : Store A := fun log => (Returned a, log).
Definition sbind {A B} (m : Store A) (k : A → Store B) : Store B :=
  fun log =>
    match m log with
    | (Returned a, log') => k a log'
    | (Raised e, log') => (Raised e, log')
    | (Unended, log') => (Unended, log')
    end.

Notation "'let$' x ':=' m 'in' k" := (sbind m (fun x => k))
  (at level 10, x pattern, m at level 100, k at level 200).

(** A computation that touches no store. *)
Definition pure_step {A} (o : outcome A) : Store A :=
  fun log =>
    match o with
    | Ok a => (Returned a, log)
    | Raise e => (Raised (PyError e), log)
    | Diverge => (Unended, log)
    end.

(** [yield self.store.<op>(...)] *)
Definition perform (store : store_oracle) (op : store_op) : Store unit :=
  fun log =>
    let log := (log ++ [op])%list in
    match store log with
    | None => (Returned (), log)
    | Some e => (Raised e, log)
    end.

Definition issue_access_token (hs : HomeServer) (h : AuthHandler)
    (store : store_oracle) (user_id : string) (device_id : option string)
    : Store string :=
  let access_token := generate_access_token hs h user_id None None in
  let$ _ := perform store (add_access_token_to_user user_id access_token device_id) in
  sret access_token.

(** [nonce] is the random string [generate_refresh_token] draws. *)
Definition issue_refresh_token (hs : HomeServer) (nonce : string)
    (store : store_oracle) (user_id : string) (device_id : option string)
    : Store string :=
  let refresh_token := generate_refresh_token hs nonce user_id in
  let$ _ := perform store (add_refresh_token_to_user user_id refresh_token device_id) in
  sret refresh_token.

Definition get_login_tuple_for_user_id (hs : HomeServer) (h : AuthHandler)
    (nonce : string) (store : store_oracle) (user_id : string)
    (device_id initial_display_name : option string) : Store (string * string) :=
  let$ access_token := issue_access_token hs h store user_id device_id in
  let$ refresh_token := issue_refresh_token hs nonce store user_id device_id in
  let$ _ :=
    match device_id with
    | Some device =>
        perform store (check_device_registered user_id device initial_display_name)
    | None => sret ()
    end in
  sret (access_token, refresh_token).

(** synapse.types.Requester, as far as the handler reads it. *)
Record Requester := { access_token_id : value }.

(** [try: yield self.store.user_set_password_hash(...)] with its
    [except StoreError] clause. *)
Definition unknown_user_on_404 (m : Store unit) : Store unit :=
  fun log =>
    match m log with
    | (Raised (StoreError code msg), log') =>
        if Z.eqb code 404
        then (Raised (SynapseError 404 "Unknown user" NOT_FOUND), log')
        else (Raised (StoreError code msg), log')
    | r => r
    end.

(** [set_password]: [salt] is the salt [hash] draws. *)
Definition set_password (hs : HomeServer) (salt : string) (store : store_oracle)
    (user_id newpassword : string) (requester : option Requester) : Store unit :=
  let$ password_hash := pure_step (hash hs salt newpassword) in
  let except_access_token_ids :=
    match requester with
    | Some requester => [access_token_id requester]
    | None => []
    end in
  let$ _ :=
    unknown_user_on_404
      (perform store (user_set_password_hash user_id password_hash)) in
  let$ _ := perform store (user_delete_access_tokens user_id except_access_token_ids) in
  perform store (remove_pushers_by_user user_id except_access_token_ids).

Definition add_threepid (h : AuthHandler) (store : store_oracle)
    (user_id medium address : string) (validated_at : Z) : Store unit :=
  perform store (user_add_threepid user_id medium address validated_at (clock h)).

(** ** A sample of the collaborators of this part *)

Module Demo.

(** A stand-in for the captcha verification service: it accepts the
    response "03AHJ_VuvK" and no other; towards one address the
    connection breaks off after the body has arrived. *)
Definition siteverify (uri : string) (args : dict) : http_reply :=
  match args !! "remoteip", args !! "response" with
  | Some (VStr clientip), Some (VStr response) =>
      if String.eqb clientip "198.51.100.9" then
        HttpPartialDownload (if String.eqb response "03AHJ_VuvK"
                             then "success" else "failure")
      else
        HttpBody (VDict {[ "success" := VBool (String.eqb response "03AHJ_VuvK");
                           "hostname" := VStr "client.example.org" ]})
  | _, _ => HttpError (OtherException "ConnectError")
  end.

(** A stand-in for [simplejson.loads] on the two bodies of the stand-in
    service. *)
Definition loads (data : string) : outcome value :=
  if String.eqb data "success" then Ok (VDict {[ "success" := VBool true ]})
  else if String.eqb data "failure" then Ok (VDict {[ "success" := VBool false ]})
  else Raise ValueError.

(** A stand-in for the identity handler: one validated address. *)
Definition validated (threepid_creds : value) : outcome value :=
  match threepid_creds with
  | VDict c =>
      match c !! "sid" with
      | Some (VStr sid) =>
          if String.eqb sid "42"
          then Ok (VDict {[ "medium" := VStr "email";
                            "address" := VStr "bob@example.org";
                            "validated_at" := VInt 1470000000000 ]})
          else Ok VNone
      | _ => Raise KeyError
      end
  | _ => Raise TypeError
  end.

Definition sv : Services := {|
  recaptcha_siteverify_api := "https://www.google.com/recaptcha/api/siteverify";
  recaptcha_private_key := VStr "private";
  post_urlencoded_get_json := siteverify;
  simplejson_loads := loads;
  threepid_from_creds := validated;
|}.

(** A stand-in for [UserID.from_string(s).localpart]: what stands
    between the sigil and the first colon. *)
Definition localpart_of (s : string) : outcome string :=
  if String.prefix "@" s then
    match String.index 0 ":" s with
    | Some i => Ok (String.substring 1 (i - 1) s)
    | None => Raise (OtherException "SynapseError")
    end
  else Raise (OtherException "SynapseError").

(** A directory whose calls all return false and whose connections
    never have a response entry. *)
Definition directory (mode : string) : Directory := {|
  ldap3_imported := true;
  ldap_enabled := true;
  ldap_mode := mode;
  ldap_uri := "ldap://ldap.example.org";
  ldap_start_tls := true;
  ldap_base := "ou=people,dc=example,dc=org";
  ldap_filter := Some "(objectClass=posixAccount)";
  ldap_attributes := {[ "uid" := "cn"; "name" := "givenName"; "mail" := "mail" ]};
  ldap_bind_dn := VStr "cn=synapse,dc=example,dc=org";
  ldap_bind_password := VStr "bind-secret";
  LDAPMode_SIMPLE := "simple";
  LDAPMode_SEARCH := "search";
  LDAPMode_LIST := ["simple"; "search"];
  ldap3_call := fun _ => Ok (VBool false);
  ldap3_response := fun _ => VList [];
  UserID_from_string_localpart := localpart_of;
  UserID_create_to_string := fun localpart domain => "@" +:+ localpart +:+ ":" +:+ domain;
  hostname := "example.org";
  register := fun localpart => Ok ("@" +:+ localpart +:+ ":example.org", "token");
|}.

(** A stand-in for [bcrypt.hashpw] that, like bcrypt, gives the same
    hash for a salt and for a hash made with that salt. *)
Definition hashpw_2b (password salt : string) : outcome string :=
  if String.prefix "$2b$" salt then Ok ("$2b$" +:+ password)
  else Raise ValueError.

(** The sample home server with that hash function and a pepper. *)
Definition hs : HomeServer := {|
  checkers := checkers Sample.hs;
  LoginType_RECAPTCHA := LoginType_RECAPTCHA Sample.hs;
  recaptcha_public_key := recaptcha_public_key Sample.hs;
  server_name := server_name Sample.hs;
  macaroon_secret_key := macaroon_secret_key Sample.hs;
  password_pepper := "pepper";
  get_users_by_id_case_insensitive := get_users_by_id_case_insensitive Sample.hs;
  hashpw := hashpw_2b;
  serialize := serialize Sample.hs;
  deserialize := deserialize Sample.hs;
  get_user_id_from_macaroon := get_user_id_from_macaroon Sample.hs;
  validate_macaroon := validate_macaroon Sample.hs;
|}.

(** A store that knows every user but "@nobody:example.org", and
    completes every other operation. *)
Definition store : store_oracle :=
  fun log =>
    match last log with
    | Some (user_set_password_hash user_id _) =>
        if String.eqb user_id "@nobody:example.org"
        then Some (StoreError 404 "No row found")
        else None
    | _ => None
    end.

(** The table after the first request of the sample. *)
Definition after_first : AuthHandler := Sample.first_run.2.

(** A stand-in for [pymacaroons.Macaroon.deserialize] that does on
    "MDAx" what the library does with a string that decodes to fewer
    bytes than the length header of a packet: unpacking the header
    raises struct.error, a class of its own under Exception. *)
Definition deserialize_packets (t : string) : outcome Macaroon :=
  if String.eqb t "MDAx" then Raise (OtherException "struct.error")
  else deserialize Sample.hs t.

(** The sample home server with that deserializer. *)
Definition hs_packets : HomeServer := {|
  checkers := checkers Sample.hs;
  LoginType_RECAPTCHA := LoginType_RECAPTCHA Sample.hs;
  recaptcha_public_key := recaptcha_public_key Sample.hs;
  server_name := server_name Sample.hs;
  macaroon_secret_key := macaroon_secret_key Sample.hs;
  password_pepper := password_pepper Sample.hs;
  get_users_by_id_case_insensitive := get_users_by_id_case_insensitive Sample.hs;
  hashpw := hashpw Sample.hs;
  serialize := serialize Sample.hs;
  deserialize := deserialize_packets;
  get_user_id_from_macaroon := get_user_id_from_macaroon Sample.hs;
  validate_macaroon := validate_macaroon Sample.hs;
|}.

End Demo.

(* ===================================================================== *)
(** * Theorems *)
(* ===================================================================== *)

(** ** Basic facts about the monad and the Python operations *)

Lemma truthy_dict_nonempty (d : dict) : truthy (VDict d) = true ↔ d ≠ ∅.
Proof.
  simpl. rewrite negb_true_iff, Nat.eqb_neq. by rewrite map_size_empty_iff.
Qed.

Lemma size_eqb_0 {A} (m : gmap string A) : Nat.eqb (size m) 0 = true ↔ m = ∅.
Proof. by rewrite Nat.eqb_eq, map_size_empty_iff. Qed.

(** ** Session store *)

Lemma prune_step_lookup now sid sess tbl k :
  prune_step now sid sess tbl !! k =
    if decide (stale now sess ∧ sid = k) then None else tbl !! k.
Proof.
  unfold prune_step.
  assert (Hst : match last_used sess with Some t => t | None => 0 end
                  < now - SESSION_EXPIRE_MS ↔ stale now sess).
  { unfold stale. by destruct (last_used sess). }
  destruct (decide (sid = k)) as [->|Hne];
    repeat case_decide; simplify_map_eq; try done; tauto.
Qed.

Lemma prune_fold_lookup now (b m : gmap string session) k :
  map_fold (prune_step now) b m !! k =
    match m !! k with
    | Some s => if decide (stale now s) then None else b !! k
    | None => b !! k
    end.
Proof.
  revert k.
  apply (map_fold_weak_ind (fun (r m : gmap string session) => ∀ k,
    r !! k = match m !! k with
             | Some s => if decide (stale now s) then None else b !! k
             | None => b !! k
             end)).
  - intros k. by rewrite lookup_empty.
  - intros i x m' r Hi IH k. rewrite prune_step_lookup.
    destruct (decide (i = k)) as [->|Hne].
    + rewrite lookup_insert_eq. rewrite (IH k), Hi.
      repeat case_decide; try done; tauto.
    + rewrite lookup_insert_ne by done. rewrite (IH k).
      case_decide; [tauto | done].
Qed.

Lemma prune_lookup now (tbl : gmap string session) k :
  _prune_sessions now tbl !! k =
    match tbl !! k with
    | Some s => if decide (stale now s) then None else Some s
    | None => None
    end.
Proof.
  unfold _prune_sessions. rewrite prune_fold_lookup.
  destruct (tbl !! k); [by case_decide | done].
Qed.

Lemma just_saved_not_stale now (s : session) : ¬ stale now (set_last_used now s).
Proof. unfold stale, SESSION_EXPIRE_MS. simpl. lia. Qed.

Lemma save_result (B : session) (h : AuthHandler) :
  (_save_session B h).1 = Ok (set_last_used (clock h) B).
Proof. done. Qed.

Lemma save_lookup_self (B : session) (h : AuthHandler) :
  sessions (_save_session B h).2 !! id B = Some (set_last_used (clock h) B).
Proof.
  unfold _save_session. simpl. rewrite prune_lookup, lookup_insert_eq.
  case_decide as Hs; [|done]. by apply just_saved_not_stale in Hs.
Qed.

Lemma save_lookup_other (B : session) (h : AuthHandler) k :
  k ≠ id B →
  sessions (_save_session B h).2 !! k =
    match sessions h !! k with
    | Some s => if decide (stale (clock h) s) then None else Some s
    | None => None
    end.
Proof.
  intros Hne. unfold _save_session. simpl.
  rewrite prune_lookup, lookup_insert_ne; done.
Qed.

Lemma save_clock (B : session) (h : AuthHandler) :
  clock (_save_session B h).2 = clock h.
Proof. done. Qed.

Lemma save_random_strings (B : session) (h : AuthHandler) :
  random_strings (_save_session B h).2 = random_strings h.
Proof. done. Qed.

(** C3: for distinct sessions A and B with A in the table and carrying
    a [last_used] stamp t, saving B at time [now] removes A exactly when
    t < now - 48h; a session that is not older than that stays in the
    table as it was. *)
Theorem save_prunes_other_iff_older_than_48h
    (h : AuthHandler) (A B : session) (t : Z) :
  sessions h !! id A = Some A →
  last_used A = Some t →
  id B ≠ id A →
  let h' := (_save_session B h).2 in
  (sessions h' !! id A = None ↔ t < clock h - 48 * 60 * 60 * 1000) ∧
  (sessions h' !! id A = Some A ↔ clock h - 48 * 60 * 60 * 1000 ≤ t).
Proof.
  intros HA Ht Hne h'. subst h'.
  rewrite save_lookup_other by done. rewrite HA.
  change (48 * 60 * 60 * 1000) with SESSION_EXPIRE_MS.
  assert (Hst : stale (clock h) A ↔ t < clock h - SESSION_EXPIRE_MS).
  { unfold stale. by rewrite Ht. }
  case_decide as Hd; rewrite Hst in Hd;
    (split; split; intros Hx); try done; lia.
Qed.

(** ** Looking a session up, or creating it *)

Lemma fresh_session_id_spec draws (tbl : gmap string session) sid rest :
  fresh_session_id draws tbl = Some (sid, rest) →
  tbl !! sid = None ∧ sid ∈ draws ∧ ∃ seen, draws = (seen ++ sid :: rest)%list.
Proof.
  revert sid rest. induction draws as [|d draws IH]; intros sid rest; simpl; [done|].
  destruct (tbl !! d) eqn:Hd.
  - intros H. destruct (IH _ _ H) as (? & ? & seen & ->).
    split_and!; [done | by right | by exists (d :: seen)].
  - intros [= -> ->]. split_and!; [done | by left | by exists []].
Qed.

Lemma fresh_session_id_total draws (tbl : gmap string session) d :
  d ∈ draws → tbl !! d = None → is_Some (fresh_session_id draws tbl).
Proof.
  induction draws as [|d' draws IH]; simpl.
  - by intros ?%elem_of_nil.
  - intros [->|Hin]%elem_of_cons Hd.
    + by rewrite Hd.
    + destruct (tbl !! d'); [by apply IH | done].
Qed.

(** The three ways [_get_session_info] ends with a session: it was in
    the table under the (non-empty) id that was asked for, or it is new,
    empty, and stored under an id that was free. *)
Lemma get_session_info_ok (session_id : value) (h h' : AuthHandler) (s : session) :
  _get_session_info session_id h = (Ok s, h') →
  (∃ k, session_id = VStr k ∧ k ≠ "" ∧ sessions h !! k = Some s ∧ h' = h) ∨
  (s = new_session (id s) ∧ sessions h !! id s = None ∧
   sessions h' = <[id s := s]> (sessions h) ∧ clock h' = clock h ∧
   id s ∈ random_strings h).
Proof.
  unfold _get_session_info.
  assert (Hnew : ∀ r : outcome session * AuthHandler,
    match fresh_session_id (random_strings h) (sessions h) with
    | Some (sid, rest) =>
        (Ok (new_session sid),
         Handler (<[sid := new_session sid]> (sessions h)) (clock h) rest)
    | None => (Diverge, Handler (sessions h) (clock h) [])
    end = (Ok s, h') →
    s = new_session (id s) ∧ sessions h !! id s = None ∧
    sessions h' = <[id s := s]> (sessions h) ∧ clock h' = clock h ∧
    id s ∈ random_strings h).
  { intros _. destruct (fresh_session_id _ _) as [[sid rest]|] eqn:Hf; [|done].
    intros [= <- <-]. apply fresh_session_id_spec in Hf as (? & ? & _). done. }
  destruct session_id as [|b|n|k|l|d]; simpl; try done;
    try (intros H; right; by apply (Hnew (Ok s, h'))).
  destruct (sessions h !! k) as [s0|] eqn:Hk; simpl.
  - destruct (String.eqb k "") eqn:Hk0; simpl.
    + intros H; right; by apply (Hnew (Ok s, h')).
    + rewrite Hk. intros [= <- <-]. left. exists k.
      apply String.eqb_neq in Hk0. done.
  - intros H; right; by apply (Hnew (Ok s, h')).
Qed.

(** With a string among the coming random strings that is not yet an id,
    [_get_session_info] returns a session for every hashable id. *)
Lemma get_session_info_returns (session_id : value) (h : AuthHandler) (d : string) :
  d ∈ random_strings h → sessions h !! d = None →
  match session_id with VList _ | VDict _ => False | _ => True end →
  ∃ s h', _get_session_info session_id h = (Ok s, h').
Proof.
  intros Hin Hfree Hhash.
  destruct (fresh_session_id_total _ _ _ Hin Hfree) as [[sid rest] Hf].
  unfold _get_session_info.
  destruct session_id as [|b|n|k|l|dd]; simpl; try done;
    try (rewrite Hf; by eexists _, _).
  destruct (sessions h !! k) as [s0|] eqn:Hk; simpl.
  - destruct (String.eqb k ""); simpl.
    + rewrite Hf. by eexists _, _.
    + rewrite Hk. by eexists _, _.
  - rewrite Hf. by eexists _, _.
Qed.

(** C10: a session that [_get_session_info] has just created carries no
    [last_used] stamp; such an entry counts as last used at time 0, so
    with the clock past 48 hours (it reads milliseconds since the
    epoch) the next save of another session removes it, however
    recently it was created. *)
Theorem never_saved_session_removed_by_next_save
    (h h1 : AuthHandler) (session_id : value) (s : session) :
  table_ok h →
  _get_session_info session_id h = (Ok s, h1) →
  sessions h !! id s = None →
  last_used s = None ∧
  sessions h1 !! id s = Some s ∧
  ∀ (h2 : AuthHandler) (s' B : session),
    sessions h2 !! id s = Some s' → last_used s' = None →
    id B ≠ id s → SESSION_EXPIRE_MS < clock h2 →
    sessions (_save_session B h2).2 !! id s = None.
Proof.
  intros Hok Hget Hfree.
  apply get_session_info_ok in Hget as [(k & _ & _ & Hk & _)|(Hs & _ & Htbl & _)].
  { apply Hok in Hk as Hid. congruence. }
  split_and!.
  - by rewrite Hs.
  - by rewrite Htbl, lookup_insert_eq.
  - intros h2 s' B Hs' Hlu HB Hclock.
    rewrite save_lookup_other by done. rewrite Hs'.
    case_decide as Hst; [done|]. exfalso. apply Hst.
    unfold stale. rewrite Hlu. simpl. lia.
Qed.

(** ** Flow completion *)

Lemma flow_done_iff (earned : dict) (f : list string) :
  flow_done earned f = true ↔ ∀ stage, stage ∈ f → is_Some (earned !! stage).
Proof.
  unfold flow_done. rewrite Nat.eqb_eq, size_empty_iff.
  split.
  - intros Hempty stage Hin. apply elem_of_dom.
    destruct (decide (stage ∈ dom earned)) as [|Hnot]; [done|].
    exfalso. apply (not_elem_of_empty (C := gset string) stage).
    apply Hempty. set_solver.
  - intros Hall stage. split; [|set_solver].
    intros [Hin Hnot]%elem_of_difference. exfalso. apply Hnot.
    apply elem_of_dom, Hall. set_solver.
Qed.

Lemma some_flow_done_iff (earned : dict) (flows : list (list string)) :
  some_flow_done earned flows = true ↔
  ∃ f, f ∈ flows ∧ ∀ stage, stage ∈ f → is_Some (earned !! stage).
Proof.
  unfold some_flow_done. rewrite existsb_exists. split.
  - intros (f & Hin & Hdone). exists f. split; [by apply list_elem_of_In|].
    by apply flow_done_iff.
  - intros (f & Hin & Hall). exists f. split; [by apply list_elem_of_In|].
    by apply flow_done_iff.
Qed.

(** The verdict depends on the keys of the credential map only. *)
Lemma some_flow_done_dom (c1 c2 : dict) (flows : list (list string)) :
  dom c1 = dom c2 → some_flow_done c1 flows = some_flow_done c2 flows.
Proof.
  intros Hdom. unfold some_flow_done, flow_done. by rewrite Hdom.
Qed.

(** ** Runs of the handler keep sessions under their ids *)

Lemma write_session_lookup (s : session) (h : AuthHandler) :
  sessions (write_session s h).2 !! id s = Some s.
Proof. simpl. apply lookup_insert_eq. Qed.

Lemma write_session_table_ok (s : session) (h : AuthHandler) :
  table_ok h → table_ok (write_session s h).2.
Proof.
  intros Hok k s'. simpl. destruct (decide (id s = k)) as [<-|Hne].
  - rewrite lookup_insert_eq. by intros [= <-].
  - rewrite lookup_insert_ne by done. apply Hok.
Qed.

Lemma save_session_table_ok (s : session) (h : AuthHandler) :
  table_ok h → table_ok (_save_session s h).2.
Proof.
  intros Hok k s'. destruct (decide (k = id s)) as [->|Hne].
  - rewrite save_lookup_self. by intros [= <-].
  - rewrite save_lookup_other by done.
    destruct (sessions h !! k) as [s0|] eqn:Hk; [|done].
    case_decide; [done|]. intros [= <-]. by apply Hok.
Qed.

Lemma get_session_info_table (session_id : value) (h h' : AuthHandler) (s : session) :
  table_ok h →
  _get_session_info session_id h = (Ok s, h') →
  table_ok h' ∧ sessions h' !! id s = Some s ∧ clock h' = clock h.
Proof.
  intros Hok Hget.
  apply get_session_info_ok in Hget as [(k & _ & _ & Hk & ->)|(Hs & _ & Htbl & Hc & _)].
  - apply Hok in Hk as Hid. subst k. done.
  - split_and!; [|by rewrite Htbl, lookup_insert_eq|done].
    intros k s'. rewrite Htbl. destruct (decide (id s = k)) as [<-|Hne].
    + rewrite lookup_insert_eq. by intros [= <-].
    + rewrite lookup_insert_ne by done. apply Hok.
Qed.

Lemma get_session_info_live (session_id : value) (h h' : AuthHandler) (s : session) :
  table_ok h →
  _get_session_info session_id h = (Ok s, h') →
  live h' s ∧ clock h' = clock h.
Proof.
  intros Hok Hget. destruct (get_session_info_table _ _ _ _ Hok Hget) as (? & ? & ?).
  by repeat split.
Qed.

Lemma get_session_info_known (k : string) (h : AuthHandler) (s : session) :
  k ≠ "" → sessions h !! k = Some s →
  _get_session_info (VStr k) h = (Ok s, h).
Proof.
  intros Hk Hs. unfold _get_session_info. rewrite Hs. simpl.
  apply String.eqb_neq in Hk. rewrite Hk. simpl. by rewrite Hs.
Qed.

Lemma write_session_live (s : session) (h : AuthHandler) :
  table_ok h → live (write_session s h).2 s.
Proof.
  intros Hok. split; [by apply write_session_table_ok | apply write_session_lookup].
Qed.

Lemma save_session_live (s : session) (h : AuthHandler) :
  table_ok h → live (_save_session s h).2 (set_last_used (clock h) s).
Proof.
  intros Hok. split; [by apply save_session_table_ok | exact (save_lookup_self s h)].
Qed.

(** ** The blocks of [check_auth] *)

Lemma remember_params_run (sess : session) (params : dict) (h : AuthHandler) :
  live h sess →
  ∃ sess' params' h',
    remember_params sess params h = (Ok (sess', params'), h') ∧
    live h' sess' ∧ clock h' = clock h ∧
    id sess' = id sess ∧ creds sess' = creds sess ∧
    (params ≠ ∅ →
       params' = params ∧ clientdict sess' = Some params ∧
       last_used sess' = Some (clock h)) ∧
    (params = ∅ →
       params' = default ∅ (clientdict sess) ∧ sess' = sess ∧ h' = h).
Proof.
  intros [Hok Hin]. unfold remember_params.
  destruct (Nat.eqb (size params) 0) eqn:Hsz; simpl.
  - apply size_eqb_0 in Hsz as ->.
    destruct (clientdict sess) as [stored|] eqn:Hcd.
    + exists sess, stored, h. by repeat split.
    + exists sess, ∅, h. by repeat split.
  - assert (params ≠ ∅) as Hne.
    { intros ->. by rewrite map_size_empty in Hsz. }
    eexists _, _, _. split; [reflexivity|].
    split_and!; try done.
    + apply (save_session_live (set_clientdict params sess)).
      by apply write_session_table_ok.
Qed.

Lemma set_creds_same (s : session) (c : dict) :
  creds s = Some c → set_creds c s = s.
Proof. destruct s; simpl. by intros ->. Qed.

Lemma ensure_creds_run (sess : session) (h : AuthHandler) :
  live h sess →
  ∃ sess' h',
    ensure_creds sess h = (Ok sess', h') ∧
    live h' sess' ∧ clock h' = clock h ∧
    sess' = set_creds (session_creds sess) sess.
Proof.
  intros [Hok Hin]. unfold ensure_creds, session_creds.
  destruct (creds sess) as [c|] eqn:Hc; simpl.
  - exists sess, h. rewrite set_creds_same by done. by repeat split.
  - eexists _, _. split; [reflexivity|]. split_and!; try done.
    by apply write_session_live.
Qed.

Lemma record_credential_run (stage : string) (result : value) (sess : session)
    (h : AuthHandler) :
  table_ok h →
  ∃ h',
    record_credential stage result sess h =
      (Ok (set_last_used (clock h)
             (set_creds (<[stage := result]> (session_creds sess)) sess)), h') ∧
    live h' (set_last_used (clock h)
               (set_creds (<[stage := result]> (session_creds sess)) sess)) ∧
    clock h' = clock h.
Proof.
  intros Hok.
  set (sess1 := set_creds (<[stage := result]> (session_creds sess)) sess).
  pose (h1 := (write_session sess1 h).2).
  assert (Hok1 : table_ok h1) by by apply write_session_table_ok.
  exists (_save_session sess1 h1).2. split; [reflexivity|]. split; [|done].
  exact (save_session_live sess1 h1 Hok1).
Qed.

(** What [present_stage] does with a stage whose checker is registered:
    the checker's outcome decides. *)
Lemma present_stage_registered (hs : HomeServer) (a : dict) (t : string)
    (check : checker) (clientip : string) (sess : session) (h : AuthHandler) :
  a !! "type" = Some (VStr t) →
  checkers hs !! t = Some check →
  present_stage hs (VDict a) clientip sess h =
    match check (VDict a) clientip with
    | Ok result =>
        if truthy result then record_credential t result sess h else (Ok sess, h)
    | Raise e => (Raise e, h)
    | Diverge => (Diverge, h)
    end.
Proof.
  intros Hty Hck. unfold present_stage, bind, lift, py_contains, py_getitem.
  rewrite Hty. rewrite bool_decide_eq_true_2 by eauto.
  simpl. rewrite Hck. simpl.
  destruct (check (VDict a) clientip) as [result| |]; try done.
  by destruct (truthy result).
Qed.

Lemma present_stage_no_type (hs : HomeServer) (a : dict) (clientip : string)
    (sess : session) (h : AuthHandler) :
  a !! "type" = None →
  present_stage hs (VDict a) clientip sess h = (Ok sess, h).
Proof.
  intros Hty. unfold present_stage, bind, lift, py_contains.
  rewrite Hty. rewrite bool_decide_eq_false_2; [done|].
  by intros [? ?].
Qed.

(** Whatever is presented, a stage that returns leaves the session in
    the table, with its id and stored parameters, and with a credential
    map. *)
Lemma present_stage_ok (hs : HomeServer) (authdict : value) (clientip : string)
    (sess sess' : session) (h h' : AuthHandler) :
  live h sess →
  present_stage hs authdict clientip sess h = (Ok sess', h') →
  live h' sess' ∧ clock h' = clock h ∧ id sess' = id sess ∧
  clientdict sess' = clientdict sess ∧
  (is_Some (creds sess) → is_Some (creds sess')).
Proof.
  intros Hlive. unfold present_stage, bind, lift.
  destruct (py_contains "type" authdict) as [[|]| |]; try done.
  2: { intros [= <- <-]. done. }
  destruct (py_getitem authdict "type") as [ty| |]; try done.
  destruct (find_checker hs ty _) as [[t check]| |]; try done.
  destruct (check authdict clientip) as [result| |]; try done.
  destruct (truthy result).
  2: { intros [= <- <-]. done. }
  destruct (record_credential_run t result sess h (proj1 Hlive))
    as (h1 & Hrun & Hl & Hc).
  rewrite Hrun. intros [= <- <-]. by split_and!.
Qed.

Lemma split_auth_present (params : dict) (a a' sid : value) (p : dict) :
  params !! "auth" = Some a →
  split_auth params = Ok (a', sid, p) →
  a' = a ∧ p = delete "auth" params.
Proof.
  intros Ha. unfold split_auth. rewrite Ha.
  destruct (py_contains "session" a) as [[|]| |]; simpl; try done.
  - destruct (py_getitem a "session"); simpl; try done. by intros [= <- <- <-].
  - by intros [= <- <- <-].
Qed.

Lemma split_auth_dict (params a : dict) :
  params !! "auth" = Some (VDict a) →
  split_auth params =
    Ok (VDict a, default VNone (a !! "session"), delete "auth" params).
Proof.
  intros Ha. unfold split_auth, py_contains, py_getitem. rewrite Ha.
  unfold obind. case_bool_decide as Hs.
  - destruct Hs as [sid Hs]. by rewrite Hs.
  - destruct (a !! "session") eqn:Hs'; [|done]. exfalso. apply Hs. eauto.
Qed.

Lemma split_auth_absent (params : dict) :
  params !! "auth" = None → split_auth params = Ok (VNone, VNone, params).
Proof. intros Ha. unfold split_auth. by rewrite Ha. Qed.

(** [get_session_id] reads the id that [check_auth] is going to use. *)
Lemma get_session_id_split_auth (params : dict) (a sid : value) (p : dict) :
  split_auth params = Ok (a, sid, p) → get_session_id params = Ok sid.
Proof.
  unfold split_auth, get_session_id.
  destruct (params !! "auth") as [authdict|]; [|by intros [= <- <- <-]].
  destruct (py_contains "session" authdict) as [[|]| |]; simpl; try done.
  - destruct (py_getitem authdict "session"); simpl; try done.
    by intros [= <- <- <-].
  - by intros [= <- <- <-].
Qed.

(** A run of [check_auth] that presents an auth block and returns: the
    session it worked on is in the table under the returned id, holds a
    credential map, and the result is [conclude] of it. *)
Lemma check_auth_stage_run (hs : HomeServer) (flows : list (list string))
    (params : dict) (clientip : string) (h h' : AuthHandler)
    (authdict : value) (r : auth_result) :
  table_ok h →
  params !! "auth" = Some authdict → truthy authdict = true →
  check_auth hs flows params clientip h = (Ok r, h') →
  ∃ (sess : session) (C p : dict),
    live h' sess ∧ creds sess = Some C ∧ r = conclude hs flows sess p.
Proof.
  intros Hok Ha Htruthy. unfold check_auth, bind, lift.
  destruct (split_auth params) as [[[a' sid] p]| |] eqn:Hsplit; try done.
  destruct (split_auth_present _ _ _ _ _ Ha Hsplit) as [-> ->].
  destruct (_get_session_info sid h) as [[sess0| |] h0] eqn:Hget; try done.
  destruct (get_session_info_live _ _ _ _ Hok Hget) as [Hlive0 _].
  destruct (remember_params_run sess0 (delete "auth" params) h0 Hlive0)
    as (sess1 & p1 & h1 & -> & Hlive1 & _).
  rewrite Htruthy. simpl.
  destruct (ensure_creds_run sess1 h1 Hlive1) as (sess2 & h2 & -> & Hlive2 & _ & Hs2).
  destruct (present_stage hs authdict clientip sess2 h2) as [[sess3| |] h3] eqn:Hstage;
    try done.
  destruct (present_stage_ok _ _ _ _ _ _ _ Hlive2 Hstage) as (Hlive3 & _ & _ & _ & Hc).
  intros [= <- <-].
  destruct Hc as [C HC]; [subst sess2; by eexists|].
  by exists sess3, C, p1.
Qed.

(** C1: when [check_auth] is given an auth block and returns, the
    session it reports holds a credential map C, and the call reports
    completion (authed, together with C) if and only if some flow of the
    list has every stage among the keys of C; any other map with the
    same keys, in whatever order and with whatever values they were
    earned, gives the same verdict. *)
Theorem check_auth_complete_iff_flow_covered
    (hs : HomeServer) (flows : list (list string)) (params : dict)
    (clientip : string) (h h' : AuthHandler) (authdict : value) (r : auth_result) :
  table_ok h →
  params !! "auth" = Some authdict → truthy authdict = true →
  check_auth hs flows params clientip h = (Ok r, h') →
  ∃ (sess : session) (C : dict),
    sessions h' !! result_session_id r = Some sess ∧ creds sess = Some C ∧
    (authed r = true ↔
       ∃ f, f ∈ flows ∧ ∀ stage, stage ∈ f → is_Some (C !! stage)) ∧
    (authed r = true → ∃ p, r = Authed C p (id sess)) ∧
    (∀ C' : dict, dom C' = dom C → some_flow_done C' flows = authed r).
Proof.
  intros Hok Ha Htruthy Hrun.
  destruct (check_auth_stage_run _ _ _ _ _ _ _ _ Hok Ha Htruthy Hrun)
    as (sess & C & p & [_ Hin] & HC & ->).
  exists sess, C. unfold conclude, session_creds. rewrite HC. simpl.
  destruct (some_flow_done C flows) eqn:Hdone; simpl.
  - split_and!; try done.
    + split; [intros _; by apply some_flow_done_iff | done].
    + intros _. by exists p.
    + intros C' Hdom. by rewrite (some_flow_done_dom C' C).
  - split_and!; try done.
    + split; [done|]. intros Hex%some_flow_done_iff. congruence.
    + intros C' Hdom. by rewrite (some_flow_done_dom C' C).
Qed.

Lemma truthy_dict_lookup (a : dict) (k : string) (v : value) :
  a !! k = Some v → truthy (VDict a) = true.
Proof.
  intros Hk. apply truthy_dict_nonempty. intros ->. by rewrite lookup_empty in Hk.
Qed.

(** The run of [check_auth] up to the stage, for a request whose auth
    block is a dict naming a registered stage. *)
Lemma check_auth_registered_run (hs : HomeServer) (flows : list (list string))
    (params a : dict) (clientip : string) (h h0 : AuthHandler)
    (t : string) (check : checker) (s0 : session) :
  table_ok h →
  params !! "auth" = Some (VDict a) →
  a !! "type" = Some (VStr t) → checkers hs !! t = Some check →
  _get_session_info (default VNone (a !! "session")) h = (Ok s0, h0) →
  ∃ (s2 : session) (p : dict) (h2 : AuthHandler),
    live h2 s2 ∧ clock h2 = clock h ∧ id s2 = id s0 ∧
    creds s2 = Some (session_creds s0) ∧
    (delete "auth" params = ∅ → last_used s2 = last_used s0) ∧
    check_auth hs flows params clientip h =
      match check (VDict a) clientip with
      | Ok result =>
          if truthy result then
            bind (record_credential t result s2)
                 (fun s3 => ret (conclude hs flows s3 p)) h2
          else (Ok (conclude hs flows s2 p), h2)
      | Raise e => (Raise e, h2)
      | Diverge => (Diverge, h2)
      end.
Proof.
  intros Hok Ha Hty Hck Hget.
  destruct (get_session_info_live _ _ _ _ Hok Hget) as [Hlive0 Hc0].
  destruct (remember_params_run s0 (delete "auth" params) h0 Hlive0)
    as (s1 & p1 & h1 & Hrem & Hlive1 & Hc1 & Hid1 & Hcr1 & _ & Hempty).
  destruct (ensure_creds_run s1 h1 Hlive1) as (s2 & h2 & Hens & Hlive2 & Hc2 & Hs2).
  exists s2, p1, h2. split_and!; try done.
  - congruence.
  - subst s2. simpl. congruence.
  - subst s2. simpl. unfold session_creds. by rewrite Hcr1.
  - intros Hp. destruct (Hempty Hp) as (_ & -> & _). by subst s2.
  - unfold check_auth, bind, lift. rewrite (split_auth_dict _ _ Ha).
    rewrite Hget, Hrem. rewrite (truthy_dict_lookup _ _ _ Hty). simpl.
    rewrite Hens. rewrite (present_stage_registered _ _ _ _ _ _ _ Hty Hck).
    destruct (check (VDict a) clientip) as [result| |]; try done.
    by destruct (truthy result).
Qed.

(** C2: in a [check_auth] call that presents a registered stage to the
    session [s0], a checker that raises leaves the credentials of the
    session as they were (and so does a falsy result; neither saves the
    session); only a truthy result adds an entry, under the stage's
    type, and saves the session. *)
Theorem failed_stage_keeps_credentials
    (hs : HomeServer) (flows : list (list string)) (params a : dict)
    (clientip : string) (h h0 : AuthHandler) (t : string) (check : checker)
    (s0 : session) :
  table_ok h →
  params !! "auth" = Some (VDict a) →
  a !! "type" = Some (VStr t) → checkers hs !! t = Some check →
  _get_session_info (default VNone (a !! "session")) h = (Ok s0, h0) →
  let run := check_auth hs flows params clientip h in
  match check (VDict a) clientip with
  | Raise e =>
      run.1 = Raise e ∧
      ∃ s1, sessions run.2 !! id s0 = Some s1 ∧
            session_creds s1 = session_creds s0 ∧
            (delete "auth" params = ∅ → last_used s1 = last_used s0)
  | Ok result =>
      if truthy result then
        ∃ s1, sessions run.2 !! id s0 = Some s1 ∧
              creds s1 = Some (<[t := result]> (session_creds s0)) ∧
              last_used s1 = Some (clock h)
      else
        ∃ s1, sessions run.2 !! id s0 = Some s1 ∧
              session_creds s1 = session_creds s0 ∧
              (delete "auth" params = ∅ → last_used s1 = last_used s0)
  | Diverge => True
  end.
Proof.
  intros Hok Ha Hty Hck Hget run. subst run.
  destruct (check_auth_registered_run hs flows params a clientip h h0 t check s0
              Hok Ha Hty Hck Hget)
    as (s2 & p & h2 & [Hok2 Hin2] & Hc2 & Hid2 & Hcr2 & Hlu2 & ->).
  destruct (check (VDict a) clientip) as [result|e|]; [| |done].
  - destruct (truthy result).
    + unfold bind.
      destruct (record_credential_run t result s2 h2 Hok2) as (h3 & -> & [_ Hin3] & _).
      eexists. rewrite <- Hid2. split; [exact Hin3|]. simpl.
      unfold session_creds at 1. rewrite Hcr2, Hc2. done.
    + exists s2. rewrite <- Hid2. split_and!; try done.
      unfold session_creds at 1. by rewrite Hcr2.
  - split; [done|]. exists s2. rewrite <- Hid2. split_and!; try done.
    unfold session_creds at 1. by rewrite Hcr2.
Qed.

Lemma conclude_params hs flows sess p : result_params (conclude hs flows sess p) = p.
Proof. unfold conclude. by destruct (some_flow_done _ _). Qed.

Lemma conclude_session_id hs flows sess p :
  result_session_id (conclude hs flows sess p) = id sess.
Proof. unfold conclude. by destruct (some_flow_done _ _). Qed.

Lemma get_session_info_id_nonempty (session_id : value) (h h' : AuthHandler)
    (s : session) :
  table_ok h →
  Forall (fun d => d ≠ "") (random_strings h) →
  _get_session_info session_id h = (Ok s, h') →
  id s ≠ "".
Proof.
  intros Hok Hrand Hget.
  apply get_session_info_ok in Hget as [(k & _ & Hk & Hs & _)|(_ & _ & _ & _ & Hin)].
  - apply Hok in Hs. congruence.
  - rewrite Forall_forall in Hrand. by apply Hrand.
Qed.

(** A call with parameters besides the auth block stores them in the
    session it reports, and returns them. *)
Lemma check_auth_stores_params (hs : HomeServer) (flows : list (list string))
    (params : dict) (clientip : string) (h h' : AuthHandler) (r : auth_result) :
  table_ok h →
  Forall (fun d => d ≠ "") (random_strings h) →
  delete "auth" params ≠ ∅ →
  check_auth hs flows params clientip h = (Ok r, h') →
  result_params r = delete "auth" params ∧
  result_session_id r ≠ "" ∧
  ∃ sess, live h' sess ∧ id sess = result_session_id r ∧
          clientdict sess = Some (delete "auth" params).
Proof.
  intros Hok Hrand Hne. unfold check_auth, bind, lift.
  destruct (split_auth params) as [[[a sid] p]| |] eqn:Hsplit; try done.
  assert (p = delete "auth" params) as ->.
  { destruct (params !! "auth") as [a0|] eqn:Ha.
    - by destruct (split_auth_present _ _ _ _ _ Ha Hsplit).
    - rewrite (split_auth_absent _ Ha) in Hsplit.
      injection Hsplit as <- <- <-. by rewrite delete_id. }
  destruct (_get_session_info sid h) as [[sess0| |] h0] eqn:Hget; try done.
  destruct (get_session_info_live _ _ _ _ Hok Hget) as [Hlive0 _].
  pose proof (get_session_info_id_nonempty _ _ _ _ Hok Hrand Hget) as Hid0.
  destruct (remember_params_run sess0 (delete "auth" params) h0 Hlive0)
    as (sess1 & p1 & h1 & -> & Hlive1 & _ & Hid1 & _ & Hstore & _).
  destruct (Hstore Hne) as (-> & Hcd1 & _).
  destruct (truthy a); simpl.
  - destruct (ensure_creds_run sess1 h1 Hlive1)
      as (sess2 & h2 & -> & Hlive2 & _ & Hs2).
    destruct (present_stage hs a clientip sess2 h2) as [[sess3| |] h3] eqn:Hstage;
      try done.
    destruct (present_stage_ok _ _ _ _ _ _ _ Hlive2 Hstage)
      as (Hlive3 & _ & Hid3 & Hcd3 & _).
    intros [= <- <-]. rewrite conclude_params, conclude_session_id.
    assert (id sess3 = id sess0) as Hid by (rewrite Hid3, Hs2; simpl; congruence).
    split_and!; [done | congruence |].
    exists sess3. split_and!; [done | done |].
    rewrite Hcd3, Hs2. done.
  - intros [= <- <-]. simpl. split_and!; [done | congruence |].
    by exists sess1.
Qed.

(** A call that carries nothing but an auth block with the id of a
    session of the table works with the parameters stored there. *)
Lemma check_auth_restores_params (hs : HomeServer) (flows : list (list string))
    (a : dict) (clientip : string) (h : AuthHandler) (S : string)
    (sess : session) (P : dict) :
  table_ok h → S ≠ "" →
  sessions h !! S = Some sess → clientdict sess = Some P →
  a !! "session" = Some (VStr S) →
  ∃ sess2 h2,
    id sess2 = S ∧
    check_auth hs flows {[ "auth" := VDict a ]} clientip h =
      bind (present_stage hs (VDict a) clientip sess2)
           (fun sess3 => ret (conclude hs flows sess3 P)) h2 ∧
    live h2 sess2.
Proof.
  intros Hok HS Hsess Hcd Ha.
  assert (Hlive : live h sess).
  { split; [done|]. by rewrite (Hok _ _ Hsess). }
  destruct (remember_params_run sess ∅ h Hlive)
    as (sess1 & p1 & h1 & Hrem & Hlive1 & _ & _ & _ & _ & Hempty).
  destruct (Hempty eq_refl) as (-> & -> & ->). rewrite Hcd in Hrem. simpl in Hrem.
  destruct (ensure_creds_run sess h Hlive) as (sess2 & h2 & Hens & Hlive2 & _ & Hs2).
  exists sess2, h2. split_and!; [| |done].
  { rewrite Hs2. simpl. by apply Hok. }
  unfold check_auth. unfold bind at 1, lift.
  rewrite (split_auth_dict _ a) by apply lookup_singleton_eq.
  rewrite Ha. simpl. unfold bind at 1.
  rewrite (get_session_info_known S h sess HS Hsess).
  rewrite delete_singleton_eq. unfold bind at 1. rewrite Hrem.
  pose proof (truthy_dict_lookup _ _ _ Ha) as Ht. simpl in Ht. rewrite Ht. simpl.
  unfold bind at 1. by rewrite Hens.
Qed.

(** C7: a first [check_auth] call with non-auth parameters P stores P
    in the session S it reports and returns P; a later call, in any
    state of the handler in which S still holds the stored P, that
    carries only an auth block with the session id S works with P:
    whenever it returns, its parameters are P and its session is S, and
    it does return when the auth block names no stage or names a
    registered stage whose checker returns. *)
Theorem params_of_first_call_returned_by_later_call
    (hs : HomeServer) (flows1 : list (list string)) (params1 : dict)
    (clientip1 : string) (h h1 : AuthHandler) (r1 : auth_result) :
  table_ok h →
  Forall (fun d => d ≠ "") (random_strings h) →
  delete "auth" params1 ≠ ∅ →
  check_auth hs flows1 params1 clientip1 h = (Ok r1, h1) →
  let P := delete "auth" params1 in
  let S := result_session_id r1 in
  result_params r1 = P ∧
  table_ok h1 ∧ (∃ s1, sessions h1 !! S = Some s1 ∧ clientdict s1 = Some P) ∧
  ∀ (hm : AuthHandler) (sm : session) (flows2 : list (list string)) (a2 : dict)
    (clientip2 : string),
    table_ok hm → sessions hm !! S = Some sm → clientdict sm = Some P →
    a2 !! "session" = Some (VStr S) →
    let run2 := check_auth hs flows2 {[ "auth" := VDict a2 ]} clientip2 hm in
    (∀ r2, run2.1 = Ok r2 → result_params r2 = P ∧ result_session_id r2 = S) ∧
    (a2 !! "type" = None → ∃ r2, run2.1 = Ok r2) ∧
    (∀ t check result,
       a2 !! "type" = Some (VStr t) → checkers hs !! t = Some check →
       check (VDict a2) clientip2 = Ok result → ∃ r2, run2.1 = Ok r2).
Proof.
  intros Hok Hrand Hne Hrun1 P S.
  destruct (check_auth_stores_params _ _ _ _ _ _ _ Hok Hrand Hne Hrun1)
    as (Hp1 & HS & s1 & [Hok1 Hin1] & Hid1 & Hcd1).
  fold S in HS, Hid1. fold P in Hp1, Hcd1. rewrite Hid1 in Hin1.
  split_and!; [done | done | by exists s1 |].
  intros hm sm flows2 a2 clientip2 Hokm Hinm Hcdm Ha2 run2.
  destruct (check_auth_restores_params hs flows2 a2 clientip2 hm
              S sm P Hokm HS Hinm Hcdm Ha2)
    as (sess2 & h2 & Hid2 & Hrun2 & Hlive2).
  subst run2. rewrite Hrun2. unfold bind. split_and!.
  - intros r2.
    destruct (present_stage hs (VDict a2) clientip2 sess2 h2)
      as [[sess3| |] h3] eqn:Hstage; try done.
    destruct (present_stage_ok _ _ _ _ _ _ _ Hlive2 Hstage) as (_ & _ & Hid3 & _).
    simpl. intros [= <-]. rewrite conclude_params, conclude_session_id.
    split; [done | congruence].
  - intros Hty. rewrite (present_stage_no_type _ _ _ _ _ Hty). by eexists.
  - intros t check result Hty Hck Hres.
    rewrite (present_stage_registered _ _ _ _ _ _ _ Hty Hck), Hres.
    destruct (truthy result); [|by eexists].
    destruct (record_credential_run t result sess2 h2 (proj1 Hlive2))
      as (h3 & -> & _). by eexists.
Qed.

(** A probe: a request without parameters and without an auth block
    creates a session that is not saved. *)
Lemma check_auth_probe_not_saved (hs : HomeServer) (flows : list (list string))
    (clientip : string) (h h' : AuthHandler) (r : auth_result) :
  check_auth hs flows ∅ clientip h = (Ok r, h') →
  authed r = false ∧ sessions h !! result_session_id r = None ∧
  ∃ s, sessions h' !! result_session_id r = Some s ∧ last_used s = None.
Proof.
  unfold check_auth. unfold bind at 1, lift.
  rewrite (split_auth_absent ∅) by apply lookup_empty.
  unfold bind at 1.
  destruct (_get_session_info VNone h) as [[s| |] h0] eqn:Hget; try done.
  apply get_session_info_ok in Hget as [(k & Hk & _)|(Hs & Hfree & Htbl & _)];
    [done|].
  unfold bind, remember_params. rewrite map_size_empty. simpl.
  rewrite Hs. simpl. intros [= <- <-]. simpl.
  split_and!; [done | done |]. exists s. rewrite Htbl, lookup_insert_eq.
  split; [done|]. by rewrite Hs.
Qed.

(** ** The table invariant

    Every run of [_get_session_info], [check_auth] and [add_oob_auth],
    however it ends, keeps each session stored under its own id. *)

Lemma get_session_info_not_ok (session_id : value) (h h' : AuthHandler)
    (o : outcome session) :
  _get_session_info session_id h = (o, h') →
  (∀ s, o ≠ Ok s) → sessions h' = sessions h.
Proof.
  unfold _get_session_info. intros Hget Hno.
  assert (Hnew : ∀ r : outcome session * AuthHandler,
    match fresh_session_id (random_strings h) (sessions h) with
    | Some (sid, rest) =>
        (Ok (new_session sid),
         Handler (<[sid := new_session sid]> (sessions h)) (clock h) rest)
    | None => (Diverge, Handler (sessions h) (clock h) [])
    end = (o, h') → sessions h' = sessions h).
  { intros _. destruct (fresh_session_id _ _) as [[sid rest]|].
    - intros [= <- <-]. by destruct (Hno (new_session sid)).
    - by intros [= <- <-]. }
  destruct session_id as [|b|n|k|l|d]; simpl in Hget;
    try (by apply (Hnew (o, h'))); try (by injection Hget as <- <-).
  destruct (sessions h !! k) as [s0|] eqn:Hk; simpl in Hget;
    [|by apply (Hnew (o, h'))].
  destruct (String.eqb k "") eqn:Hk0; simpl in Hget; [by apply (Hnew (o, h'))|].
  rewrite Hk in Hget. by injection Hget as <- <-.
Qed.

Lemma get_session_info_keeps_table_ok (session_id : value) (h : AuthHandler) :
  table_ok h → table_ok (_get_session_info session_id h).2.
Proof.
  intros Hok.
  destruct (_get_session_info session_id h) as [[s| |] h'] eqn:Hget.
  - by destruct (get_session_info_table _ _ _ _ Hok Hget).
  - assert (sessions h' = sessions h) as Hsame by by eapply get_session_info_not_ok.
    intros k s. simpl. rewrite Hsame. apply Hok.
  - assert (sessions h' = sessions h) as Hsame by by eapply get_session_info_not_ok.
    intros k s. simpl. rewrite Hsame. apply Hok.
Qed.

Lemma present_stage_keeps_table_ok (hs : HomeServer) (authdict : value)
    (clientip : string) (sess : session) (h : AuthHandler) :
  table_ok h → table_ok (present_stage hs authdict clientip sess h).2.
Proof.
  intros Hok. unfold present_stage, bind, lift.
  destruct (py_contains "type" authdict) as [[|]| |]; try done.
  destruct (py_getitem authdict "type") as [ty| |]; try done.
  destruct (find_checker hs ty _) as [[t check]| |]; try done.
  destruct (check authdict clientip) as [result| |]; try done.
  destruct (truthy result); [|done].
  destruct (record_credential_run t result sess h Hok) as (h1 & -> & [Hok1 _] & _).
  done.
Qed.

Theorem check_auth_keeps_table_ok (hs : HomeServer) (flows : list (list string))
    (params : dict) (clientip : string) (h : AuthHandler) :
  table_ok h → table_ok (check_auth hs flows params clientip h).2.
Proof.
  intros Hok. unfold check_auth. unfold bind at 1, lift.
  destruct (split_auth params) as [[[a sid] p]| |]; try done.
  unfold bind at 1.
  pose proof (get_session_info_keeps_table_ok sid h Hok) as Hok0.
  destruct (_get_session_info sid h) as [[sess0| |] h0] eqn:Hget; try done.
  destruct (get_session_info_live _ _ _ _ Hok Hget) as [Hlive0 _].
  destruct (remember_params_run sess0 p h0 Hlive0)
    as (sess1 & p1 & h1 & Hrem & Hlive1 & _).
  unfold bind at 1. rewrite Hrem.
  destruct (truthy a); simpl; [|apply Hlive1].
  destruct (ensure_creds_run sess1 h1 Hlive1) as (sess2 & h2 & Hens & Hlive2 & _).
  unfold bind at 1. rewrite Hens. unfold bind.
  pose proof (present_stage_keeps_table_ok hs a clientip sess2 h2 (proj1 Hlive2)) as H3.
  by destruct (present_stage hs a clientip sess2 h2) as [[?| |] ?].
Qed.

Theorem add_oob_auth_keeps_table_ok (hs : HomeServer) (stagetype : string)
    (authdict : value) (clientip : string) (h : AuthHandler) :
  table_ok h → table_ok (add_oob_auth hs stagetype authdict clientip h).2.
Proof.
  intros Hok. unfold add_oob_auth. unfold bind at 1, lift.
  destruct (find_checker hs (VStr stagetype) missing_param) as [[t check]| |];
    try done.
  unfold bind at 1.
  destruct (py_contains "session" authdict) as [[|]| |]; try done.
  cbn [negb]. unfold bind at 1.
  destruct (py_getitem authdict "session") as [sid| |]; try done.
  unfold bind at 1.
  pose proof (get_session_info_keeps_table_ok sid h Hok) as Hok0.
  destruct (_get_session_info sid h) as [[sess0| |] h0] eqn:Hget; try done.
  destruct (get_session_info_live _ _ _ _ Hok Hget) as [Hlive0 _].
  destruct (ensure_creds_run sess0 h0 Hlive0) as (sess2 & h2 & Hens & Hlive2 & _).
  unfold bind at 1. rewrite Hens. unfold bind at 1.
  destruct (check authdict clientip) as [result| |]; try apply Hlive2.
  destruct (truthy result); [|apply Hlive2].
  unfold bind.
  destruct (record_credential_run stagetype result sess2 h2 (proj1 Hlive2))
    as (h3 & -> & [Hok3 _] & _).
  done.
Qed.

(** ** Out-of-band results *)

(** C9: [add_oob_auth] raises the missing-parameter error (400) when
    the stage has no registered checker or the auth dict has no session
    id.  Otherwise, for the session of the table that the id names, a
    truthy checker result is recorded in the session's credentials under
    the stage, the session is saved and the call returns true; a falsy
    result returns false and the session keeps its credentials and its
    last-used stamp. *)
Theorem add_oob_auth_records_into_named_session
    (hs : HomeServer) (stagetype : string) (a : dict) (clientip : string)
    (h : AuthHandler) :
  table_ok h →
  let run := add_oob_auth hs stagetype (VDict a) clientip h in
  (checkers hs !! stagetype = None → run = (Raise missing_param, h)) ∧
  (a !! "session" = None → run = (Raise missing_param, h)) ∧
  (∀ (check : checker) (S : string) (s0 : session),
     checkers hs !! stagetype = Some check →
     a !! "session" = Some (VStr S) → S ≠ "" → sessions h !! S = Some s0 →
     match check (VDict a) clientip with
     | Ok result =>
         if truthy result then
           run.1 = Ok true ∧
           ∃ s1, sessions run.2 !! S = Some s1 ∧
                 creds s1 = Some (<[stagetype := result]> (session_creds s0)) ∧
                 last_used s1 = Some (clock h)
         else
           run.1 = Ok false ∧
           ∃ s1, sessions run.2 !! S = Some s1 ∧
                 session_creds s1 = session_creds s0 ∧
                 last_used s1 = last_used s0
     | Raise e => run.1 = Raise e
     | Diverge => run.1 = Diverge
     end).
Proof.
  intros Hok run. subst run. unfold add_oob_auth. split_and!.
  - intros Hck. unfold bind at 1, lift, find_checker. by rewrite Hck.
  - intros Hs. unfold bind, lift, find_checker, py_contains.
    destruct (checkers hs !! stagetype); [|done].
    rewrite Hs. rewrite bool_decide_eq_false_2; [done|]. by intros [? ?].
  - intros check S s0 Hck Ha HS Hs0.
    assert (Hlive : live h s0).
    { split; [done|]. by rewrite (Hok _ _ Hs0). }
    assert (HidS : id s0 = S) by by apply Hok.
    destruct (ensure_creds_run s0 h Hlive) as (s2 & h2 & Hens & Hlive2 & Hc2 & Hs2).
    unfold bind, lift, find_checker, py_contains, py_getitem.
    rewrite Hck, Ha. rewrite bool_decide_eq_true_2 by eauto.
    cbn [negb]. rewrite (get_session_info_known S h s0 HS Hs0), Hens.
    destruct (check (VDict a) clientip) as [result| |]; [|done|done].
    destruct (truthy result).
    + destruct (record_credential_run stagetype result s2 h2 (proj1 Hlive2))
        as (h3 & -> & [_ Hin3] & _).
      split; [done|]. eexists. simpl in Hin3. rewrite <- HidS.
      assert (id s2 = id s0) as <- by by subst s2.
      split; [exact Hin3|]. simpl. subst s2. simpl. by rewrite Hc2.
    + split; [done|]. exists s2. destruct Hlive2 as [_ Hin2].
      assert (id s2 = id s0) as Hid2 by by subst s2.
      rewrite <- HidS, <- Hid2. split; [done|]. by subst s2.
Qed.

(** ** Tokens *)

Lemma caveats_add_all (extra : list string) (m : Macaroon) :
  caveats (fold_left (fun m caveat => add_first_party_caveat caveat m) extra m) =
  (caveats m ++ extra)%list.
Proof.
  revert m. induction extra as [|c extra IH]; intros m; simpl.
  - by rewrite app_nil_r.
  - rewrite IH. simpl. by rewrite <- app_assoc.
Qed.

Lemma base_macaroon_caveats (hs : HomeServer) (user_id : string) :
  caveats (_generate_base_macaroon hs user_id) =
  ["gen = 1"; "user_id = " +:+ user_id].
Proof. done. Qed.

(** C4: every generator serializes a macaroon whose first-party caveats
    are, in this order, "gen = 1", "user_id = <id>", the type caveat,
    then "time < issuance + lifetime" (one hour by default for access,
    two minutes for login) or the nonce (refresh), then the extra
    caveats (access). *)
Theorem token_caveats_in_fixed_order
    (hs : HomeServer) (h : AuthHandler) (nonce user_id : string)
    (extra_caveats : option (list string)) (duration_in_ms : option Z) :
  (∃ m, generate_access_token hs h user_id extra_caveats duration_in_ms =
          serialize hs m ∧
        caveats m =
          (["gen = 1"; "user_id = " +:+ user_id; "type = access";
           "time < " +:+ pretty (clock h + default 3600000 duration_in_ms)]
          ++ default [] extra_caveats)%list) ∧
  (∃ m, generate_refresh_token hs nonce user_id = serialize hs m ∧
        caveats m =
          ["gen = 1"; "user_id = " +:+ user_id; "type = refresh";
           "nonce = " +:+ nonce]) ∧
  (∃ m, generate_short_term_login_token hs h user_id duration_in_ms =
          serialize hs m ∧
        caveats m =
          ["gen = 1"; "user_id = " +:+ user_id; "type = login";
           "time < " +:+ pretty (clock h + default 120000 duration_in_ms)]) ∧
  (∃ m, generate_delete_pusher_token hs user_id = serialize hs m ∧
        caveats m =
          ["gen = 1"; "user_id = " +:+ user_id; "type = delete_pusher"]).
Proof.
  split_and!; eexists; (split; [reflexivity|]).
  - unfold access_macaroon. rewrite caveats_add_all. done.
  - done.
  - done.
  - done.
Qed.

(** ** Password verification *)

Lemma validate_hash_unfold
    (hs : HomeServer) (password : string) (stored_hash : option string) :
  validate_hash hs password stored_hash =
    match stored_hash with
    | None => Ok false
    | Some h =>
        if decide (h = "") then Ok false
        else
          match hashpw hs (password +:+ password_pepper hs) h with
          | Ok computed => Ok (bool_decide (computed = h))
          | Raise e => Raise e
          | Diverge => Diverge
          end
    end.
Proof.
  destruct stored_hash as [h|]; [|done]. unfold validate_hash. simpl.
  case_decide as Hh.
  - subst h. done.
  - apply String.eqb_neq in Hh. rewrite Hh. simpl.
    destruct (hashpw hs _ h) as [computed| |]; simpl; try done.
    f_equal. case_bool_decide as Hc.
    + by apply String.eqb_eq.
    + by apply String.eqb_neq.
Qed.

(** C6 (as the code has it): [validate_hash] answers false when there
    is no stored hash or the stored hash is empty; otherwise it answers
    whether what [hashpw] computes from the peppered password and the
    stored hash equals the stored hash, and when [hashpw] raises (as
    bcrypt does for a salt it cannot parse) the exception is passed on:
    nothing in [validate_hash] catches it. *)
Theorem validate_hash_cases
    (hs : HomeServer) (password : string) (stored_hash : option string) :
  match stored_hash with
  | None => validate_hash hs password stored_hash = Ok false
  | Some h =>
      if decide (h = "") then validate_hash hs password stored_hash = Ok false
      else
        match hashpw hs (password +:+ password_pepper hs) h with
        | Ok computed =>
            validate_hash hs password stored_hash = Ok (bool_decide (computed = h))
        | Raise e => validate_hash hs password stored_hash = Raise e
        | Diverge => validate_hash hs password stored_hash = Diverge
        end
  end.
Proof.
  rewrite validate_hash_unfold. destruct stored_hash as [h|]; [|done].
  case_decide; [done|]. by destruct (hashpw hs _ h).
Qed.

Lemma find_user_none (hs : HomeServer) (user_id : string) :
  get_users_by_id_case_insensitive hs user_id = Ok ∅ →
  _find_user_id_and_pwd_hash hs user_id = Raise forbidden.
Proof. intros Hst. unfold _find_user_id_and_pwd_hash. by rewrite Hst. Qed.

Lemma find_user_single (hs : HomeServer) (user_id canonical : string)
    (stored : option string) :
  get_users_by_id_case_insensitive hs user_id = Ok {[ canonical := stored ]} →
  _find_user_id_and_pwd_hash hs user_id = Ok (canonical, stored).
Proof.
  intros Hst. unfold _find_user_id_and_pwd_hash. rewrite Hst. simpl.
  rewrite map_size_singleton. simpl. by rewrite map_to_list_singleton.
Qed.

Lemma find_user_several (hs : HomeServer) (user_id : string)
    (infos : gmap string (option string)) :
  get_users_by_id_case_insensitive hs user_id = Ok infos →
  (1 < size infos)%nat →
  _find_user_id_and_pwd_hash hs user_id =
    match infos !! user_id with
    | Some stored => Ok (user_id, stored)
    | None => Raise forbidden
    end.
Proof.
  intros Hst Hsz. unfold _find_user_id_and_pwd_hash. rewrite Hst. simpl.
  destruct (Nat.eqb (size infos) 0) eqn:H0; [apply Nat.eqb_eq in H0; lia|].
  destruct (Nat.ltb_spec 1 (size infos)); [|lia].
  by destruct (infos !! user_id).
Qed.


Lemma check_local_password_resolved (hs : HomeServer) (user_id password : string)
    (canonical : string) (stored : option string) :
  _find_user_id_and_pwd_hash hs user_id = Ok (canonical, stored) →
  _check_local_password hs user_id password =
    local_verdict hs password canonical stored.
Proof.
  intros Hfind. unfold _check_local_password, local_verdict. rewrite Hfind. simpl.
  rewrite validate_hash_unfold. destruct stored as [h|]; [|done].
  case_decide; [done|].
  destruct (hashpw hs _ h) as [computed| |]; simpl; try done.
  case_bool_decide; by case_decide.
Qed.

(** C5: with the matches [infos] the account store returns for the
    case-insensitive lookup of [user_id]: no match is forbidden (403);
    several matches resolve to [user_id] itself when it is among them
    and are forbidden otherwise; a single match resolves to that
    account; and for the resolved account an absent hash or a mismatch
    is forbidden, while a match returns the canonical user id. *)
Theorem local_password_resolution
    (hs : HomeServer) (user_id password : string)
    (infos : gmap string (option string)) :
  get_users_by_id_case_insensitive hs user_id = Ok infos →
  let run := _check_local_password hs user_id password in
  (infos = ∅ → run = Raise (LoginError 403 "" FORBIDDEN)) ∧
  ((1 < size infos)%nat →
     match infos !! user_id with
     | Some stored => run = local_verdict hs password user_id stored
     | None => run = Raise (LoginError 403 "" FORBIDDEN)
     end) ∧
  (∀ canonical stored,
     infos = {[ canonical := stored ]} →
     run = local_verdict hs password canonical stored) ∧
  (∀ canonical computed h,
     hashpw hs (password +:+ password_pepper hs) h = Ok computed → h ≠ "" →
     local_verdict hs password canonical (Some h) =
       if decide (computed = h) then Ok canonical
       else Raise (LoginError 403 "" FORBIDDEN)) ∧
  (∀ canonical,
     local_verdict hs password canonical None = Raise (LoginError 403 "" FORBIDDEN)).
Proof.
  intros Hst run. subst run. split_and!.
  - intros ->. unfold _check_local_password.
    by rewrite (find_user_none _ _ Hst).
  - intros Hsz. pose proof (find_user_several _ _ _ Hst Hsz) as Hfind.
    destruct (infos !! user_id) as [stored|].
    + by apply check_local_password_resolved.
    + unfold _check_local_password. by rewrite Hfind.
  - intros canonical stored ->.
    apply check_local_password_resolved. by apply find_user_single.
  - intros canonical computed h Hh Hne. unfold local_verdict.
    case_decide; [done|]. by rewrite Hh.
  - done.
Qed.

(** ** Short-term login tokens *)

Lemma token_fault_converted (hs : HomeServer) (login_token : string) (e : exn) :
  token_fault e = true →
  (deserialize hs login_token = Raise e ∨
   ∃ m, deserialize hs login_token = Ok m ∧
        (get_user_id_from_macaroon hs m = Raise e ∨
         ∃ uid, get_user_id_from_macaroon hs m = Ok uid ∧
                validate_macaroon hs m "login" true uid = Raise e)) →
  validate_short_term_login_token_and_get_user_id hs login_token =
    Raise unknown_token.
Proof.
  intros He Hwhere. unfold validate_short_term_login_token_and_get_user_id.
  destruct Hwhere as [Hd|(m & Hd & [Hu|(uid & Hu & Hv)])].
  - rewrite Hd. simpl. by rewrite He.
  - rewrite Hd. simpl. rewrite Hu. simpl. by rewrite He.
  - rewrite Hd. simpl. rewrite Hu. simpl. rewrite Hv. simpl. by rewrite He.
Qed.

(** An exception outside the [except] clause is not converted. *)
Lemma token_other_exception_passes (hs : HomeServer) (login_token : string) (e : exn) :
  token_fault e = false →
  deserialize hs login_token = Raise e →
  validate_short_term_login_token_and_get_user_id hs login_token = Raise e.
Proof.
  intros He Hd. unfold validate_short_term_login_token_and_get_user_id.
  rewrite Hd. simpl. by rewrite He.
Qed.

(** What the [except] clause achieves: when deserialization and
    verification fail only in the ways the clause is written for (a
    MacaroonException, TypeError or ValueError, or the auth API's own
    unknown-token error), then for every input string the validation
    either returns the user id of a token that deserialized and passed
    the check for type "login" with expiry, or raises an unknown-token
    authentication failure (401). *)
Theorem login_token_valid_or_unknown_token
    (hs : HomeServer) (login_token : string) :
  (∀ t, fails_as_token (deserialize hs t)) →
  (∀ m, fails_as_token (get_user_id_from_macaroon hs m)) →
  (∀ m ty exp uid, fails_as_token (validate_macaroon hs m ty exp uid)) →
  (∃ m uid,
     deserialize hs login_token = Ok m ∧
     get_user_id_from_macaroon hs m = Ok uid ∧
     validate_macaroon hs m "login" true uid = Ok () ∧
     validate_short_term_login_token_and_get_user_id hs login_token = Ok uid) ∨
  (∃ msg,
     validate_short_term_login_token_and_get_user_id hs login_token =
       Raise (AuthError 401 msg UNKNOWN_TOKEN)).
Proof.
  intros Hd Hu Hv. unfold validate_short_term_login_token_and_get_user_id.
  assert (Hconv : ∀ e, token_failure e →
    ∃ msg, (if token_fault e then Raise unknown_token else Raise e)
           = Raise (A := string) (AuthError 401 msg UNKNOWN_TOKEN)).
  { intros e [He|[msg ->]].
    - rewrite He. by eexists.
    - simpl. by eexists. }
  specialize (Hd login_token).
  destruct (deserialize hs login_token) as [m|e|] eqn:Em; simpl in *; [| |done].
  2: { right. by apply Hconv. }
  specialize (Hu m).
  destruct (get_user_id_from_macaroon hs m) as [uid|e|] eqn:Eu; simpl in *;
    [| |done].
  2: { right. by apply Hconv. }
  specialize (Hv m "login" true uid).
  destruct (validate_macaroon hs m "login" true uid) as [[]|e|] eqn:Ev;
    simpl in *; [| |done].
  2: { right. by apply Hconv. }
  left. exists m, uid. by rewrite Eu, Ev.
Qed.

(** C8 (the code at a failing input): the login token "MDAx" makes the
    deserializer raise struct.error.  The [except] clause does not name
    that class, so the validation neither returns a user id nor raises
    an authentication failure: the struct.error comes out of it. *)
Theorem login_token_struct_error_escapes :
  deserialize Demo.hs_packets "MDAx" = Raise (OtherException "struct.error") ∧
  validate_short_term_login_token_and_get_user_id Demo.hs_packets "MDAx"
    = Raise (OtherException "struct.error") ∧
  (∀ uid, validate_short_term_login_token_and_get_user_id Demo.hs_packets "MDAx"
          ≠ Ok uid) ∧
  (∀ code msg errcode,
     validate_short_term_login_token_and_get_user_id Demo.hs_packets "MDAx"
     ≠ Raise (AuthError code msg errcode)).
Proof.
  assert (Hd : deserialize Demo.hs_packets "MDAx"
               = Raise (OtherException "struct.error")) by reflexivity.
  pose proof (token_other_exception_passes Demo.hs_packets "MDAx"
                (OtherException "struct.error") eq_refl Hd) as Hrun.
  split_and!; [exact Hd | exact Hrun | |].
  - intros uid. rewrite Hrun. discriminate.
  - intros code msg errcode. rewrite Hrun. discriminate.
Qed.


(* ===================================================================== *)
(** * The theorems on the sample deployment *)
(* ===================================================================== *)

Lemma table_ok_decide (h : AuthHandler) :
  bool_decide (map_Forall (fun k s => id s = k) (sessions h)) = true → table_ok h.
Proof. intros H%bool_decide_eq_true. exact H. Defined.

Lemma table_ok_start : table_ok Sample.start.
Proof. intros k s. simpl. by rewrite lookup_empty. Defined.

(** Saving "b" exactly 48 hours after "a" was last used keeps "a". *)
Lemma save_prunes_other_witness :
  let A := set_last_used 1470000000000 (new_session "a") in
  let B := new_session "b" in
  let h := Handler {[ "a" := A ]} (1470000000000 + 172800000) [] in
  sessions h !! id A = Some A ∧ last_used A = Some 1470000000000 ∧ id B ≠ id A ∧
  sessions (_save_session B h).2 !! id A = Some A.
Proof.
  intros A B h.
  assert (H1 : sessions h !! id A = Some A) by (vm_compute; reflexivity).
  assert (H2 : last_used A = Some 1470000000000) by reflexivity.
  assert (H3 : id B ≠ id A) by (vm_compute; discriminate).
  refine (conj H1 (conj H2 (conj H3 _))).
  apply (save_prunes_other_iff_older_than_48h h A B 1470000000000 H1 H2 H3).
  vm_compute. discriminate.
Defined.

(** A probe creates a session; the next save of another session removes
    it. *)
Lemma never_saved_session_witness :
  let run := _get_session_info VNone Sample.start in
  let s := new_session "abcdefghijklmnopqrstuvwx" in
  table_ok Sample.start ∧ run = (Ok s, run.2) ∧
  sessions Sample.start !! id s = None ∧
  last_used s = None ∧
  sessions (_save_session (new_session "other") run.2).2 !! id s = None.
Proof.
  intros run s.
  assert (H1 : run = (Ok s, run.2)) by (vm_compute; reflexivity).
  assert (H2 : sessions Sample.start !! id s = None) by (vm_compute; reflexivity).
  destruct (never_saved_session_removed_by_next_save
              Sample.start run.2 VNone s table_ok_start H1 H2) as (Hlu & Hin & Hnext).
  refine (conj table_ok_start (conj H1 (conj H2 (conj Hlu _)))).
  apply (Hnext run.2 s (new_session "other") Hin Hlu).
  - vm_compute. discriminate.
  - vm_compute. reflexivity.
Defined.

(** The dummy stage completes the flow [[m.login.dummy]]. *)
Lemma check_auth_complete_witness :
  let authdict := VDict {[ "type" := VStr Sample.DUMMY ]} in
  let run := Sample.first_run in
  let r := Sample.result_of run in
  table_ok Sample.start ∧
  Sample.first_request !! "auth" = Some authdict ∧
  truthy authdict = true ∧
  run = (Ok r, run.2) ∧
  authed r = true ∧
  ∃ (sess : session) (C : dict),
    sessions run.2 !! result_session_id r = Some sess ∧ creds sess = Some C ∧
    ∃ f, f ∈ [[Sample.DUMMY]] ∧ ∀ stage, stage ∈ f → is_Some (C !! stage).
Proof.
  intros authdict run r.
  assert (H1 : Sample.first_request !! "auth" = Some authdict)
    by (vm_compute; reflexivity).
  assert (H2 : truthy authdict = true) by (vm_compute; reflexivity).
  assert (H3 : run = (Ok r, run.2)) by (vm_compute; reflexivity).
  assert (H4 : authed r = true) by (vm_compute; reflexivity).
  refine (conj table_ok_start (conj H1 (conj H2 (conj H3 (conj H4 _))))).
  destruct (check_auth_complete_iff_flow_covered Sample.hs [[Sample.DUMMY]]
              Sample.first_request Sample.ip Sample.start run.2 authdict r
              table_ok_start H1 H2 H3)
    as (sess & C & Hin & HC & Hiff & _).
  exists sess, C. refine (conj Hin (conj HC _)). apply Hiff, H4.
Defined.

(** After the first request, a rejected recaptcha attempt on the same
    session leaves the dummy credential in place. *)
Lemma failed_stage_witness :
  let h := Sample.first_run.2 in
  let S := "abcdefghijklmnopqrstuvwx" in
  let a : dict := {[ "session" := VStr S; "type" := VStr Sample.RECAPTCHA ]} in
  let params : dict := {[ "auth" := VDict a ]} in
  let s0 := Session S (Some {[ "username" := VStr "bob" ]})
              (Some {[ Sample.DUMMY := VBool true ]}) None (Some 1470000000000) in
  let run := check_auth Sample.hs [[Sample.DUMMY; Sample.RECAPTCHA]] params Sample.ip h in
  table_ok h ∧ params !! "auth" = Some (VDict a) ∧
  a !! "type" = Some (VStr Sample.RECAPTCHA) ∧
  checkers Sample.hs !! Sample.RECAPTCHA = Some Sample.reject ∧
  _get_session_info (default VNone (a !! "session")) h = (Ok s0, h) ∧
  run.1 = Raise (LoginError 401 "" UNAUTHORIZED) ∧
  ∃ s1, sessions run.2 !! S = Some s1 ∧
        session_creds s1 = {[ Sample.DUMMY := VBool true ]}.
Proof.
  intros h S a params s0 run.
  assert (H0 : table_ok h) by (apply table_ok_decide; vm_compute; reflexivity).
  assert (H1 : params !! "auth" = Some (VDict a)) by (vm_compute; reflexivity).
  assert (H2 : a !! "type" = Some (VStr Sample.RECAPTCHA)) by (vm_compute; reflexivity).
  assert (H3 : checkers Sample.hs !! Sample.RECAPTCHA = Some Sample.reject)
    by (vm_compute; reflexivity).
  assert (H4 : _get_session_info (default VNone (a !! "session")) h = (Ok s0, h))
    by (vm_compute; reflexivity).
  refine (conj H0 (conj H1 (conj H2 (conj H3 (conj H4 _))))).
  pose proof (failed_stage_keeps_credentials Sample.hs
                [[Sample.DUMMY; Sample.RECAPTCHA]] params a Sample.ip h h
                Sample.RECAPTCHA Sample.reject s0 H0 H1 H2 H3 H4) as Hkeep.
  simpl in Hkeep. destruct Hkeep as (Hraise & s1 & Hin & Hcreds & _).
  refine (conj Hraise _). exists s1. exact (conj Hin Hcreds).
Defined.

(** The parameters of the first request come back on a later call that
    carries the session id only. *)
Lemma params_returned_witness :
  let run1 := Sample.first_run in
  let r1 := Sample.result_of run1 in
  let P : dict := {[ "username" := VStr "bob" ]} in
  let a2 : dict := {[ "session" := VStr "abcdefghijklmnopqrstuvwx" ]} in
  let hm := set_clock 1470000060000 run1.2 in
  let run2 := check_auth Sample.hs [[Sample.DUMMY]] {[ "auth" := VDict a2 ]}
                Sample.ip hm in
  table_ok Sample.start ∧
  Forall (fun d => d ≠ "") (random_strings Sample.start) ∧
  delete "auth" Sample.first_request ≠ ∅ ∧
  run1 = (Ok r1, run1.2) ∧
  a2 !! "session" = Some (VStr (result_session_id r1)) ∧
  result_params r1 = P ∧
  ∃ r2, run2.1 = Ok r2 ∧ result_params r2 = P.
Proof.
  intros run1 r1 P a2 hm run2.
  assert (H1 : Forall (fun d => d ≠ "") (random_strings Sample.start))
    by (repeat constructor; discriminate).
  assert (H2 : delete "auth" Sample.first_request ≠ ∅).
  { intros H. apply (f_equal (fun m : dict => m !! "username")) in H.
    vm_compute in H. discriminate. }
  assert (H3 : run1 = (Ok r1, run1.2)) by (vm_compute; reflexivity).
  assert (H4 : a2 !! "session" = Some (VStr (result_session_id r1)))
    by (vm_compute; reflexivity).
  assert (H5 : delete "auth" Sample.first_request = P) by (vm_compute; reflexivity).
  refine (conj table_ok_start (conj H1 (conj H2 (conj H3 (conj H4 _))))).
  destruct (params_of_first_call_returned_by_later_call Sample.hs [[Sample.DUMMY]]
              Sample.first_request Sample.ip Sample.start run1.2 r1
              table_ok_start H1 H2 H3) as (Hp1 & Hok1 & (s1 & Hin1 & Hcd1) & Hlater).
  rewrite H5 in Hp1. split; [exact Hp1|].
  destruct (Hlater hm s1 [[Sample.DUMMY]] a2 Sample.ip Hok1 Hin1 Hcd1 H4)
    as (Hsame & Hreturns & _).
  destruct Hreturns as [r2 Hr2]; [vm_compute; reflexivity|].
  exists r2. split; [exact Hr2|].
  destruct (Hsame r2 Hr2) as [Hp2 _]. rewrite H5 in Hp2. exact Hp2.
Defined.

(** The dummy stage added out of band to the session of the first
    request. *)
Lemma add_oob_auth_witness :
  let h := Sample.first_run.2 in
  let S := "abcdefghijklmnopqrstuvwx" in
  let a : dict := {[ "session" := VStr S ]} in
  let s0 := Session S (Some {[ "username" := VStr "bob" ]})
              (Some {[ Sample.DUMMY := VBool true ]}) None (Some 1470000000000) in
  let run := add_oob_auth Sample.hs "org.example.undecided" (VDict a) Sample.ip h in
  let run' := add_oob_auth Sample.hs Sample.DUMMY (VDict a) Sample.ip
                (set_clock 1470000000500 h) in
  table_ok h ∧ table_ok (set_clock 1470000000500 h) ∧
  add_oob_auth Sample.hs "m.login.password" (VDict a) Sample.ip h
    = (Raise missing_param, h) ∧
  add_oob_auth Sample.hs Sample.DUMMY (VDict ∅) Sample.ip h
    = (Raise missing_param, h) ∧
  run.1 = Ok false ∧
  (∃ s1, sessions run.2 !! S = Some s1 ∧ session_creds s1 = session_creds s0) ∧
  run'.1 = Ok true ∧
  (∃ s1, sessions run'.2 !! S = Some s1 ∧ last_used s1 = Some 1470000000500).
Proof.
  intros h S a s0 run run'.
  assert (H0 : table_ok h) by (apply table_ok_decide; vm_compute; reflexivity).
  assert (H0' : table_ok (set_clock 1470000000500 h)) by exact H0.
  destruct (add_oob_auth_records_into_named_session Sample.hs "m.login.password"
              a Sample.ip h H0) as (Hunreg & _ & _).
  destruct (add_oob_auth_records_into_named_session Sample.hs Sample.DUMMY
              ∅ Sample.ip h H0) as (_ & Hnosession & _).
  destruct (add_oob_auth_records_into_named_session Sample.hs "org.example.undecided"
              a Sample.ip h H0) as (_ & _ & Hfalsy).
  destruct (add_oob_auth_records_into_named_session Sample.hs Sample.DUMMY
              a Sample.ip (set_clock 1470000000500 h) H0') as (_ & _ & Htruthy).
  specialize (Hfalsy Sample.undecided S s0).
  specialize (Htruthy _check_dummy_auth S s0).
  simpl in Hfalsy, Htruthy.
  destruct Hfalsy as (Hf1 & s1 & Hf2 & Hf3 & _);
    [vm_compute; reflexivity | vm_compute; reflexivity | discriminate
    | vm_compute; reflexivity |].
  destruct Htruthy as (Ht1 & s1' & Ht2 & _ & Ht3);
    [vm_compute; reflexivity | vm_compute; reflexivity | discriminate
    | vm_compute; reflexivity |].
  refine (conj H0 (conj H0' (conj _ (conj _ (conj Hf1 (conj _ (conj Ht1 _))))))).
  - apply Hunreg. vm_compute. reflexivity.
  - apply Hnosession. vm_compute. reflexivity.
  - exists s1. exact (conj Hf2 Hf3).
  - exists s1'. exact (conj Ht2 Ht3).
Defined.

(** "@BOB:example.org" resolves to the one account that matches up to
    case; "@ALICE:example.org" matches two accounts, neither exactly;
    "@Alice:example.org" is one of the two. *)
Lemma local_password_witness :
  let two : gmap string (option string) :=
    {[ "@alice:example.org" := Some "$2b$wonderland";
       "@Alice:example.org" := Some "$2b$looking-glass" ]} in
  get_users_by_id_case_insensitive Sample.hs "@BOB:example.org"
    = Ok {[ "@bob:example.org" := Some "$2b$secret" ]} ∧
  get_users_by_id_case_insensitive Sample.hs "@ALICE:example.org" = Ok two ∧
  get_users_by_id_case_insensitive Sample.hs "@Alice:example.org" = Ok two ∧
  _check_local_password Sample.hs "@BOB:example.org" "secret" = Ok "@bob:example.org" ∧
  _check_local_password Sample.hs "@BOB:example.org" "guess" = Raise forbidden ∧
  _check_local_password Sample.hs "@ALICE:example.org" "wonderland" = Raise forbidden ∧
  _check_local_password Sample.hs "@Alice:example.org" "looking-glass"
    = Ok "@Alice:example.org".
Proof.
  intros two.
  assert (H1 : get_users_by_id_case_insensitive Sample.hs "@BOB:example.org"
                 = Ok {[ "@bob:example.org" := Some "$2b$secret" ]})
    by (vm_compute; reflexivity).
  assert (H2 : get_users_by_id_case_insensitive Sample.hs "@ALICE:example.org"
                 = Ok two) by (vm_compute; reflexivity).
  assert (H3 : get_users_by_id_case_insensitive Sample.hs "@Alice:example.org"
                 = Ok two) by (vm_compute; reflexivity).
  assert (Hsz : (1 < size two)%nat) by (vm_compute; lia).
  refine (conj H1 (conj H2 (conj H3 _))).
  destruct (local_password_resolution Sample.hs "@BOB:example.org" "secret" _ H1)
    as (_ & _ & Hone & _).
  destruct (local_password_resolution Sample.hs "@BOB:example.org" "guess" _ H1)
    as (_ & _ & Hone' & _).
  destruct (local_password_resolution Sample.hs "@ALICE:example.org" "wonderland" _ H2)
    as (_ & Hmany & _).
  destruct (local_password_resolution Sample.hs "@Alice:example.org" "looking-glass"
              _ H3) as (_ & Hmany' & _).
  specialize (Hmany Hsz). specialize (Hmany' Hsz).
  split_and!.
  - rewrite (Hone _ _ eq_refl). vm_compute. reflexivity.
  - rewrite (Hone' _ _ eq_refl). vm_compute. reflexivity.
  - vm_compute in Hmany. exact Hmany.
  - vm_compute in Hmany'. exact Hmany'.
Defined.

Lemma sample_deserialize_contract (t : string) :
  fails_as_token (deserialize Sample.hs t).
Proof.
  simpl. unfold Sample.toy_deserialize.
  destruct (String.eqb t _); simpl; [exact I | by left].
Defined.

Lemma sample_get_user_id_contract (m : Macaroon) :
  fails_as_token (get_user_id_from_macaroon Sample.hs m).
Proof.
  simpl. unfold Sample.toy_get_user_id.
  destruct (List.find _ _); simpl; [exact I | right; by eexists].
Defined.

Lemma sample_validate_contract (m : Macaroon) (ty : string) (exp : bool) (uid : string) :
  fails_as_token (validate_macaroon Sample.hs m ty exp uid).
Proof.
  simpl. unfold Sample.toy_validate.
  destruct (existsb _ _); simpl; [exact I | by left].
Defined.

(** Bob's login token validates to Bob; a string that is no token is an
    unknown token. *)
Lemma login_token_witness :
  (∀ t, fails_as_token (deserialize Sample.hs t)) ∧
  (∀ m, fails_as_token (get_user_id_from_macaroon Sample.hs m)) ∧
  (∀ m ty exp uid, fails_as_token (validate_macaroon Sample.hs m ty exp uid)) ∧
  validate_short_term_login_token_and_get_user_id Sample.hs
    (serialize Sample.hs Sample.login_token_of_bob) = Ok "@bob:example.org" ∧
  ∃ msg, validate_short_term_login_token_and_get_user_id Sample.hs "AAAA"
         = Raise (AuthError 401 msg UNKNOWN_TOKEN).
Proof.
  refine (conj sample_deserialize_contract (conj sample_get_user_id_contract
            (conj sample_validate_contract _))).
  split.
  - destruct (login_token_valid_or_unknown_token Sample.hs
                (serialize Sample.hs Sample.login_token_of_bob)
                sample_deserialize_contract sample_get_user_id_contract
                sample_validate_contract) as [(m & uid & _ & _ & _ & Hok)|[msg Hbad]].
    + rewrite Hok. vm_compute in Hok. congruence.
    + vm_compute in Hbad. discriminate.
  - destruct (login_token_valid_or_unknown_token Sample.hs "AAAA"
                sample_deserialize_contract sample_get_user_id_contract
                sample_validate_contract) as [(m & uid & Hd & _)|Hbad].
    + vm_compute in Hd. discriminate.
    + exact Hbad.
Defined.

(** [validate_hash] on a stored hash that bcrypt cannot parse: the
    ValueError of [hashpw] comes out of [validate_hash]. *)
Lemma validate_hash_raises_on_malformed_hash :
  validate_hash Sample.hs "secret" (Some "not-a-bcrypt-hash") = Raise ValueError ∧
  ¬ (∀ (hs : HomeServer) (password : string) (stored_hash : option string),
       ∃ b : bool, validate_hash hs password stored_hash = Ok b).
Proof.
  assert (H : validate_hash Sample.hs "secret" (Some "not-a-bcrypt-hash")
              = Raise ValueError) by (vm_compute; reflexivity).
  split; [exact H|].
  intros Hall. destruct (Hall Sample.hs "secret" (Some "not-a-bcrypt-hash")) as [b Hb].
  rewrite H in Hb. discriminate.
Qed.

(* ===================================================================== *)
(** * More about the session store *)
(* ===================================================================== *)

(** X1: [_prune_sessions] keeps exactly the sessions that are not stale, as
    they are; pruning twice at one time is pruning once. *)
Theorem prune_keeps_exactly_the_fresh (now : Z) (tbl : gmap string session) :
  (∀ k s, _prune_sessions now tbl !! k = Some s ↔
          tbl !! k = Some s ∧ ¬ stale now s) ∧
  _prune_sessions now (_prune_sessions now tbl) = _prune_sessions now tbl.
Proof.
  assert (Hchar : ∀ tbl' k s, _prune_sessions now tbl' !! k = Some s ↔
                              tbl' !! k = Some s ∧ ¬ stale now s).
  { intros tbl' k s. rewrite prune_lookup.
    destruct (tbl' !! k) as [s0|]; [|by split; [|intros [? _]]].
    case_decide as Hs; split.
    - done.
    - intros [[= ->] Hn]. by destruct Hn.
    - intros [= ->]. done.
    - by intros [? _]. }
  split; [apply Hchar|].
  apply map_eq. intros k. apply option_eq. intros s.
  rewrite !Hchar. tauto.
Qed.

(** X2: a prune at a later time makes an earlier prune redundant. *)
Theorem prune_later_subsumes_earlier (now now' : Z) (tbl : gmap string session) :
  now ≤ now' →
  _prune_sessions now' (_prune_sessions now tbl) = _prune_sessions now' tbl.
Proof.
  intros Hle. apply map_eq. intros k. rewrite !prune_lookup.
  destruct (tbl !! k) as [s|]; [|done].
  destruct (decide (stale now s)) as [Hs|Hs]; [|done].
  case_decide as Hs'; [done|]. exfalso. apply Hs'. unfold stale in *. lia.
Qed.

(** X3: saving never loses the session that is saved: whatever its age was,
    it is in the table afterwards, stamped with the clock and otherwise
    as passed; and saving adds no other id to the table. *)
Theorem save_keeps_the_saved_session (sess : session) (h : AuthHandler) :
  let h' := (_save_session sess h).2 in
  sessions h' !! id sess = Some (set_last_used (clock h) sess) ∧
  dom (sessions h') ⊆ {[ id sess ]} ∪ dom (sessions h).
Proof.
  intros h'. subst h'. split; [apply save_lookup_self|].
  intros k [s Hk]%elem_of_dom.
  destruct (decide (k = id sess)) as [->|Hne]; [set_solver|].
  rewrite save_lookup_other in Hk by done.
  destruct (sessions h !! k) eqn:Hk0; [|done].
  apply elem_of_union_r, elem_of_dom. by rewrite Hk0.
Qed.

Lemma get_session_info_frame (session_id : value) (h h' : AuthHandler)
    (o : outcome session) :
  _get_session_info session_id h = (o, h') →
  clock h' = clock h ∧
  (∀ k s, sessions h !! k = Some s → sessions h' !! k = Some s).
Proof.
  intros Hget.
  assert (Hcase : (∃ s, o = Ok s) ∨ (∀ s, o ≠ Ok s)).
  { destruct o; [left; by eexists | by right | by right]. }
  destruct Hcase as [[s ->]|Hno].
  - pose proof (get_session_info_ok _ _ _ _ Hget) as Hok.
    destruct Hok as [(k & -> & Hk & Hs & ->)|(Hs & Hfree & Htbl & Hc & Hin)];
      [done|].
    split; [done|]. intros k s' Hk. rewrite Htbl.
    destruct (decide (id s = k)) as [<-|Hne]; [congruence|].
    by rewrite lookup_insert_ne.
  - pose proof (get_session_info_not_ok _ _ _ _ Hget Hno) as Hsame.
    split.
    + revert Hget. unfold _get_session_info.
      destruct session_id as [|b|n|k|l|d]; simpl;
        repeat (case_match; simpl); by intros [= <- <-].
    + intros k s. by rewrite Hsame.
Qed.

(** X4: [_get_session_info] is lookup-or-create: however it ends, it leaves
    the clock and every session of the table as they are; when it
    returns, the session is either the one stored under the non-empty id
    that was asked for (and nothing changed), or a new session with no
    key but its id, stored under one of the coming random strings that
    was not an id before. *)
Theorem get_session_info_looks_up_or_creates
    (session_id : value) (h h' : AuthHandler) (o : outcome session) :
  _get_session_info session_id h = (o, h') →
  clock h' = clock h ∧
  (∀ k s, sessions h !! k = Some s → sessions h' !! k = Some s) ∧
  (∀ s, o = Ok s →
     (∃ k, session_id = VStr k ∧ k ≠ "" ∧ sessions h !! k = Some s ∧ h' = h) ∨
     (s = new_session (id s) ∧ id s ∈ random_strings h ∧
      sessions h !! id s = None ∧ sessions h' = <[id s := s]> (sessions h))).
Proof.
  intros Hget. destruct (get_session_info_frame _ _ _ _ Hget) as [Hc Hsame].
  split_and!; [done | done |].
  intros s ->.
  destruct (get_session_info_ok _ _ _ _ Hget)
    as [(k & -> & Hk & Hs & ->)|(Hs & Hfree & Htbl & _ & Hin)].
  - left. by exists k.
  - by right.
Qed.

(** X5: asking again with the id of the session [_get_session_info] has
    returned gives the same session and changes nothing. *)
Theorem get_session_info_again (session_id : value) (h h' : AuthHandler)
    (s : session) :
  table_ok h →
  Forall (fun d => d ≠ "") (random_strings h) →
  _get_session_info session_id h = (Ok s, h') →
  _get_session_info (VStr (id s)) h' = (Ok s, h').
Proof.
  intros Hok Hrand Hget.
  pose proof (get_session_info_id_nonempty _ _ _ _ Hok Hrand Hget) as Hid.
  destruct (get_session_info_table _ _ _ _ Hok Hget) as (_ & Hin & _).
  by apply get_session_info_known.
Qed.

(** ** Server-side session data *)

Lemma prune_after_touch (now : Z) (tbl : gmap string session) (k : string)
    (s : session) :
  _prune_sessions now (<[k := set_last_used now s]> tbl) !! k
  = Some (set_last_used now s).
Proof.
  rewrite prune_lookup, lookup_insert_eq.
  case_decide as Hs; [|done]. by apply just_saved_not_stale in Hs.
Qed.

Lemma set_session_data_run (S key : string) (v : value) (h : AuthHandler)
    (s0 : session) :
  S ≠ "" → sessions h !! S = Some s0 →
  let s1 := set_last_used (clock h)
              (set_serverdict (<[key := v]> (default ∅ (serverdict s0))) s0) in
  ∃ h', set_session_data (VStr S) key v h = (Ok (), h') ∧
        sessions h' !! id s0 = Some s1 ∧ clock h' = clock h.
Proof.
  intros HS Hs0 s1. unfold set_session_data. unfold bind at 1.
  rewrite (get_session_info_known S h s0 HS Hs0).
  unfold setdefault_serverdict.
  destruct (serverdict s0) as [d|] eqn:Hsd; simpl.
  - eexists. split; [reflexivity|]. split; [|done].
    subst s1. simpl. apply (prune_after_touch _ _ _ (set_serverdict _ s0)).
  - eexists. split; [reflexivity|]. split; [|done].
    subst s1. simpl. apply (prune_after_touch _ _ _ (set_serverdict _ s0)).
Qed.

Lemma get_session_data_run (S key : string) (dflt : value) (h : AuthHandler)
    (s0 : session) (d : dict) :
  S ≠ "" → sessions h !! S = Some s0 → serverdict s0 = Some d →
  get_session_data (VStr S) key dflt h = (Ok (default dflt (d !! key)), h).
Proof.
  intros HS Hs0 Hd. unfold get_session_data. unfold bind at 1.
  rewrite (get_session_info_known S h s0 HS Hs0).
  unfold setdefault_serverdict. by rewrite Hd.
Qed.

(** X6: what [set_session_data] stores under a key of a session of the
    table, [get_session_data] reads back; the other keys, the
    credentials and the stored request parameters of the session are as
    before. *)
Theorem session_data_round_trip (S key : string) (v dflt : value)
    (h : AuthHandler) (s0 : session) :
  table_ok h → S ≠ "" → sessions h !! S = Some s0 →
  let h1 := (set_session_data (VStr S) key v h).2 in
  get_session_data (VStr S) key dflt h1 = (Ok v, h1) ∧
  (∀ key', key' ≠ key →
     get_session_data (VStr S) key' dflt h1 =
       (Ok (default dflt (default ∅ (serverdict s0) !! key')), h1)) ∧
  ∃ s1, sessions h1 !! S = Some s1 ∧
        creds s1 = creds s0 ∧ clientdict s1 = clientdict s0.
Proof.
  intros Hok HS Hs0 h1.
  destruct (set_session_data_run S key v h s0 HS Hs0) as (h' & Hrun & Hin & _).
  subst h1. rewrite Hrun. simpl.
  rewrite (Hok _ _ Hs0) in Hin.
  split_and!.
  - rewrite (get_session_data_run S key dflt h' _ _ HS Hin eq_refl).
    by rewrite lookup_insert_eq.
  - intros key' Hne.
    rewrite (get_session_data_run S key' dflt h' _ _ HS Hin eq_refl).
    by rewrite lookup_insert_ne.
  - eexists. split; [exact Hin|]. done.
Qed.

(** X7: reading server-side data of a session that does not exist returns
    the default and leaves a new session behind. *)
Theorem get_session_data_creates_session (session_id : value) (key : string)
    (dflt r : value) (h h' : AuthHandler) :
  (∀ k, session_id = VStr k → sessions h !! k = None) →
  get_session_data session_id key dflt h = (Ok r, h') →
  r = dflt ∧
  ∃ sid, sessions h !! sid = None ∧ sid ∈ random_strings h ∧
         sessions h' = <[sid := set_serverdict ∅ (new_session sid)]> (sessions h).
Proof.
  intros Hunknown. unfold get_session_data. unfold bind at 1.
  destruct (_get_session_info session_id h) as [[s| |] h0] eqn:Hget; try done.
  apply get_session_info_ok in Hget as [(k & -> & _ & Hk & _)|(Hs & Hfree & Htbl & _ & Hin)].
  { rewrite (Hunknown k eq_refl) in Hk. done. }
  unfold setdefault_serverdict. rewrite Hs. simpl.
  intros [= <- <-]. split; [done|]. exists (id s). split_and!; [done | done |].
  simpl. rewrite Htbl, Hs. simpl. by rewrite insert_insert_eq.
Qed.

(* ===================================================================== *)
(** * More about the authentication state machine *)
(* ===================================================================== *)

(** ** Credentials are never taken away *)


Lemma kept_by_refl (h : AuthHandler) : kept_by h h.
Proof. intros k s Hk. right. by exists s. Qed.

Lemma descends_refl (h : AuthHandler) : descends h h.
Proof.
  intros k. destruct (sessions h !! k) as [s|] eqn:Hk; [|by left].
  right. by exists s, s.
Qed.

Lemma descends_trans (h1 h2 h3 : AuthHandler) :
  descends h1 h2 → descends h2 h3 → descends h1 h3.
Proof.
  intros H12 H23 k.
  destruct (H23 k) as [Hgone|(s2 & s3 & Hk2 & Hk3 & Hsub23)]; [by left|].
  destruct (H12 k) as [Hgone|(s1 & s2' & Hk1 & Hk2' & Hsub12)]; [congruence|].
  right. exists s1, s3. split_and!; [done | done |].
  assert (s2' = s2) as -> by congruence. set_solver.
Qed.

Lemma descends_kept_by (h0 h h' : AuthHandler) :
  (∀ k s, sessions h0 !! k = Some s → sessions h !! k = Some s) →
  descends h h' → kept_by h0 h'.
Proof.
  intros Hsame Hdesc k s Hk. apply Hsame in Hk.
  destruct (Hdesc k) as [Hgone|(s1 & s2 & Hk1 & Hk2 & Hsub)]; [by left|].
  right. exists s2. split; [done|].
  assert (s1 = s) as -> by congruence. done.
Qed.

(** Writing a newer version of a session of the table, with at least
    the credentials it had. *)
Lemma write_session_descends (sess sess' : session) (h : AuthHandler) :
  live h sess → id sess' = id sess →
  dom (session_creds sess) ⊆ dom (session_creds sess') →
  descends h (write_session sess' h).2.
Proof.
  intros [_ Hin] Hid Hsub k. simpl.
  destruct (decide (k = id sess)) as [->|Hne].
  - right. exists sess, sess'. rewrite Hid, lookup_insert_eq. done.
  - rewrite Hid, lookup_insert_ne by done.
    destruct (sessions h !! k) as [s|] eqn:Hk; [|by left].
    right. by exists s, s.
Qed.

Lemma save_session_descends (sess sess' : session) (h : AuthHandler) :
  live h sess → id sess' = id sess →
  dom (session_creds sess) ⊆ dom (session_creds sess') →
  descends h (_save_session sess' h).2.
Proof.
  intros [_ Hin] Hid Hsub k.
  destruct (decide (k = id sess)) as [->|Hne].
  - right. exists sess, (set_last_used (clock h) sess').
    rewrite <- Hid at 2. rewrite save_lookup_self. done.
  - rewrite save_lookup_other by congruence.
    destruct (sessions h !! k) as [s|] eqn:Hk; [|by left].
    case_decide; [by left|]. right. by exists s, s.
Qed.

Lemma remember_params_descends (sess : session) (params : dict) (h : AuthHandler) :
  live h sess → descends h (remember_params sess params h).2.
Proof.
  intros Hlive. unfold remember_params.
  destruct (Nat.eqb (size params) 0); simpl.
  - destruct (clientdict sess); apply descends_refl.
  - unfold bind. simpl.
    pose proof (write_session_descends sess (set_clientdict params sess) h
                  Hlive eq_refl (reflexivity _)) as H1.
    pose proof (save_session_descends (set_clientdict params sess)
                  (set_clientdict params sess) (write_session _ h).2
                  (write_session_live _ h (proj1 Hlive)) eq_refl (reflexivity _)) as H2.
    exact (descends_trans _ _ _ H1 H2).
Qed.

Lemma ensure_creds_descends (sess : session) (h : AuthHandler) :
  live h sess → descends h (ensure_creds sess h).2.
Proof.
  intros Hlive. unfold ensure_creds.
  destruct (creds sess) eqn:Hc; [apply descends_refl|].
  apply (write_session_descends sess); [done | done |].
  unfold session_creds. rewrite Hc. simpl. set_solver.
Qed.

Lemma record_credential_descends (stage : string) (result : value)
    (sess : session) (h : AuthHandler) :
  live h sess → descends h (record_credential stage result sess h).2.
Proof.
  intros Hlive. unfold record_credential, bind. simpl.
  set (sess1 := set_creds (<[stage := result]> (session_creds sess)) sess).
  assert (Hsub : dom (session_creds sess) ⊆ dom (session_creds sess1)).
  { subst sess1. unfold session_creds at 2. simpl. rewrite dom_insert_L. set_solver. }
  pose proof (write_session_descends sess sess1 h Hlive eq_refl Hsub) as H1.
  pose proof (save_session_descends sess1 sess1 (write_session sess1 h).2
                (write_session_live _ h (proj1 Hlive)) eq_refl (reflexivity _)) as H2.
  exact (descends_trans _ _ _ H1 H2).
Qed.

Lemma present_stage_descends (hs : HomeServer) (authdict : value)
    (clientip : string) (sess : session) (h : AuthHandler) :
  live h sess → descends h (present_stage hs authdict clientip sess h).2.
Proof.
  intros Hlive. unfold present_stage, bind, lift.
  destruct (py_contains "type" authdict) as [[|]| |]; try apply descends_refl.
  destruct (py_getitem authdict "type") as [ty| |]; try apply descends_refl.
  destruct (find_checker hs ty _) as [[t check]| |]; try apply descends_refl.
  destruct (check authdict clientip) as [result| |]; try apply descends_refl.
  destruct (truthy result); [|apply descends_refl].
  by apply record_credential_descends.
Qed.

(** What a stage that returns has done to the session: nothing, or one
    credential more (or newer) and a save. *)
Lemma present_stage_result (hs : HomeServer) (authdict : value)
    (clientip : string) (sess sess' : session) (h h' : AuthHandler) :
  present_stage hs authdict clientip sess h = (Ok sess', h') →
  (sess' = sess ∧ h' = h) ∨
  ∃ t result,
    truthy result = true ∧
    sess' = set_last_used (clock h)
              (set_creds (<[t := result]> (session_creds sess)) sess).
Proof.
  unfold present_stage, bind, lift.
  destruct (py_contains "type" authdict) as [[|]| |]; try done.
  2: { intros [= <- <-]. by left. }
  destruct (py_getitem authdict "type") as [ty| |]; try done.
  destruct (find_checker hs ty _) as [[t check]| |]; try done.
  destruct (check authdict clientip) as [result| |]; try done.
  destruct (truthy result) eqn:Htr.
  2: { intros [= <- <-]. by left. }
  unfold record_credential, bind. simpl. intros [= <- <-].
  right. by exists t, result.
Qed.

Lemma present_stage_creds_grow (hs : HomeServer) (authdict : value)
    (clientip : string) (sess sess' : session) (h h' : AuthHandler) :
  present_stage hs authdict clientip sess h = (Ok sess', h') →
  dom (session_creds sess) ⊆ dom (session_creds sess').
Proof.
  intros [[-> _]|(t & result & _ & ->)]%present_stage_result; [done|].
  unfold session_creds at 2. simpl. rewrite dom_insert_L. set_solver.
Qed.

(** The run of [check_auth] up to the stage, for a request whose auth
    block is a non-empty dict. *)
Lemma check_auth_dict_run (hs : HomeServer) (flows : list (list string))
    (params a : dict) (clientip : string) (h h0 : AuthHandler) (s0 : session) :
  table_ok h →
  params !! "auth" = Some (VDict a) → a ≠ ∅ →
  _get_session_info (default VNone (a !! "session")) h = (Ok s0, h0) →
  ∃ (s2 : session) (p : dict) (h2 : AuthHandler),
    live h2 s2 ∧ clock h2 = clock h ∧ id s2 = id s0 ∧
    creds s2 = Some (session_creds s0) ∧
    descends h0 h2 ∧
    (delete "auth" params ≠ ∅ →
       p = delete "auth" params ∧ clientdict s2 = Some (delete "auth" params)) ∧
    (delete "auth" params = ∅ →
       p = default ∅ (clientdict s0) ∧ clientdict s2 = clientdict s0 ∧
       last_used s2 = last_used s0) ∧
    check_auth hs flows params clientip h =
      bind (present_stage hs (VDict a) clientip s2)
           (fun s3 => ret (conclude hs flows s3 p)) h2.
Proof.
  intros Hok Ha Hne Hget.
  destruct (get_session_info_live _ _ _ _ Hok Hget) as [Hlive0 Hc0].
  pose proof (remember_params_descends s0 (delete "auth" params) h0 Hlive0) as Hd1.
  destruct (remember_params_run s0 (delete "auth" params) h0 Hlive0)
    as (s1 & p1 & h1 & Hrem & Hlive1 & Hc1 & Hid1 & Hcr1 & Hfull & Hempty).
  rewrite Hrem in Hd1. simpl in Hd1.
  pose proof (ensure_creds_descends s1 h1 Hlive1) as Hd2.
  destruct (ensure_creds_run s1 h1 Hlive1) as (s2 & h2 & Hens & Hlive2 & Hc2 & Hs2).
  rewrite Hens in Hd2. simpl in Hd2.
  exists s2, p1, h2. split_and!; try done.
  - congruence.
  - subst s2. simpl. congruence.
  - subst s2. simpl. unfold session_creds. by rewrite Hcr1.
  - exact (descends_trans _ _ _ Hd1 Hd2).
  - intros Hp. destruct (Hfull Hp) as (-> & Hcd & _). split; [done|]. by subst s2.
  - intros Hp. destruct (Hempty Hp) as (-> & -> & _). by subst s2.
  - unfold check_auth. unfold bind at 1, lift. rewrite (split_auth_dict _ _ Ha).
    unfold bind at 1. rewrite Hget. unfold bind at 1. rewrite Hrem.
    apply truthy_dict_nonempty in Hne. rewrite Hne. simpl.
    unfold bind at 1. by rewrite Hens.
Qed.

(** X8: however a call of [check_auth] or [add_oob_auth] ends, a session
    that was in the table and is still there has every credential key
    it had: stages add credentials or replace them, nothing removes
    one. *)
Theorem credentials_are_never_dropped
    (hs : HomeServer) (flows : list (list string)) (params : dict)
    (stagetype : string) (authdict : value) (clientip : string)
    (h : AuthHandler) :
  table_ok h →
  kept_by h (check_auth hs flows params clientip h).2 ∧
  kept_by h (add_oob_auth hs stagetype authdict clientip h).2.
Proof.
  intros Hok. split.
  - unfold check_auth. unfold bind at 1, lift.
    destruct (split_auth params) as [[[a sid] p]| |]; try apply kept_by_refl.
    unfold bind at 1.
    destruct (_get_session_info sid h) as [o h0] eqn:Hget.
    destruct (get_session_info_frame _ _ _ _ Hget) as [_ Hsame].
    destruct o as [sess0| |];
      try (apply (descends_kept_by h h0 h0 Hsame), descends_refl).
    destruct (get_session_info_live _ _ _ _ Hok Hget) as [Hlive0 _].
    pose proof (remember_params_descends sess0 p h0 Hlive0) as Hd1.
    destruct (remember_params_run sess0 p h0 Hlive0)
      as (sess1 & p1 & h1 & Hrem & Hlive1 & _).
    unfold bind at 1. rewrite Hrem in *. simpl in Hd1.
    destruct (truthy a); simpl; [|by apply (descends_kept_by h h0 h1 Hsame)].
    pose proof (ensure_creds_descends sess1 h1 Hlive1) as Hd2.
    destruct (ensure_creds_run sess1 h1 Hlive1) as (sess2 & h2 & Hens & Hlive2 & _).
    unfold bind at 1. rewrite Hens in *. simpl in Hd2.
    pose proof (present_stage_descends hs a clientip sess2 h2 Hlive2) as Hd3.
    unfold bind.
    destruct (present_stage hs a clientip sess2 h2) as [[?| |] h3]; simpl in *;
      apply (descends_kept_by h h0 h3 Hsame);
      exact (descends_trans _ _ _ (descends_trans _ _ _ Hd1 Hd2) Hd3).
  - unfold add_oob_auth. unfold bind at 1, lift.
    destruct (find_checker hs (VStr stagetype) missing_param) as [[t check]| |];
      try apply kept_by_refl.
    unfold bind at 1.
    destruct (py_contains "session" authdict) as [[|]| |]; try apply kept_by_refl.
    cbn [negb]. unfold bind at 1.
    destruct (py_getitem authdict "session") as [sid| |]; try apply kept_by_refl.
    unfold bind at 1.
    destruct (_get_session_info sid h) as [o h0] eqn:Hget.
    destruct (get_session_info_frame _ _ _ _ Hget) as [_ Hsame].
    destruct o as [sess0| |];
      try (apply (descends_kept_by h h0 h0 Hsame), descends_refl).
    destruct (get_session_info_live _ _ _ _ Hok Hget) as [Hlive0 _].
    pose proof (ensure_creds_descends sess0 h0 Hlive0) as Hd2.
    destruct (ensure_creds_run sess0 h0 Hlive0) as (sess2 & h2 & Hens & Hlive2 & _).
    unfold bind at 1. rewrite Hens in *. simpl in Hd2. unfold bind at 1.
    destruct (check authdict clientip) as [result| |];
      try by apply (descends_kept_by h h0 h2 Hsame).
    destruct (truthy result); [|by apply (descends_kept_by h h0 h2 Hsame)].
    pose proof (record_credential_descends stagetype result sess2 h2 Hlive2) as Hd3.
    unfold bind.
    destruct (record_credential stagetype result sess2 h2) as [[?| |] h3];
      simpl in *; apply (descends_kept_by h h0 h3 Hsame);
      exact (descends_trans _ _ _ Hd2 Hd3).
Qed.

(** ** Completion *)

Lemma some_flow_done_mono (c1 c2 : dict) (flows : list (list string)) :
  dom c1 ⊆ dom c2 →
  some_flow_done c1 flows = true → some_flow_done c2 flows = true.
Proof.
  intros Hsub (f & Hin & Hall)%some_flow_done_iff.
  apply some_flow_done_iff. exists f. split; [done|].
  intros stage Hst. apply elem_of_dom, Hsub, elem_of_dom. by apply Hall.
Qed.

(** X9: completion is final: once the credentials of a session cover one of
    the flows, every later [check_auth] call for these flows that names
    the session in a dict auth block and returns reports completion for
    that session, whatever stage it presents. *)
Theorem completion_is_final
    (hs : HomeServer) (flows : list (list string)) (params a : dict)
    (clientip : string) (h h' : AuthHandler) (S : string) (s0 : session)
    (r : auth_result) :
  table_ok h →
  S ≠ "" → sessions h !! S = Some s0 →
  some_flow_done (session_creds s0) flows = true →
  params !! "auth" = Some (VDict a) → a !! "session" = Some (VStr S) →
  check_auth hs flows params clientip h = (Ok r, h') →
  authed r = true ∧ result_session_id r = S.
Proof.
  intros Hok HS Hs0 Hdone Ha Hsid Hrun.
  assert (Hne : a ≠ ∅) by (intros ->; by rewrite lookup_empty in Hsid).
  assert (Hget : _get_session_info (default VNone (a !! "session")) h = (Ok s0, h)).
  { rewrite Hsid. simpl. by apply get_session_info_known. }
  destruct (check_auth_dict_run hs flows params a clientip h h s0 Hok Ha Hne Hget)
    as (s2 & p & h2 & Hlive2 & _ & Hid2 & Hcr2 & _ & _ & _ & Heq).
  rewrite Heq in Hrun. unfold bind in Hrun.
  destruct (present_stage hs (VDict a) clientip s2 h2) as [[s3| |] h3] eqn:Hstage;
    try done.
  injection Hrun as <- <-.
  pose proof (present_stage_creds_grow _ _ _ _ _ _ _ Hstage) as Hgrow.
  destruct (present_stage_ok _ _ _ _ _ _ _ Hlive2 Hstage) as (_ & _ & Hid3 & _).
  assert (Hdone3 : some_flow_done (session_creds s3) flows = true).
  { apply (some_flow_done_mono (session_creds s0)); [|done].
    assert (session_creds s2 = session_creds s0) as <-; [|done].
    unfold session_creds at 1. by rewrite Hcr2. }
  unfold conclude. rewrite Hdone3. simpl. split; [done|].
  rewrite Hid3, Hid2. by apply Hok.
Qed.

(** X10: the two ends of the flow test: with no flow at all a call never
    reports completion, and an empty flow among the flows makes every
    call that presents an auth block and returns report completion. *)
Theorem no_flow_and_empty_flow
    (hs : HomeServer) (flows : list (list string)) (params : dict)
    (clientip : string) (h h' : AuthHandler) (r : auth_result) :
  table_ok h →
  check_auth hs flows params clientip h = (Ok r, h') →
  (flows = [] → authed r = false) ∧
  ([] ∈ flows →
   (∃ authdict, params !! "auth" = Some authdict ∧ truthy authdict = true) →
   authed r = true).
Proof.
  intros Hok Hrun. split.
  - intros ->. revert Hrun. unfold check_auth, bind, lift.
    destruct (split_auth params) as [[[a sid] p]| |]; try done.
    destruct (_get_session_info sid h) as [[sess0| |] h0]; try done.
    destruct (remember_params sess0 p h0) as [[[sess1 p1]| |] h1]; try done.
    destruct (truthy a); simpl; [|by intros [= <- <-]].
    destruct (ensure_creds sess1 h1) as [[sess2| |] h2]; try done.
    destruct (present_stage hs a clientip sess2 h2) as [[sess3| |] h3]; try done.
    by intros [= <- <-].
  - intros Hin (authdict & Ha & Htruthy).
    destruct (check_auth_stage_run _ _ _ _ _ _ _ _ Hok Ha Htruthy Hrun)
      as (sess & C & p & _ & HC & ->).
    unfold conclude.
    assert (Hdone : some_flow_done (session_creds sess) flows = true).
    { apply some_flow_done_iff. exists []. split; [done|].
      by intros stage ?%elem_of_nil. }
    by rewrite Hdone.
Qed.

(** ** Requests that do not get as far as a checker *)

(** X11: a stage type without a registered checker is refused with 400
    M_UNRECOGNIZED.  By then the session exists and the other parameters
    of the request are stored in it; its credentials are as before. *)
Theorem unrecognized_stage_is_refused
    (hs : HomeServer) (flows : list (list string)) (params a : dict)
    (clientip : string) (h h0 : AuthHandler) (t : string) (s0 : session) :
  table_ok h →
  params !! "auth" = Some (VDict a) →
  a !! "type" = Some (VStr t) → checkers hs !! t = None →
  _get_session_info (default VNone (a !! "session")) h = (Ok s0, h0) →
  let run := check_auth hs flows params clientip h in
  run.1 = Raise (LoginError 400 "" UNRECOGNIZED) ∧
  ∃ s1, sessions run.2 !! id s0 = Some s1 ∧
        session_creds s1 = session_creds s0 ∧
        (delete "auth" params ≠ ∅ → clientdict s1 = Some (delete "auth" params)).
Proof.
  intros Hok Ha Hty Hck Hget run. subst run.
  assert (Hne : a ≠ ∅) by (intros ->; by rewrite lookup_empty in Hty).
  destruct (check_auth_dict_run hs flows params a clientip h h0 s0 Hok Ha Hne Hget)
    as (s2 & p & h2 & [_ Hin2] & _ & Hid2 & Hcr2 & _ & Hfull & _ & ->).
  unfold bind, present_stage, bind, lift, py_contains, py_getitem.
  rewrite Hty. rewrite bool_decide_eq_true_2 by eauto.
  simpl. rewrite Hck. simpl. split; [done|].
  exists s2. rewrite <- Hid2. split_and!; [done | |].
  - unfold session_creds at 1. by rewrite Hcr2.
  - intros Hp. by destruct (Hfull Hp).
Qed.

(** X12: a request without an auth block (or with an empty one) always gets
    a new session: the answer is "not authenticated", carries the flows
    as given and the request's own parameters, names no completed
    stage, and its session id is one of the coming random strings that
    was not in use. *)
Theorem request_without_auth_starts_a_session
    (hs : HomeServer) (flows : list (list string)) (params : dict)
    (clientip : string) (h h' : AuthHandler) (r : auth_result) :
  params !! "auth" = None ∨ params !! "auth" = Some (VDict ∅) →
  check_auth hs flows params clientip h = (Ok r, h') →
  ∃ resp sid,
    r = NotAuthed resp (delete "auth" params) sid ∧
    resp_session resp = sid ∧ resp_flows resp = flows ∧
    resp_completed resp = None ∧
    sessions h !! sid = None ∧ sid ∈ random_strings h ∧
    is_Some (sessions h' !! sid).
Proof.
  intros Hauth. unfold check_auth. unfold bind at 1, lift.
  assert (Hsplit : ∃ a, split_auth params = Ok (a, VNone, delete "auth" params)
                        ∧ truthy a = false).
  { destruct Hauth as [Ha|Ha].
    - exists VNone. rewrite (split_auth_absent _ Ha). by rewrite delete_id.
    - exists (VDict ∅). rewrite (split_auth_dict _ _ Ha).
      by rewrite lookup_empty. }
  destruct Hsplit as (a & -> & Hfalsy). unfold bind at 1.
  destruct (_get_session_info VNone h) as [[s| |] h0] eqn:Hget; try done.
  apply get_session_info_ok in Hget as [(k & Hk & _)|(Hs & Hfree & Htbl & _ & Hin)];
    [done|].
  assert (Hlive0 : sessions h0 !! id s = Some s) by by rewrite Htbl, lookup_insert_eq.
  unfold bind at 1. unfold remember_params.
  destruct (Nat.eqb (size (delete "auth" params)) 0) eqn:Hsz; simpl.
  - rewrite Hs. simpl. rewrite Hfalsy. simpl. intros [= <- <-].
    eexists _, _. split; [reflexivity|]. simpl. by split_and!.
  - unfold bind. simpl. rewrite Hfalsy. simpl. intros [= <- <-].
    eexists _, _. split; [reflexivity|]. simpl. split_and!; try done.
    rewrite (prune_after_touch _ _ _ (set_clientdict _ s)). by eexists.
Qed.

(** ** The advertised parameters *)

Lemma advertise_flow (hs : HomeServer) (f : list string) (acc : dict) :
  acc = ∅ ∨ acc = {[ LoginType_RECAPTCHA hs := _get_params_recaptcha hs ]} →
  fold_left (fun (params : dict) stage =>
      match ({[ LoginType_RECAPTCHA hs := _get_params_recaptcha hs ]} : dict) !! stage,
            params !! stage with
      | Some p, None => <[stage := p]> params
      | _, _ => params
      end) f acc
  = if decide (LoginType_RECAPTCHA hs ∈ f)
    then {[ LoginType_RECAPTCHA hs := _get_params_recaptcha hs ]} else acc.
Proof.
  revert acc.
  induction f as [|stage f IH]; intros acc Hacc; cbn [fold_left].
  - rewrite decide_False; [done|]. by intros ?%elem_of_nil.
  - destruct (decide (stage = LoginType_RECAPTCHA hs)) as [->|Hne].
    + rewrite (decide_True (P := LoginType_RECAPTCHA hs ∈ LoginType_RECAPTCHA hs :: f))
        by left.
      rewrite lookup_singleton_eq.
      destruct Hacc as [->| ->].
      * rewrite lookup_empty, insert_empty.
        rewrite IH by by right. by case_decide.
      * rewrite lookup_singleton_eq.
        rewrite IH by by right. by case_decide.
    + rewrite lookup_singleton_ne by done. rewrite IH by done.
      case_decide as Hin; case_decide as Hin'; try done.
      * exfalso. apply Hin'. by right.
      * apply elem_of_cons in Hin' as [?|?]; [congruence | done].
Qed.

Lemma advertise_flows (hs : HomeServer) (flows : list (list string)) (acc : dict) :
  acc = ∅ ∨ acc = {[ LoginType_RECAPTCHA hs := _get_params_recaptcha hs ]} →
  fold_left (fun params f =>
    fold_left (fun (params : dict) stage =>
      match ({[ LoginType_RECAPTCHA hs := _get_params_recaptcha hs ]} : dict) !! stage,
            params !! stage with
      | Some p, None => <[stage := p]> params
      | _, _ => params
      end) f params) flows acc
  = if decide (Exists (fun f => LoginType_RECAPTCHA hs ∈ f) flows)
    then {[ LoginType_RECAPTCHA hs := _get_params_recaptcha hs ]} else acc.
Proof.
  revert acc.
  induction flows as [|f flows IH]; intros acc Hacc; cbn [fold_left].
  - rewrite decide_False; [done|]. by intros ?%Exists_nil.
  - rewrite (advertise_flow hs f acc Hacc).
    destruct (decide (LoginType_RECAPTCHA hs ∈ f)) as [Hin|Hin].
    + rewrite (decide_True (P := Exists _ (f :: flows)))
        by by apply Exists_cons_hd.
      rewrite IH by by right. by case_decide.
    + rewrite IH by done.
      case_decide as Hex; case_decide as Hex'; try done.
      * exfalso. apply Hex'. by apply Exists_cons_tl.
      * apply Exists_cons in Hex' as [?|?]; done.
Qed.

(** X13: the response for an incomplete attempt names the session, repeats
    the flows as given, and carries the public recaptcha key exactly
    when the recaptcha stage occurs in some flow; no other stage has
    parameters. *)
Theorem advertised_flows_and_params
    (hs : HomeServer) (flows : list (list string)) (sess : session) :
  let r := _auth_dict_for_flows hs flows sess in
  resp_session r = id sess ∧ resp_flows r = flows ∧ resp_completed r = None ∧
  resp_params r =
    if decide (Exists (fun f => LoginType_RECAPTCHA hs ∈ f) flows)
    then {[ LoginType_RECAPTCHA hs :=
              VDict {[ "public_key" := recaptcha_public_key hs ]} ]}
    else ∅.
Proof.
  intros r. subst r. unfold _auth_dict_for_flows.
  cbn [resp_session resp_flows resp_completed resp_params].
  split_and!; try done.
  rewrite (advertise_flows hs flows ∅) by by left. done.
Qed.

(** ** More about out-of-band results *)

(** A truthy result added out of band for a session of the table. *)
Lemma add_oob_auth_truthy_run (hs : HomeServer) (stagetype : string) (a : dict)
    (clientip : string) (h : AuthHandler) (check : checker) (S : string)
    (s0 : session) (result : value) :
  table_ok h →
  checkers hs !! stagetype = Some check →
  a !! "session" = Some (VStr S) → S ≠ "" → sessions h !! S = Some s0 →
  check (VDict a) clientip = Ok result → truthy result = true →
  ∃ h' s1,
    add_oob_auth hs stagetype (VDict a) clientip h = (Ok true, h') ∧
    table_ok h' ∧ sessions h' !! S = Some s1 ∧
    creds s1 = Some (<[stagetype := result]> (session_creds s0)).
Proof.
  intros Hok Hck Ha HS Hs0 Hres Htr.
  assert (Hlive : live h s0).
  { split; [done|]. by rewrite (Hok _ _ Hs0). }
  assert (HidS : id s0 = S) by by apply Hok.
  destruct (ensure_creds_run s0 h Hlive) as (s2 & h2 & Hens & Hlive2 & Hc2 & Hs2).
  destruct (record_credential_run stagetype result s2 h2 (proj1 Hlive2))
    as (h3 & Hrec & [Hok3 Hin3] & _).
  exists h3. eexists. split_and!; [| exact Hok3 | |].
  - unfold add_oob_auth, bind, lift, find_checker, py_contains, py_getitem.
    rewrite Hck, Ha. rewrite bool_decide_eq_true_2 by eauto.
    cbn [negb]. rewrite (get_session_info_known S h s0 HS Hs0), Hens, Hres, Htr.
    by rewrite Hrec.
  - simpl in Hin3. rewrite <- HidS.
    assert (id s2 = id s0) as <- by by subst s2.
    exact Hin3.
  - simpl. by subst s2.
Qed.

(** X14: the session id given to [add_oob_auth] is not checked for
    existence: when it names no session of the table, a truthy result
    is recorded all the same, in a new session under a random id. *)
Theorem add_oob_auth_unknown_session_gets_new_session
    (hs : HomeServer) (stagetype : string) (a : dict) (clientip : string)
    (h h' : AuthHandler) (check : checker) (sid result : value) (b : bool) :
  checkers hs !! stagetype = Some check →
  a !! "session" = Some sid →
  (∀ k, sid = VStr k → sessions h !! k = None) →
  check (VDict a) clientip = Ok result → truthy result = true →
  add_oob_auth hs stagetype (VDict a) clientip h = (Ok b, h') →
  b = true ∧
  ∃ new s1,
    new ∈ random_strings h ∧ sessions h !! new = None ∧
    sessions h' !! new = Some s1 ∧
    creds s1 = Some {[ stagetype := result ]} ∧
    last_used s1 = Some (clock h).
Proof.
  intros Hck Ha Hunknown Hres Htr.
  unfold add_oob_auth, bind, lift, find_checker, py_contains, py_getitem.
  rewrite Hck, Ha. rewrite bool_decide_eq_true_2 by eauto. cbn [negb].
  destruct (_get_session_info sid h) as [[s| |] h0] eqn:Hget; try done.
  pose proof (get_session_info_frame _ _ _ _ Hget) as [Hclock _].
  apply get_session_info_ok in Hget as [(k & -> & _ & Hk & _)|(Hs & Hfree & Htbl & _ & Hin)].
  { by rewrite (Hunknown k eq_refl) in Hk. }
  unfold ensure_creds. rewrite Hs. simpl. rewrite Hres, Htr.
  unfold record_credential, bind. simpl. intros [= <- <-].
  split; [done|]. exists (id s). eexists. split_and!; [done | done | | |].
  - simpl. apply (prune_after_touch _ _ _ (set_creds _ (set_creds ∅ (new_session (id s))))).
  - simpl. unfold session_creds. simpl. by rewrite insert_empty.
  - simpl. by rewrite Hclock.
Qed.

(** X15: what [add_oob_auth] adds counts at the next [check_auth]: after a
    truthy out-of-band result for a stage, a flow whose other stages
    the session already had is complete, and a [check_auth] call that
    names the session and presents no stage returns and reports
    completion. *)
Theorem oob_result_completes_next_check_auth
    (hs : HomeServer) (flows : list (list string)) (f : list string)
    (stagetype : string) (a : dict) (clientip : string) (h : AuthHandler)
    (check : checker) (S : string) (s0 : session) (result : value) :
  table_ok h →
  checkers hs !! stagetype = Some check →
  a !! "session" = Some (VStr S) → S ≠ "" → sessions h !! S = Some s0 →
  check (VDict a) clientip = Ok result → truthy result = true →
  f ∈ flows →
  (∀ stage, stage ∈ f → stage = stagetype ∨ is_Some (session_creds s0 !! stage)) →
  let h1 := (add_oob_auth hs stagetype (VDict a) clientip h).2 in
  ∀ (params2 a2 : dict) (clientip2 : string),
    params2 !! "auth" = Some (VDict a2) →
    a2 !! "session" = Some (VStr S) → a2 !! "type" = None →
    ∃ r h2, check_auth hs flows params2 clientip2 h1 = (Ok r, h2) ∧
            authed r = true ∧ result_session_id r = S.
Proof.
  intros Hok Hck Ha HS Hs0 Hres Htr Hf Hcover h1 params2 a2 clientip2 Ha2 Hsid2 Hty2.
  destruct (add_oob_auth_truthy_run hs stagetype a clientip h check S s0 result
              Hok Hck Ha HS Hs0 Hres Htr) as (h' & s1 & Hrun & Hok1 & Hin1 & Hcr1).
  subst h1. rewrite Hrun. simpl.
  assert (Hne : a2 ≠ ∅) by (intros ->; by rewrite lookup_empty in Hsid2).
  assert (Hget : _get_session_info (default VNone (a2 !! "session")) h' = (Ok s1, h')).
  { rewrite Hsid2. simpl. by apply get_session_info_known. }
  destruct (check_auth_dict_run hs flows params2 a2 clientip2 h' h' s1
              Hok1 Ha2 Hne Hget)
    as (s2 & p & h2 & Hlive2 & _ & Hid2 & Hcr2 & _ & _ & _ & Heq).
  rewrite Heq. unfold bind. rewrite (present_stage_no_type _ _ _ _ _ Hty2).
  eexists _, _. split; [reflexivity|].
  assert (Hdone : some_flow_done (session_creds s2) flows = true).
  { apply some_flow_done_iff. exists f. split; [done|].
    intros stage Hst. unfold session_creds at 1. rewrite Hcr2. simpl.
    unfold session_creds at 1. rewrite Hcr1. simpl.
    destruct (Hcover stage Hst) as [->|[v Hv]].
    - rewrite lookup_insert_eq. by eexists.
    - destruct (decide (stagetype = stage)) as [->|Hne'].
      + rewrite lookup_insert_eq. by eexists.
      + rewrite lookup_insert_ne by done. by eexists. }
  unfold conclude. rewrite Hdone. simpl. split; [done|].
  rewrite Hid2. by apply Hok1.
Qed.

(** ** The table invariant for the data accessors *)

Lemma setdefault_serverdict_table_ok (sess : session) (h : AuthHandler) :
  table_ok h → table_ok (setdefault_serverdict sess h).2.
Proof.
  intros Hok. unfold setdefault_serverdict.
  destruct (serverdict sess); [done|].
  unfold bind. simpl. by apply (write_session_table_ok (set_serverdict ∅ sess)).
Qed.

(** X16: every operation of the handler on the table keeps each session
    stored under its own id, however the operation ends. *)
Theorem handler_keeps_sessions_under_their_ids
    (hs : HomeServer) (flows : list (list string)) (params : dict)
    (stagetype : string) (authdict session_id v dflt : value)
    (key clientip : string) (h : AuthHandler) :
  table_ok h →
  table_ok (check_auth hs flows params clientip h).2 ∧
  table_ok (add_oob_auth hs stagetype authdict clientip h).2 ∧
  table_ok (set_session_data session_id key v h).2 ∧
  table_ok (get_session_data session_id key dflt h).2.
Proof.
  intros Hok. split_and!.
  - by apply check_auth_keeps_table_ok.
  - by apply add_oob_auth_keeps_table_ok.
  - unfold set_session_data. unfold bind at 1.
    pose proof (get_session_info_keeps_table_ok session_id h Hok) as Hok0.
    destruct (_get_session_info session_id h) as [[sess| |] h0]; try done.
    simpl in Hok0. unfold bind at 1.
    pose proof (setdefault_serverdict_table_ok sess h0 Hok0) as Hok1.
    destruct (setdefault_serverdict sess h0) as [[[sess1 d]| |] h1]; try done.
    simpl in Hok1.
    exact (save_session_table_ok (set_serverdict (<[key:=v]> d) sess1)
             (write_session (set_serverdict (<[key:=v]> d) sess1) h1).2
             (write_session_table_ok (set_serverdict (<[key:=v]> d) sess1) h1 Hok1)).
  - unfold get_session_data. unfold bind at 1.
    pose proof (get_session_info_keeps_table_ok session_id h Hok) as Hok0.
    destruct (_get_session_info session_id h) as [[sess| |] h0]; try done.
    simpl in Hok0. unfold bind.
    pose proof (setdefault_serverdict_table_ok sess h0 Hok0) as Hok1.
    by destruct (setdefault_serverdict sess h0) as [[[sess1 d]| |] h1].
Qed.

(* ===================================================================== *)
(** * The built-in checkers *)
(* ===================================================================== *)

(** X17: the recaptcha checker never answers anything but true, and only
    on the word of the verification service: when it returns, the auth
    dict had a "response", and the service's body (parsed from a
    partial download if need be) is a dict whose "success" entry is
    truthy. *)
Theorem recaptcha_returns_true_or_raises
    (sv : Services) (authdict : value) (clientip : string) (r : value) :
  _check_recaptcha sv authdict clientip = Ok r →
  r = VBool true ∧
  ∃ (user_response : value) (body : dict) (success : value),
    py_getitem authdict "response" = Ok user_response ∧
    body !! "success" = Some success ∧ truthy success = true ∧
    match post_urlencoded_get_json sv (recaptcha_siteverify_api sv)
            {[ "secret" := recaptcha_private_key sv;
               "response" := user_response;
               "remoteip" := VStr clientip ]} with
    | HttpBody b => b = VDict body
    | HttpPartialDownload data => simplejson_loads sv data = Ok (VDict body)
    | HttpError _ => False
    end.
Proof.
  unfold _check_recaptcha.
  destruct (py_getitem authdict "response") as [user_response|e|] eqn:Hresp;
    simpl; [| by destruct (is_KeyError e) | done].
  assert (Hbody : ∀ resp_body : value,
    (let? has_success := py_contains "success" resp_body in
     if (has_success : bool) then
       let? success := py_getitem resp_body "success" in
       if truthy success then Ok (VBool true)
       else Raise (LoginError 401 "" UNAUTHORIZED)
     else Raise (LoginError 401 "" UNAUTHORIZED)) = Ok r →
    r = VBool true ∧ ∃ (body : dict) (success : value),
      resp_body = VDict body ∧ body !! "success" = Some success ∧
      truthy success = true).
  { intros resp_body.
    destruct resp_body as [|b|n|s|l|body]; simpl; try done.
    - by case_bool_decide.
    - by destruct (existsb _ _).
    - case_bool_decide as Hin; simpl; [|done].
      destruct (body !! "success") as [success|] eqn:Hs; simpl; [|done].
      destruct (truthy success) eqn:Htr; [|done].
      intros [= <-]. split; [done|]. by exists body, success. }
  destruct (post_urlencoded_get_json sv _ _) as [b|data|e] eqn:Hreply; simpl.
  - intros Hr. apply Hbody in Hr as (-> & body & success & -> & Hs & Htr).
    split; [done|]. exists user_response, body, success.
    by rewrite Hreply.
  - destruct (simplejson_loads sv data) as [b| |] eqn:Hloads; simpl; try done.
    intros Hr. apply Hbody in Hr as (-> & body & success & -> & Hs & Htr).
    split; [done|]. exists user_response, body, success.
    by rewrite Hreply.
  - done.
Qed.

(** X18: the email-identity checker needs "threepid_creds" (400
    M_MISSING_PARAM); when it returns, the identity handler has given a
    non-empty dict, and the result is that dict with the presented
    "threepid_creds" added, so the result is truthy. *)
Theorem email_identity_result
    (sv : Services) (a : dict) (clientip : string) :
  (a !! "threepid_creds" = None →
   _check_email_identity sv (VDict a) clientip =
     Raise (LoginError 400 "Missing threepid_creds" MISSING_PARAM)) ∧
  (∀ r, _check_email_identity sv (VDict a) clientip = Ok r →
     ∃ (creds0 : value) (threepid : dict),
       a !! "threepid_creds" = Some creds0 ∧
       threepid_from_creds sv creds0 = Ok (VDict threepid) ∧ threepid ≠ ∅ ∧
       r = VDict (<[ "threepid_creds" := creds0 ]> threepid) ∧
       truthy r = true).
Proof.
  unfold _check_email_identity, py_contains, py_getitem. split.
  - intros Ha. rewrite Ha. unfold obind.
    rewrite bool_decide_eq_false_2; [done|]. by intros [? ?].
  - intros r. destruct (a !! "threepid_creds") as [creds0|] eqn:Ha.
    2: { unfold obind. rewrite bool_decide_eq_false_2; [done|]. by intros [? ?]. }
    unfold obind at 1. rewrite bool_decide_eq_true_2 by eauto.
    cbn [negb obind].
    destruct (threepid_from_creds sv creds0) as [threepid| |] eqn:Hid; try done.
    cbn [obind].
    destruct (truthy threepid) eqn:Htr; cbn [negb]; [|done].
    destruct threepid as [|b|n|s|l|threepid]; try done.
    cbn [py_setitem]. intros [= <-]. exists creds0, threepid.
    split_and!; try done.
    + by apply truthy_dict_nonempty.
    + apply truthy_dict_nonempty. intros Hempty.
      apply (f_equal (fun m : dict => m !! "threepid_creds")) in Hempty.
      by rewrite lookup_insert_eq, lookup_empty in Hempty.
Qed.

(* ===================================================================== *)
(** * Accounts and password hashes *)
(* ===================================================================== *)

(** X19: [check_user_exists] turns the failures of the lookup into [None]:
    it answers with the canonical id of the single match, or with the
    id itself when it is among several matches, and with [None] for no
    match or several inexact ones.  An exception of the account store
    (other than a LoginError) is passed on. *)
Theorem check_user_exists_cases
    (hs : HomeServer) (user_id : string) :
  match get_users_by_id_case_insensitive hs user_id with
  | Ok infos =>
      (infos = ∅ → check_user_exists hs user_id = Ok None) ∧
      (∀ canonical stored, infos = {[ canonical := stored ]} →
         check_user_exists hs user_id = Ok (Some canonical)) ∧
      ((1 < size infos)%nat →
         check_user_exists hs user_id =
           Ok (if decide (is_Some (infos !! user_id)) then Some user_id else None))
  | Raise e =>
      check_user_exists hs user_id = if is_LoginError e then Ok None else Raise e
  | Diverge => check_user_exists hs user_id = Diverge
  end.
Proof.
  unfold check_user_exists.
  destruct (get_users_by_id_case_insensitive hs user_id) as [infos|e|] eqn:Hst.
  - split_and!.
    + intros ->. by rewrite (find_user_none _ _ Hst).
    + intros canonical stored ->. by rewrite (find_user_single _ _ _ _ Hst).
    + intros Hsz. rewrite (find_user_several _ _ _ Hst Hsz).
      destruct (infos !! user_id) as [stored|]; case_decide as Hd; try done;
        first [ exfalso; apply Hd; by eexists | by destruct Hd ].
  - unfold _find_user_id_and_pwd_hash. by rewrite Hst.
  - unfold _find_user_id_and_pwd_hash. by rewrite Hst.
Qed.

(** X20: [hash] then [validate_hash]: with a hashing function that, like
    bcrypt, reproduces a hash when the hash is given as the salt (and
    never gives the empty string), the hash of a password validates for
    that password. *)
Theorem hash_then_validate_hash
    (hs : HomeServer) (salt password stored : string) :
  (∀ p s c, hashpw hs p s = Ok c → hashpw hs p c = Ok c ∧ c ≠ "") →
  hash hs salt password = Ok stored →
  validate_hash hs password (Some stored) = Ok true.
Proof.
  intros Hlaw Hhash. unfold hash in Hhash.
  destruct (Hlaw _ _ _ Hhash) as [Hre Hne].
  rewrite validate_hash_unfold. rewrite decide_False by done.
  rewrite Hre. by rewrite bool_decide_eq_true_2.
Qed.

(* ===================================================================== *)
(** * More about tokens *)
(* ===================================================================== *)

(** X21: the caveats of a macaroon tell what it was issued for: macaroons of
    two different kinds never have the same caveats, and two macaroons
    of one kind with the same caveats are for the same user (and have
    the same expiry, nonce and extra caveats). *)
Theorem token_caveats_identify_kind_and_user
    (hs : HomeServer) (now now' : Z) (nonce nonce' user_id user_id' : string)
    (extra extra' : option (list string)) (d d' : option Z) :
  let access := caveats (access_macaroon hs now user_id extra d) in
  let refresh := caveats (refresh_macaroon hs nonce user_id) in
  let login := caveats (login_macaroon hs now user_id d) in
  let delete_pusher := caveats (delete_pusher_macaroon hs user_id) in
  access ≠ caveats (refresh_macaroon hs nonce' user_id') ∧
  access ≠ caveats (login_macaroon hs now' user_id' d') ∧
  access ≠ caveats (delete_pusher_macaroon hs user_id') ∧
  refresh ≠ caveats (login_macaroon hs now' user_id' d') ∧
  refresh ≠ caveats (delete_pusher_macaroon hs user_id') ∧
  login ≠ caveats (delete_pusher_macaroon hs user_id') ∧
  (access = caveats (access_macaroon hs now' user_id' extra' d') →
     user_id = user_id' ∧
     now + default 3600000 d = now' + default 3600000 d' ∧
     default [] extra = default [] extra') ∧
  (refresh = caveats (refresh_macaroon hs nonce' user_id') →
     user_id = user_id' ∧ nonce = nonce') ∧
  (login = caveats (login_macaroon hs now' user_id' d') →
     user_id = user_id' ∧ now + default 120000 d = now' + default 120000 d') ∧
  (delete_pusher = caveats (delete_pusher_macaroon hs user_id') →
     user_id = user_id').
Proof.
  intros access refresh login delete_pusher.
  subst access refresh login delete_pusher.
  unfold access_macaroon. rewrite !caveats_add_all.
  cbn [caveats refresh_macaroon login_macaroon delete_pusher_macaroon
       _generate_base_macaroon add_first_party_caveat app].
  split_and!; intros H; by simplify_list_eq.
Qed.

(* ===================================================================== *)
(** * Password checking against the directory *)
(* ===================================================================== *)

Lemma try_except_never_caught {A} (body handler : outcome A) (caught : exn → bool)
    (e : exn) :
  (∀ e', handler = Raise e' → caught e' = false) →
  try_except body caught handler = Raise e → caught e = false.
Proof.
  intros Hh. unfold try_except.
  destruct body as [a|e0|]; try done.
  destruct (caught e0) eqn:Hc; [by apply Hh|]. by intros [= <-].
Qed.

Lemma check_local_password_any_str (hs : HomeServer) (user_id p : string) :
  _check_local_password_any hs user_id (VStr p) = _check_local_password hs user_id p.
Proof. done. Qed.

(** X22: directory failures are not errors: [_check_ldap_password] never
    raises an LDAPException; with the ldap3 library missing or LDAP
    switched off it answers false and [_check_password] is the local
    check; and when the directory cannot even be reached (the first
    call raises an LDAPException) the answer is false as well, so the
    local check decides. *)
Theorem directory_failure_is_a_negative_answer
    (hs : HomeServer) (d : Directory) (user_id : string) (password : value) :
  (∀ e, _check_ldap_password hs d user_id password = Raise e →
        is_LDAPException e = false) ∧
  (ldap3_imported d = false ∨ ldap_enabled d = false →
     _check_ldap_password hs d user_id password = Ok false ∧
     _check_password hs d user_id password =
       _check_local_password_any hs user_id password) ∧
  (ldap3_imported d = true → ldap_enabled d = true →
   ldap_mode d ∈ LDAPMode_LIST d →
   ldap3_call d [LdapServer (ldap_uri d)] = Raise LDAPException →
     _check_ldap_password hs d user_id password = Ok false ∧
     _check_password hs d user_id password =
       _check_local_password_any hs user_id password).
Proof.
  split_and!.
  - intros e. unfold _check_ldap_password.
    destruct (negb (ldap3_imported d) || negb (ldap_enabled d)); [done|].
    destruct (negb (bool_decide (ldap_mode d ∈ LDAPMode_LIST d))).
    + by intros [= <-].
    + by apply try_except_never_caught.
  - intros Hoff.
    assert (Hl : _check_ldap_password hs d user_id password = Ok false).
    { unfold _check_ldap_password. by destruct Hoff as [-> | ->]; [|rewrite orb_true_r]. }
    split; [done|]. unfold _check_password. by rewrite Hl.
  - intros Himp Hen Hmode Hfail.
    assert (Hl : _check_ldap_password hs d user_id password = Ok false).
    { unfold _check_ldap_password. rewrite Himp, Hen. simpl.
      rewrite bool_decide_eq_true_2 by done. simpl.
      unfold ldap_do. simpl. by rewrite Hfail. }
    split; [done|]. unfold _check_password. by rewrite Hl.
Qed.

Lemma ldap_do_returns (d : Directory) (made : list ldap_call) (call : ldap_call) :
  (∀ made', ∃ v, ldap3_call d made' = Ok v) →
  ∃ v, ldap_do d made call = Ok (v, (made ++ [call])%list).
Proof.
  intros Hret. unfold ldap_do. destruct (Hret (made ++ [call])%list) as [v ->].
  by exists v.
Qed.

Lemma ldap_connect_and_bind_returns (d : Directory) (made : list ldap_call)
    (user password : value) :
  (∀ made', ∃ v, ldap3_call d made' = Ok v) →
  ∃ made', ldap_connect_and_bind d made user password = Ok made'.
Proof.
  intros Hret. unfold ldap_connect_and_bind.
  destruct (ldap_do_returns d made (LdapConnection user password false) Hret)
    as [v1 ->]. simpl.
  destruct (ldap_start_tls d).
  - destruct (ldap_do_returns d (made ++ [LdapConnection user password false])
                LdapStartTls Hret) as [v2 ->]. simpl.
    destruct (ldap_do_returns d
                ((made ++ [LdapConnection user password false]) ++ [LdapStartTls])
                LdapBind Hret) as [v3 ->]. simpl. by eexists.
  - simpl.
    destruct (ldap_do_returns d (made ++ [LdapConnection user password false])
                LdapBind Hret) as [v3 ->]. simpl. by eexists.
Qed.

(** X23: in simple mode nothing looks at what [bind()] returns: when no call
    on the directory raises and the account exists, the directory check
    answers true, whatever the directory returned to the calls, and
    [_check_password] returns the user id as given without consulting
    the stored hash. *)
Theorem simple_mode_accepts_when_no_call_raises
    (hs : HomeServer) (d : Directory) (user_id localpart uid canonical : string)
    (password : value) :
  ldap3_imported d = true → ldap_enabled d = true →
  ldap_mode d ∈ LDAPMode_LIST d → ldap_mode d = LDAPMode_SIMPLE d →
  UserID_from_string_localpart d user_id = Ok localpart →
  ldap_attributes d !! "uid" = Some uid →
  (∀ made, ∃ v, ldap3_call d made = Ok v) →
  check_user_exists hs user_id = Ok (Some canonical) → canonical ≠ "" →
  _check_ldap_password hs d user_id password = Ok true ∧
  _check_password hs d user_id password = Ok user_id.
Proof.
  intros Himp Hen Hmode Hsimple Hlocal Huid Hret Hexists Hne.
  assert (Hl : _check_ldap_password hs d user_id password = Ok true).
  { unfold _check_ldap_password. rewrite Himp, Hen. simpl.
    rewrite bool_decide_eq_true_2 by done. simpl.
    destruct (ldap_do_returns d [] (LdapServer (ldap_uri d)) Hret) as [v0 ->].
    simpl. rewrite Hlocal. simpl.
    rewrite Hsimple, String.eqb_refl. unfold ldap_attribute. rewrite Huid. simpl.
    destruct (ldap_connect_and_bind_returns d [LdapServer (ldap_uri d)]
                (VStr (uid +:+ "=" +:+ localpart +:+ "," +:+ ldap_base d))
                password Hret) as [made ->].
    simpl. rewrite Hexists. simpl.
    apply String.eqb_neq in Hne. rewrite Hne. done. }
  split; [done|]. unfold _check_password. by rewrite Hl.
Qed.

(** X24: in search mode the user must be found exactly once: when no call on
    the directory raises and its searches yield a list of no entry or
    of several, the directory check answers false, and the local check
    decides. *)
Theorem search_mode_needs_exactly_one_entry
    (hs : HomeServer) (d : Directory) (user_id localpart uid : string)
    (password : value) :
  ldap3_imported d = true → ldap_enabled d = true →
  ldap_mode d ∈ LDAPMode_LIST d →
  ldap_mode d = LDAPMode_SEARCH d → LDAPMode_SEARCH d ≠ LDAPMode_SIMPLE d →
  UserID_from_string_localpart d user_id = Ok localpart →
  ldap_attributes d !! "uid" = Some uid →
  (∀ made, ∃ v, ldap3_call d made = Ok v) →
  (∀ made, ∃ entries, ldap3_response d made = VList entries ∧ length entries ≠ 1%nat) →
  _check_ldap_password hs d user_id password = Ok false ∧
  _check_password hs d user_id password =
    _check_local_password_any hs user_id password.
Proof.
  intros Himp Hen Hmode Hsearch Hdiff Hlocal Huid Hret Hresp.
  assert (Hl : _check_ldap_password hs d user_id password = Ok false).
  { unfold _check_ldap_password. rewrite Himp, Hen. simpl.
    rewrite bool_decide_eq_true_2 by done. simpl.
    destruct (ldap_do_returns d [] (LdapServer (ldap_uri d)) Hret) as [v0 ->].
    simpl. rewrite Hlocal. simpl.
    rewrite Hsearch. apply String.eqb_neq in Hdiff. rewrite Hdiff.
    rewrite String.eqb_refl.
    destruct (ldap_connect_and_bind_returns d [LdapServer (ldap_uri d)]
                (ldap_bind_dn d) (ldap_bind_password d) Hret) as [made ->].
    simpl. unfold ldap_attribute. rewrite Huid. simpl.
    match goal with |- context [LdapSearch _ ?q None] => set (query := q) end.
    destruct (ldap_do_returns d made (LdapSearch (ldap_base d) query None) Hret)
      as [result ->].
    simpl.
    destruct (Hresp (made ++ [LdapSearch (ldap_base d) query None])%list)
      as (entries & -> & Hlen).
    simpl. apply Nat.eqb_neq in Hlen.
    destruct (truthy result); simpl; by rewrite ?Hlen. }
  split; [done|]. unfold _check_password. by rewrite Hl.
Qed.

(** X25: creating the account of a user the directory accepted: when the
    account does not exist yet and the search for the user's name and
    mail does not yield exactly one entry, the argument [len(result)] of
    the warning is evaluated, and with a search that answers with a
    boolean this raises a TypeError, which is not caught:
    [_check_password] raises it instead of turning to the local
    check. *)
Theorem provisioning_without_single_entry_raises
    (hs : HomeServer) (d : Directory)
    (user_id localpart uid name mail : string) (password : value) :
  ldap3_imported d = true → ldap_enabled d = true →
  ldap_mode d ∈ LDAPMode_LIST d → ldap_mode d = LDAPMode_SIMPLE d →
  UserID_from_string_localpart d user_id = Ok localpart →
  ldap_attributes d !! "uid" = Some uid →
  ldap_attributes d !! "name" = Some name →
  ldap_attributes d !! "mail" = Some mail →
  (∀ made, ∃ b, ldap3_call d made = Ok (VBool b)) →
  (∀ made, ∃ entries, ldap3_response d made = VList entries ∧ length entries ≠ 1%nat) →
  check_user_exists hs user_id = Ok None →
  _check_ldap_password hs d user_id password = Raise TypeError ∧
  _check_password hs d user_id password = Raise TypeError.
Proof.
  intros Himp Hen Hmode Hsimple Hlocal Huid Hname Hmail Hbool Hresp Hexists.
  assert (Hret : ∀ made, ∃ v, ldap3_call d made = Ok v).
  { intros made. destruct (Hbool made) as [b ->]. by eexists. }
  assert (Hl : _check_ldap_password hs d user_id password = Raise TypeError).
  { unfold _check_ldap_password. rewrite Himp, Hen. simpl.
    rewrite bool_decide_eq_true_2 by done. simpl.
    destruct (ldap_do_returns d [] (LdapServer (ldap_uri d)) Hret) as [v0 ->].
    simpl. rewrite Hlocal. simpl.
    rewrite Hsimple, String.eqb_refl. unfold ldap_attribute. rewrite Huid. simpl.
    destruct (ldap_connect_and_bind_returns d [LdapServer (ldap_uri d)]
                (VStr (uid +:+ "=" +:+ localpart +:+ "," +:+ ldap_base d))
                password Hret) as [made ->].
    simpl. rewrite Hexists. simpl. rewrite Hname, Hmail. simpl.
    match goal with |- context [LdapSearch _ ?q (Some _)] => set (query := q) end.
    unfold ldap_do.
    destruct (Hbool (made ++ [LdapSearch (ldap_base d) query (Some [name; mail])])%list)
      as [b ->].
    simpl.
    destruct (Hresp (made ++ [LdapSearch (ldap_base d) query (Some [name; mail])])%list)
      as (entries & -> & Hlen).
    simpl. apply Nat.eqb_neq in Hlen. by rewrite Hlen. }
  split; [done|]. unfold _check_password. by rewrite Hl.
Qed.

(** ** The password checker *)

(** X26: the password checker needs "user" and "password" (400
    M_MISSING_PARAM otherwise); a user name that does not start with
    "@" is made a full id with the server's host name before it is
    checked, and an id that does is checked as it is. *)
Theorem password_checker_params_and_qualification
    (hs : HomeServer) (d : Directory) (a : dict) (clientip : string) :
  (a !! "user" = None ∨ a !! "password" = None →
     _check_password_auth hs d (VDict a) clientip = Raise missing_param) ∧
  (∀ user password,
     a !! "user" = Some (VStr user) → a !! "password" = Some password →
     _check_password_auth hs d (VDict a) clientip =
       let user_id :=
         if String.prefix "@" user then user
         else UserID_create_to_string d user (hostname d) in
       match _check_password hs d user_id password with
       | Ok canonical => Ok (VStr canonical)
       | Raise e => Raise e
       | Diverge => Diverge
       end).
Proof.
  unfold _check_password_auth, py_contains, py_getitem. split.
  - intros Hmissing. unfold obind.
    destruct (a !! "user") as [u|] eqn:Hu.
    + destruct Hmissing as [?|Hp]; [done|]. rewrite Hp.
      rewrite bool_decide_eq_true_2 by eauto. cbn [negb].
      rewrite bool_decide_eq_false_2; [done|]. by intros [? ?].
    + rewrite bool_decide_eq_false_2; [done|]. by intros [? ?].
  - intros user password Hu Hp. rewrite Hu, Hp. unfold obind at 1 2.
    rewrite !bool_decide_eq_true_2 by eauto. cbn [negb obind].
    destruct (String.prefix "@" user); cbn [negb];
      by destruct (_check_password hs d _ password).
Qed.

(** ** Tokens and passwords in the account store *)

(** X27: a login stores the access token, then the refresh token, then
    makes sure the device is registered when a device id is given; the
    tokens returned are the tokens stored.  Nothing is undone: when
    storing the refresh token fails, the access token has been stored
    and stays. *)
Theorem login_tuple_stores_what_it_returns
    (hs : HomeServer) (h : AuthHandler) (nonce : string) (store : store_oracle)
    (user_id : string) (device_id initial_display_name : option string)
    (log : list store_op) :
  let run := get_login_tuple_for_user_id hs h nonce store user_id device_id
               initial_display_name log in
  let access := generate_access_token hs h user_id None None in
  let refresh := generate_refresh_token hs nonce user_id in
  let stored := [add_access_token_to_user user_id access device_id;
                 add_refresh_token_to_user user_id refresh device_id] in
  (∀ tokens, run.1 = Returned tokens →
     tokens = (access, refresh) ∧
     run.2 = (log ++ stored ++
              match device_id with
              | Some device =>
                  [check_device_registered user_id device initial_display_name]
              | None => []
              end)%list) ∧
  (∀ e, store (log ++ [add_access_token_to_user user_id access device_id])%list = None →
        store (log ++ stored)%list = Some e →
        run = (Raised e, (log ++ stored)%list)).
Proof.
  intros run access refresh stored. subst run stored.
  unfold get_login_tuple_for_user_id, issue_access_token, issue_refresh_token,
    sbind, sret, perform.
  fold access refresh. rewrite <- ?app_assoc. cbn [app].
  split.
  - intros tokens. cbn.
    destruct (store (log ++ [_])%list) eqn:H1; cbn; [discriminate|].
    rewrite <- ?app_assoc. cbn [app].
    destruct (store (log ++ [_; _])%list) eqn:H2; cbn; [discriminate|].
    destruct device_id as [device|]; cbn.
    + rewrite <- ?app_assoc. cbn [app].
      destruct (store (log ++ [_; _; _])%list); cbn; [discriminate|].
      intros ?. by simplify_eq/=.
    + intros ?. by simplify_eq/=.
  - intros e H1 H2. cbn. rewrite H1. cbn. rewrite <- ?app_assoc. cbn [app].
    rewrite H2. reflexivity.
Qed.

(** X28: [set_password] revokes only after the new hash is stored: when the
    store refuses the hash, no token is deleted and no pusher removed,
    and the refusal comes out as it is, except that a StoreError with
    code 404 becomes the SynapseError 404 "Unknown user" M_NOT_FOUND.
    When the call returns, it has stored the hash, then deleted the
    user's access tokens and removed the user's pushers, in both cases
    sparing the requester's token when there is a requester and none
    otherwise. *)
Theorem set_password_revokes_after_storing
    (hs : HomeServer) (salt : string) (store : store_oracle)
    (user_id newpassword : string) (requester : option Requester)
    (log : list store_op) (password_hash : string) :
  hash hs salt newpassword = Ok password_hash →
  let run := set_password hs salt store user_id newpassword requester log in
  let spared := match requester with
                | Some requester => [access_token_id requester]
                | None => []
                end in
  let set := (log ++ [user_set_password_hash user_id password_hash])%list in
  (∀ msg, store set = Some (StoreError 404 msg) →
     run = (Raised (SynapseError 404 "Unknown user" NOT_FOUND), set)) ∧
  (∀ e, store set = Some e → (∀ msg, e ≠ StoreError 404 msg) →
     run = (Raised e, set)) ∧
  (run.1 = Returned () →
     run.2 = (set ++ [user_delete_access_tokens user_id spared;
                      remove_pushers_by_user user_id spared])%list).
Proof.
  intros Hhash run spared set. subst run.
  unfold set_password, sbind, unknown_user_on_404, pure_step, perform.
  rewrite Hhash. fold spared. cbn. fold set.
  split_and!.
  - intros msg ->. reflexivity.
  - intros e -> Hne. destruct e as [code m errcode|code m|e]; try reflexivity.
    destruct (Z.eqb_spec code 404) as [->|]; [by destruct (Hne m)|reflexivity].
  - destruct (store set) as [e|].
    + destruct e as [code m errcode|code m|e]; cbn; try discriminate.
      destruct (Z.eqb code 404); discriminate.
    + cbn. destruct (store (set ++ [_])%list); cbn; [discriminate|].
      rewrite <- ?app_assoc. cbn [app]. by destruct (store (set ++ [_; _])%list).
Qed.

(** ** A stage that passes *)

(** X29: a stage whose checker returns a truthy result never fails later in
    the call: [check_auth] returns, the session holds the result under
    the stage type (in place of an earlier result for that type) beside
    the credentials it had, and is stamped with the clock; the answer
    names that session and reports these credentials, as the
    credentials of a completed authentication or, for one that goes
    on, as the completed stages: their keys, each once, in some
    order. *)
Theorem passed_stage_is_recorded
    (hs : HomeServer) (flows : list (list string)) (params a : dict)
    (clientip : string) (h h0 : AuthHandler) (t : string) (check : checker)
    (s0 : session) (result : value) :
  table_ok h →
  params !! "auth" = Some (VDict a) →
  a !! "type" = Some (VStr t) → checkers hs !! t = Some check →
  _get_session_info (default VNone (a !! "session")) h = (Ok s0, h0) →
  check (VDict a) clientip = Ok result → truthy result = true →
  let earned := <[t := result]> (session_creds s0) in
  ∃ r h' s1,
    check_auth hs flows params clientip h = (Ok r, h') ∧
    sessions h' !! id s0 = Some s1 ∧
    session_creds s1 = earned ∧ last_used s1 = Some (clock h) ∧
    match r with
    | Authed c _ sid => c = earned ∧ sid = id s0
    | NotAuthed resp _ sid =>
        (∃ completed, resp_completed resp = Some completed ∧
                      completed ≡ₚ elements (dom earned)) ∧
        sid = id s0
    end.
Proof.
  intros Hok Ha Hty Hck Hget Hres Htr earned.
  destruct (check_auth_registered_run hs flows params a clientip h h0 t check s0
              Hok Ha Hty Hck Hget)
    as (s2 & p & h2 & Hlive2 & Hclock2 & Hid2 & Hcr2 & _ & Hrun).
  rewrite Hres, Htr in Hrun.
  destruct (record_credential_run t result s2 h2 (proj1 Hlive2))
    as (h3 & Hrec & [Hok3 Hin3] & _).
  unfold bind at 1 in Hrun. rewrite Hrec in Hrun. unfold ret in Hrun.
  assert (Hsc2 : session_creds s2 = session_creds s0)
    by (unfold session_creds; by rewrite Hcr2).
  rewrite Hsc2 in Hrun, Hin3. fold earned in Hrun, Hin3.
  rewrite Hclock2 in Hrun, Hin3.
  set (s3 := set_last_used (clock h) (set_creds earned s2)) in *.
  assert (Hid3 : id s3 = id s0) by (by rewrite <- Hid2).
  exists (conclude hs flows s3 p), h3, s3.
  split_and!; [exact Hrun | by rewrite <- Hid3 | done | done |].
  unfold conclude. change (session_creds s3) with earned.
  destruct (some_flow_done earned flows); [by rewrite Hid3|].
  split; [|exact Hid3]. by eexists.
Qed.

(** ** The session a request names *)

Lemma present_stage_not_ok (hs : HomeServer) (authdict : value) (clientip : string)
    (sess : session) (h h' : AuthHandler) (o : outcome session) :
  table_ok h →
  present_stage hs authdict clientip sess h = (o, h') →
  (∀ s, o ≠ Ok s) → h' = h.
Proof.
  intros Hok. unfold present_stage, bind, lift.
  destruct (py_contains "type" authdict) as [[|]| |];
    try (intros [= <- <-]; done).
  destruct (py_getitem authdict "type") as [ty| |]; try (intros [= <- <-]; done).
  destruct (find_checker hs ty _) as [[t check]| |]; try (intros [= <- <-]; done).
  destruct (check authdict clientip) as [result| |]; try (intros [= <- <-]; done).
  destruct (truthy result); try (intros [= <- <-]; done).
  destruct (record_credential_run t result sess h Hok) as (h1 & Hrun & _).
  rewrite Hrun. intros [= <- <-] Hno. by destruct (Hno _ eq_refl).
Qed.

(** X30: the session id a client sends back is honoured: [get_session_id]
    reads it from the request, and a [check_auth] call for a request
    that names a session of the table works on that session: however
    the call ends the session is still in the table, and when the call
    returns the answer carries the same id. *)
Theorem named_session_is_continued
    (hs : HomeServer) (flows : list (list string)) (params a : dict)
    (clientip : string) (h : AuthHandler) (S : string) (s0 : session) :
  table_ok h → S ≠ "" → sessions h !! S = Some s0 →
  params !! "auth" = Some (VDict a) → a !! "session" = Some (VStr S) →
  let run := check_auth hs flows params clientip h in
  get_session_id params = Ok (VStr S) ∧
  is_Some (sessions run.2 !! S) ∧
  (∀ r, run.1 = Ok r → result_session_id r = S).
Proof.
  intros Hok HS Hs0 Ha Hsid run.
  assert (Hne : a ≠ ∅) by (intros ->; by rewrite lookup_empty in Hsid).
  assert (Hget : _get_session_info (default VNone (a !! "session")) h = (Ok s0, h)).
  { rewrite Hsid. simpl. by apply get_session_info_known. }
  assert (HidS : id s0 = S) by by apply Hok.
  split.
  { unfold get_session_id, py_contains, py_getitem. rewrite Ha, Hsid.
    by rewrite bool_decide_eq_true_2 by eauto. }
  destruct (check_auth_dict_run hs flows params a clientip h h s0 Hok Ha Hne Hget)
    as (s2 & p & h2 & Hlive2 & _ & Hid2 & _ & _ & _ & _ & Heq).
  subst run. rewrite Heq. unfold bind.
  destruct (present_stage hs (VDict a) clientip s2 h2) as [o h3] eqn:Hstage.
  destruct o as [s3| |].
  - destruct (present_stage_ok _ _ _ _ _ _ _ Hlive2 Hstage)
      as ([_ Hin3] & _ & Hid3 & _).
    assert (HS3 : id s3 = S) by congruence.
    simpl. split; [rewrite <- HS3; by eexists|].
    intros r [= <-]. unfold conclude.
    by destruct (some_flow_done _ _).
  - rewrite (present_stage_not_ok _ _ _ _ _ _ _ (proj1 Hlive2) Hstage) by done.
    simpl. split; [|done]. destruct Hlive2 as [_ Hin2].
    rewrite <- HidS, <- Hid2. by eexists.
  - rewrite (present_stage_not_ok _ _ _ _ _ _ _ (proj1 Hlive2) Hstage) by done.
    simpl. split; [|done]. destruct Hlive2 as [_ Hin2].
    rewrite <- HidS, <- Hid2. by eexists.
Qed.

(** ** Samples of the theorems above *)

(** A prune one minute after the first request of the sample, then one
    an hour later. *)
Lemma prune_later_witness :
  let tbl := sessions Demo.after_first in
  1470000060000 ≤ 1470003600000 ∧
  _prune_sessions 1470003600000 (_prune_sessions 1470000060000 tbl) =
    _prune_sessions 1470003600000 tbl.
Proof.
  intros tbl.
  assert (H : 1470000060000 ≤ 1470003600000) by lia.
  exact (conj H (prune_later_subsumes_earlier _ _ tbl H)).
Defined.

(** A lookup without an id on the handler just started creates the
    session named by the first random string. *)
Lemma get_session_info_creates_witness :
  let run := _get_session_info VNone Sample.start in
  let s := new_session "abcdefghijklmnopqrstuvwx" in
  run = (Ok s, run.2) ∧
  clock run.2 = clock Sample.start ∧
  sessions run.2 = <[id s := s]> (sessions Sample.start).
Proof.
  intros run s.
  assert (H : run = (Ok s, run.2)) by (vm_compute; reflexivity).
  destruct (get_session_info_looks_up_or_creates VNone Sample.start run.2 (Ok s) H)
    as (Hclock & _ & Hcases).
  refine (conj H (conj Hclock _)).
  destruct (Hcases s eq_refl) as [(k & Hk & _)|(_ & _ & _ & Htbl)];
    [discriminate | exact Htbl].
Defined.

(** Asking for the session that was just created. *)
Lemma get_session_info_again_witness :
  let run := _get_session_info VNone Sample.start in
  let s := new_session "abcdefghijklmnopqrstuvwx" in
  table_ok Sample.start ∧
  Forall (fun d => d ≠ "") (random_strings Sample.start) ∧
  run = (Ok s, run.2) ∧
  _get_session_info (VStr "abcdefghijklmnopqrstuvwx") run.2 = (Ok s, run.2).
Proof.
  intros run s.
  assert (H1 : Forall (fun d => d ≠ "") (random_strings Sample.start))
    by (repeat constructor; discriminate).
  assert (H2 : run = (Ok s, run.2)) by (vm_compute; reflexivity).
  refine (conj table_ok_start (conj H1 (conj H2 _))).
  exact (get_session_info_again VNone Sample.start run.2 s table_ok_start H1 H2).
Defined.

(** Server-side data stored in the session of the first request. *)
Lemma session_data_witness :
  let h := Demo.after_first in
  let S := "abcdefghijklmnopqrstuvwx" in
  let s0 := Session S (Some {[ "username" := VStr "bob" ]})
              (Some {[ Sample.DUMMY := VBool true ]}) None (Some 1470000000000) in
  let h1 := (set_session_data (VStr S) "registered_user_id"
               (VStr "@bob:example.org") h).2 in
  table_ok h ∧ S ≠ "" ∧ sessions h !! S = Some s0 ∧
  get_session_data (VStr S) "registered_user_id" VNone h1
    = (Ok (VStr "@bob:example.org"), h1) ∧
  get_session_data (VStr S) "other" (VInt 7) h1 = (Ok (VInt 7), h1).
Proof.
  intros h S s0 h1.
  assert (H0 : table_ok h) by (apply table_ok_decide; vm_compute; reflexivity).
  assert (H1 : S ≠ "") by discriminate.
  assert (H2 : sessions h !! S = Some s0) by (vm_compute; reflexivity).
  refine (conj H0 (conj H1 (conj H2 _))).
  destruct (session_data_round_trip S "registered_user_id" (VStr "@bob:example.org")
              VNone h s0 H0 H1 H2) as (Hsame & _ & _).
  destruct (session_data_round_trip S "registered_user_id" (VStr "@bob:example.org")
              (VInt 7) h s0 H0 H1 H2) as (_ & Hother & _).
  refine (conj Hsame _).
  exact (Hother "other" ltac:(discriminate)).
Defined.

(** Reading data of a session that was never created. *)
Lemma get_session_data_creates_witness :
  let run := get_session_data (VStr "no-such-session") "k" (VInt 7) Sample.start in
  (∀ k, VStr "no-such-session" = VStr k → sessions Sample.start !! k = None) ∧
  run = (Ok (VInt 7), run.2) ∧
  ∃ sid, sid ∈ random_strings Sample.start ∧
         sessions run.2 = <[sid := set_serverdict ∅ (new_session sid)]>
                            (sessions Sample.start).
Proof.
  intros run.
  assert (H1 : ∀ k, VStr "no-such-session" = VStr k → sessions Sample.start !! k = None)
    by (intros k _; reflexivity).
  assert (H2 : run = (Ok (VInt 7), run.2)) by (vm_compute; reflexivity).
  refine (conj H1 (conj H2 _)).
  destruct (get_session_data_creates_session (VStr "no-such-session") "k" (VInt 7)
              (VInt 7) Sample.start run.2 H1 H2) as (_ & sid & _ & Hin & Htbl).
  exists sid. exact (conj Hin Htbl).
Defined.

(** The session of the first request keeps its dummy credential
    through a rejected recaptcha attempt and an out-of-band result. *)
Lemma credentials_kept_witness :
  let h := Demo.after_first in
  let a : dict := {[ "session" := VStr "abcdefghijklmnopqrstuvwx";
                     "type" := VStr Sample.RECAPTCHA ]} in
  table_ok h ∧
  kept_by h (check_auth Sample.hs [[Sample.DUMMY; Sample.RECAPTCHA]]
               {[ "auth" := VDict a ]} Sample.ip h).2 ∧
  kept_by h (add_oob_auth Sample.hs Sample.DUMMY (VDict a) Sample.ip h).2.
Proof.
  intros h a.
  assert (H0 : table_ok h) by (apply table_ok_decide; vm_compute; reflexivity).
  exact (conj H0 (credentials_are_never_dropped Sample.hs
                    [[Sample.DUMMY; Sample.RECAPTCHA]] {[ "auth" := VDict a ]}
                    Sample.DUMMY (VDict a) Sample.ip h H0)).
Defined.

(** After the dummy flow is complete, a rejected-everywhere stage type
    is not even looked at: a later call that names the session and
    presents nothing more is complete again. *)
Lemma completion_is_final_witness :
  let h := Demo.after_first in
  let S := "abcdefghijklmnopqrstuvwx" in
  let a : dict := {[ "session" := VStr S ]} in
  let params : dict := {[ "auth" := VDict a ]} in
  let s0 := Session S (Some {[ "username" := VStr "bob" ]})
              (Some {[ Sample.DUMMY := VBool true ]}) None (Some 1470000000000) in
  let run := check_auth Sample.hs [[Sample.DUMMY]] params Sample.ip h in
  let r := Sample.result_of run in
  table_ok h ∧ S ≠ "" ∧ sessions h !! S = Some s0 ∧
  some_flow_done (session_creds s0) [[Sample.DUMMY]] = true ∧
  params !! "auth" = Some (VDict a) ∧ a !! "session" = Some (VStr S) ∧
  run = (Ok r, run.2) ∧
  authed r = true ∧ result_session_id r = S.
Proof.
  intros h S a params s0 run r.
  assert (H0 : table_ok h) by (apply table_ok_decide; vm_compute; reflexivity).
  assert (H1 : S ≠ "") by discriminate.
  assert (H2 : sessions h !! S = Some s0) by (vm_compute; reflexivity).
  assert (H3 : some_flow_done (session_creds s0) [[Sample.DUMMY]] = true)
    by (vm_compute; reflexivity).
  assert (H4 : params !! "auth" = Some (VDict a)) by (vm_compute; reflexivity).
  assert (H5 : a !! "session" = Some (VStr S)) by (vm_compute; reflexivity).
  assert (H6 : run = (Ok r, run.2)) by (vm_compute; reflexivity).
  refine (conj H0 (conj H1 (conj H2 (conj H3 (conj H4 (conj H5 (conj H6 _))))))).
  exact (completion_is_final Sample.hs [[Sample.DUMMY]] params a Sample.ip h run.2
           S s0 r H0 H1 H2 H3 H4 H5 H6).
Defined.

(** The first request of the sample against no flow at all, and
    against the empty flow. *)
Lemma no_flow_and_empty_flow_witness :
  let run0 := check_auth Sample.hs [] Sample.first_request Sample.ip Sample.start in
  let run1 := check_auth Sample.hs [[]] Sample.first_request Sample.ip Sample.start in
  table_ok Sample.start ∧
  run0 = (Ok (Sample.result_of run0), run0.2) ∧
  run1 = (Ok (Sample.result_of run1), run1.2) ∧
  authed (Sample.result_of run0) = false ∧
  authed (Sample.result_of run1) = true.
Proof.
  intros run0 run1.
  assert (H0 : run0 = (Ok (Sample.result_of run0), run0.2)) by (vm_compute; reflexivity).
  assert (H1 : run1 = (Ok (Sample.result_of run1), run1.2)) by (vm_compute; reflexivity).
  refine (conj table_ok_start (conj H0 (conj H1 _))).
  destruct (no_flow_and_empty_flow Sample.hs [] Sample.first_request Sample.ip
              Sample.start run0.2 _ table_ok_start H0) as [Hnone _].
  destruct (no_flow_and_empty_flow Sample.hs [[]] Sample.first_request Sample.ip
              Sample.start run1.2 _ table_ok_start H1) as [_ Hempty].
  split; [exact (Hnone eq_refl)|].
  apply Hempty; [by apply list_elem_of_singleton|].
  exists (VDict {[ "type" := VStr Sample.DUMMY ]}).
  split; vm_compute; reflexivity.
Defined.

(** A request that presents a stage type nobody registered. *)
Lemma unrecognized_stage_witness :
  let a : dict := {[ "type" := VStr "org.example.unknown" ]} in
  let params : dict := {[ "username" := VStr "bob"; "auth" := VDict a ]} in
  let s0 := new_session "abcdefghijklmnopqrstuvwx" in
  let h0 := (_get_session_info VNone Sample.start).2 in
  let run := check_auth Sample.hs [[Sample.DUMMY]] params Sample.ip Sample.start in
  table_ok Sample.start ∧
  params !! "auth" = Some (VDict a) ∧
  a !! "type" = Some (VStr "org.example.unknown") ∧
  checkers Sample.hs !! "org.example.unknown" = None ∧
  _get_session_info (default VNone (a !! "session")) Sample.start = (Ok s0, h0) ∧
  run.1 = Raise (LoginError 400 "" UNRECOGNIZED) ∧
  ∃ s1, sessions run.2 !! id s0 = Some s1 ∧
        clientdict s1 = Some {[ "username" := VStr "bob" ]}.
Proof.
  intros a params s0 h0 run.
  assert (H1 : params !! "auth" = Some (VDict a)) by (vm_compute; reflexivity).
  assert (H2 : a !! "type" = Some (VStr "org.example.unknown"))
    by (vm_compute; reflexivity).
  assert (H3 : checkers Sample.hs !! "org.example.unknown" = None)
    by (vm_compute; reflexivity).
  assert (H4 : _get_session_info (default VNone (a !! "session")) Sample.start
               = (Ok s0, h0)) by (vm_compute; reflexivity).
  assert (H5 : delete "auth" params = {[ "username" := VStr "bob" ]})
    by (vm_compute; reflexivity).
  refine (conj table_ok_start (conj H1 (conj H2 (conj H3 (conj H4 _))))).
  destruct (unrecognized_stage_is_refused Sample.hs [[Sample.DUMMY]] params a
              Sample.ip Sample.start h0 "org.example.unknown" s0
              table_ok_start H1 H2 H3 H4) as (Hraise & s1 & Hin & _ & Hcd).
  refine (conj Hraise _). exists s1. refine (conj Hin _).
  rewrite <- H5. apply Hcd. rewrite H5.
  intros H. apply (f_equal (fun m : dict => m !! "username")) in H.
  vm_compute in H. discriminate.
Defined.

(** A request with no auth block. *)
Lemma request_without_auth_witness :
  let params : dict := {[ "username" := VStr "bob" ]} in
  let run := check_auth Sample.hs [[Sample.DUMMY]] params Sample.ip Sample.start in
  let r := Sample.result_of run in
  (params !! "auth" = None ∨ params !! "auth" = Some (VDict ∅)) ∧
  run = (Ok r, run.2) ∧
  authed r = false ∧ result_session_id r ∈ random_strings Sample.start.
Proof.
  intros params run r.
  assert (H1 : params !! "auth" = None ∨ params !! "auth" = Some (VDict ∅))
    by (left; vm_compute; reflexivity).
  assert (H2 : run = (Ok r, run.2)) by (vm_compute; reflexivity).
  refine (conj H1 (conj H2 _)).
  destruct (request_without_auth_starts_a_session Sample.hs [[Sample.DUMMY]] params
              Sample.ip Sample.start run.2 r H1 H2)
    as (resp & sid & Hr & _ & _ & _ & _ & Hin & _).
  rewrite Hr. split; [reflexivity | exact Hin].
Defined.

(** An out-of-band dummy result for a session id that is unknown. *)
Lemma add_oob_auth_unknown_session_witness :
  let a : dict := {[ "session" := VStr "no-such-session" ]} in
  let run := add_oob_auth Sample.hs Sample.DUMMY (VDict a) Sample.ip Sample.start in
  checkers Sample.hs !! Sample.DUMMY = Some _check_dummy_auth ∧
  a !! "session" = Some (VStr "no-such-session") ∧
  (∀ k, VStr "no-such-session" = VStr k → sessions Sample.start !! k = None) ∧
  _check_dummy_auth (VDict a) Sample.ip = Ok (VBool true) ∧
  truthy (VBool true) = true ∧
  run = (Ok true, run.2) ∧
  ∃ new s1, new ∈ random_strings Sample.start ∧
            sessions run.2 !! new = Some s1 ∧
            creds s1 = Some {[ Sample.DUMMY := VBool true ]}.
Proof.
  intros a run.
  assert (H1 : checkers Sample.hs !! Sample.DUMMY = Some _check_dummy_auth)
    by (vm_compute; reflexivity).
  assert (H2 : a !! "session" = Some (VStr "no-such-session"))
    by (vm_compute; reflexivity).
  assert (H3 : ∀ k, VStr "no-such-session" = VStr k → sessions Sample.start !! k = None)
    by (intros k _; reflexivity).
  assert (H4 : _check_dummy_auth (VDict a) Sample.ip = Ok (VBool true)) by reflexivity.
  assert (H5 : truthy (VBool true) = true) by reflexivity.
  assert (H6 : run = (Ok true, run.2)) by (vm_compute; reflexivity).
  refine (conj H1 (conj H2 (conj H3 (conj H4 (conj H5 (conj H6 _)))))).
  destruct (add_oob_auth_unknown_session_gets_new_session Sample.hs Sample.DUMMY a
              Sample.ip Sample.start run.2 _check_dummy_auth
              (VStr "no-such-session") (VBool true) true H1 H2 H3 H4 H5 H6)
    as (_ & new & s1 & Hin & _ & Hs1 & Hc & _).
  exists new, s1. exact (conj Hin (conj Hs1 Hc)).
Defined.

(** A registration that starts without an auth block, gets the dummy
    stage out of band, and is complete at the next call. *)
Lemma oob_result_witness :
  let flows := [[Sample.DUMMY]] in
  let h := (check_auth Sample.hs flows {[ "username" := VStr "bob" ]}
              Sample.ip Sample.start).2 in
  let S := "abcdefghijklmnopqrstuvwx" in
  let a : dict := {[ "session" := VStr S ]} in
  let s0 := Session S (Some {[ "username" := VStr "bob" ]}) None None
              (Some 1470000000000) in
  let h1 := (add_oob_auth Sample.hs Sample.DUMMY (VDict a) Sample.ip h).2 in
  table_ok h ∧
  checkers Sample.hs !! Sample.DUMMY = Some _check_dummy_auth ∧
  a !! "session" = Some (VStr S) ∧ S ≠ "" ∧ sessions h !! S = Some s0 ∧
  _check_dummy_auth (VDict a) Sample.ip = Ok (VBool true) ∧
  truthy (VBool true) = true ∧
  [Sample.DUMMY] ∈ flows ∧
  ∃ r h2, check_auth Sample.hs flows {[ "auth" := VDict a ]} Sample.ip h1 = (Ok r, h2) ∧
          authed r = true ∧ result_session_id r = S.
Proof.
  intros flows h S a s0 h1.
  assert (H0 : table_ok h) by (apply table_ok_decide; vm_compute; reflexivity).
  assert (H1 : checkers Sample.hs !! Sample.DUMMY = Some _check_dummy_auth)
    by (vm_compute; reflexivity).
  assert (H2 : a !! "session" = Some (VStr S)) by (vm_compute; reflexivity).
  assert (H3 : S ≠ "") by discriminate.
  assert (H4 : sessions h !! S = Some s0) by (vm_compute; reflexivity).
  assert (H5 : _check_dummy_auth (VDict a) Sample.ip = Ok (VBool true)) by reflexivity.
  assert (H6 : truthy (VBool true) = true) by reflexivity.
  assert (H7 : [Sample.DUMMY] ∈ flows) by (by apply list_elem_of_singleton).
  assert (H8 : ∀ stage, stage ∈ [Sample.DUMMY] →
                 stage = Sample.DUMMY ∨ is_Some (session_creds s0 !! stage))
    by (intros stage Hin%list_elem_of_singleton; by left).
  refine (conj H0 (conj H1 (conj H2 (conj H3 (conj H4 (conj H5 (conj H6
            (conj H7 _)))))))).
  apply (oob_result_completes_next_check_auth Sample.hs flows [Sample.DUMMY]
           Sample.DUMMY a Sample.ip h _check_dummy_auth S s0 (VBool true)
           H0 H1 H2 H3 H4 H5 H6 H7 H8 {[ "auth" := VDict a ]} a Sample.ip);
    vm_compute; reflexivity.
Defined.

(** The table after the first request stays well-keyed under all four
    operations. *)
Lemma sessions_under_their_ids_witness :
  let h := Demo.after_first in
  let sid := VStr "abcdefghijklmnopqrstuvwx" in
  table_ok h ∧
  table_ok (check_auth Sample.hs [[Sample.DUMMY]] Sample.first_request Sample.ip h).2 ∧
  table_ok (add_oob_auth Sample.hs Sample.DUMMY (VDict {[ "session" := sid ]})
              Sample.ip h).2 ∧
  table_ok (set_session_data sid "k" (VInt 1) h).2 ∧
  table_ok (get_session_data sid "k" VNone h).2.
Proof.
  intros h sid.
  assert (H0 : table_ok h) by (apply table_ok_decide; vm_compute; reflexivity).
  exact (conj H0 (handler_keeps_sessions_under_their_ids Sample.hs [[Sample.DUMMY]]
                    Sample.first_request Sample.DUMMY
                    (VDict {[ "session" := sid ]}) sid (VInt 1) VNone "k" Sample.ip
                    h H0)).
Defined.

(** The dummy stage of the first request is recorded in a new
    session. *)
Lemma passed_stage_witness :
  let a : dict := {[ "type" := VStr Sample.DUMMY ]} in
  let s0 := new_session "abcdefghijklmnopqrstuvwx" in
  let h0 := (_get_session_info VNone Sample.start).2 in
  table_ok Sample.start ∧
  Sample.first_request !! "auth" = Some (VDict a) ∧
  a !! "type" = Some (VStr Sample.DUMMY) ∧
  checkers Sample.hs !! Sample.DUMMY = Some _check_dummy_auth ∧
  _get_session_info (default VNone (a !! "session")) Sample.start = (Ok s0, h0) ∧
  _check_dummy_auth (VDict a) Sample.ip = Ok (VBool true) ∧
  truthy (VBool true) = true ∧
  ∃ r h' s1,
    check_auth Sample.hs [[Sample.DUMMY; Sample.RECAPTCHA]] Sample.first_request
      Sample.ip Sample.start = (Ok r, h') ∧
    sessions h' !! id s0 = Some s1 ∧
    session_creds s1 = {[ Sample.DUMMY := VBool true ]} ∧
    last_used s1 = Some 1470000000000.
Proof.
  intros a s0 h0.
  assert (H1 : Sample.first_request !! "auth" = Some (VDict a))
    by (vm_compute; reflexivity).
  assert (H2 : a !! "type" = Some (VStr Sample.DUMMY)) by (vm_compute; reflexivity).
  assert (H3 : checkers Sample.hs !! Sample.DUMMY = Some _check_dummy_auth)
    by (vm_compute; reflexivity).
  assert (H4 : _get_session_info (default VNone (a !! "session")) Sample.start
               = (Ok s0, h0)) by (vm_compute; reflexivity).
  assert (H5 : _check_dummy_auth (VDict a) Sample.ip = Ok (VBool true)) by reflexivity.
  assert (H6 : truthy (VBool true) = true) by reflexivity.
  refine (conj table_ok_start (conj H1 (conj H2 (conj H3 (conj H4 (conj H5
            (conj H6 _))))))).
  destruct (passed_stage_is_recorded Sample.hs [[Sample.DUMMY; Sample.RECAPTCHA]]
              Sample.first_request a Sample.ip Sample.start h0 Sample.DUMMY
              _check_dummy_auth s0 (VBool true) table_ok_start H1 H2 H3 H4 H5 H6)
    as (r & h' & s1 & Hrun & Hin & Hc & Hlu & _).
  exists r, h', s1. exact (conj Hrun (conj Hin (conj Hc Hlu))).
Defined.

(** The right captcha response, from an address with whole answers and
    from the address whose downloads break off. *)
Lemma recaptcha_witness :
  let authdict := VDict {[ "response" := VStr "03AHJ_VuvK" ]} in
  _check_recaptcha Demo.sv authdict "203.0.113.7" = Ok (VBool true) ∧
  _check_recaptcha Demo.sv authdict "198.51.100.9" = Ok (VBool true) ∧
  ∃ body : dict,
    simplejson_loads Demo.sv "success" = Ok (VDict body) ∧
    ∃ success, body !! "success" = Some success ∧ truthy success = true.
Proof.
  intros authdict.
  assert (H1 : _check_recaptcha Demo.sv authdict "203.0.113.7" = Ok (VBool true))
    by (vm_compute; reflexivity).
  assert (H2 : _check_recaptcha Demo.sv authdict "198.51.100.9" = Ok (VBool true))
    by (vm_compute; reflexivity).
  refine (conj H1 (conj H2 _)).
  destruct (recaptcha_returns_true_or_raises Demo.sv authdict "198.51.100.9"
              (VBool true) H2)
    as (_ & user_response & body & success & Hresp & Hs & Htr & Hreply).
  vm_compute in Hresp. injection Hresp as <-.
  exists body. split; [exact Hreply|]. exists success. exact (conj Hs Htr).
Defined.

Lemma hashpw_2b_rehash (p s c : string) :
  hashpw Demo.hs p s = Ok c → hashpw Demo.hs p c = Ok c ∧ c ≠ "".
Proof.
  cbn. unfold Demo.hashpw_2b. destruct (String.prefix "$2b$" s); [|discriminate].
  intros [= <-]. split; [destruct p; reflexivity | discriminate].
Defined.

(** A password hashed with a fresh salt validates. *)
Lemma hash_then_validate_witness :
  (∀ p s c, hashpw Demo.hs p s = Ok c → hashpw Demo.hs p c = Ok c ∧ c ≠ "") ∧
  hash Demo.hs "$2b$12$N9qo8uLOickgx2ZMRZoMye" "hunter2" = Ok "$2b$hunter2pepper" ∧
  validate_hash Demo.hs "hunter2" (Some "$2b$hunter2pepper") = Ok true.
Proof.
  assert (H : hash Demo.hs "$2b$12$N9qo8uLOickgx2ZMRZoMye" "hunter2"
              = Ok "$2b$hunter2pepper") by (vm_compute; reflexivity).
  refine (conj hashpw_2b_rehash (conj H _)).
  exact (hash_then_validate_hash Demo.hs _ _ _ hashpw_2b_rehash H).
Defined.

Lemma demo_directory_answers (mode : string) (made : list ldap_call) :
  ∃ b, ldap3_call (Demo.directory mode) made = Ok (VBool b).
Proof. by exists false. Defined.

Lemma demo_directory_returns (mode : string) (made : list ldap_call) :
  ∃ v, ldap3_call (Demo.directory mode) made = Ok v.
Proof. by exists (VBool false). Defined.

Lemma demo_directory_finds_nothing (mode : string) (made : list ldap_call) :
  ∃ entries, ldap3_response (Demo.directory mode) made = VList entries ∧
             length entries ≠ 1%nat.
Proof. exists []. split; [reflexivity | discriminate]. Defined.

(** Simple mode against a directory whose [bind()] returns false: Bob
    is accepted with any password. *)
Lemma simple_mode_witness :
  let d := Demo.directory "simple" in
  ldap3_imported d = true ∧ ldap_enabled d = true ∧
  ldap_mode d ∈ LDAPMode_LIST d ∧ ldap_mode d = LDAPMode_SIMPLE d ∧
  UserID_from_string_localpart d "@bob:example.org" = Ok "bob" ∧
  ldap_attributes d !! "uid" = Some "cn" ∧
  check_user_exists Sample.hs "@bob:example.org" = Ok (Some "@bob:example.org") ∧
  _check_password Sample.hs d "@bob:example.org" (VStr "not the password")
    = Ok "@bob:example.org".
Proof.
  intros d.
  assert (H1 : ldap_mode d ∈ LDAPMode_LIST d) by (apply list_elem_of_here).
  assert (H2 : UserID_from_string_localpart d "@bob:example.org" = Ok "bob")
    by (vm_compute; reflexivity).
  assert (H3 : ldap_attributes d !! "uid" = Some "cn") by (vm_compute; reflexivity).
  assert (H4 : check_user_exists Sample.hs "@bob:example.org"
               = Ok (Some "@bob:example.org")) by (vm_compute; reflexivity).
  refine (conj eq_refl (conj eq_refl (conj H1 (conj eq_refl (conj H2 (conj H3
            (conj H4 _))))))).
  apply (simple_mode_accepts_when_no_call_raises Sample.hs d "@bob:example.org"
           "bob" "cn" "@bob:example.org" (VStr "not the password")
           eq_refl eq_refl H1 eq_refl H2 H3 (demo_directory_returns "simple") H4).
  discriminate.
Defined.

(** In search mode, against a directory that finds nobody: the stored hash
    decides. *)
Lemma search_mode_witness :
  let d := Demo.directory "search" in
  ldap3_imported d = true ∧ ldap_enabled d = true ∧
  ldap_mode d ∈ LDAPMode_LIST d ∧ ldap_mode d = LDAPMode_SEARCH d ∧
  LDAPMode_SEARCH d ≠ LDAPMode_SIMPLE d ∧
  UserID_from_string_localpart d "@bob:example.org" = Ok "bob" ∧
  ldap_attributes d !! "uid" = Some "cn" ∧
  _check_ldap_password Sample.hs d "@bob:example.org" (VStr "secret") = Ok false ∧
  _check_password Sample.hs d "@bob:example.org" (VStr "secret")
    = Ok "@bob:example.org" ∧
  _check_password Sample.hs d "@bob:example.org" (VStr "guess") = Raise forbidden.
Proof.
  intros d.
  assert (H1 : ldap_mode d ∈ LDAPMode_LIST d)
    by (apply list_elem_of_further, list_elem_of_here).
  assert (H2 : LDAPMode_SEARCH d ≠ LDAPMode_SIMPLE d) by discriminate.
  assert (H3 : UserID_from_string_localpart d "@bob:example.org" = Ok "bob")
    by (vm_compute; reflexivity).
  assert (H4 : ldap_attributes d !! "uid" = Some "cn") by (vm_compute; reflexivity).
  refine (conj eq_refl (conj eq_refl (conj H1 (conj eq_refl (conj H2 (conj H3
            (conj H4 _))))))).
  destruct (search_mode_needs_exactly_one_entry Sample.hs d "@bob:example.org"
              "bob" "cn" (VStr "secret") eq_refl eq_refl H1 eq_refl H2 H3 H4
              (demo_directory_returns "search")
              (demo_directory_finds_nothing "search")) as [Hldap Hlocal].
  destruct (search_mode_needs_exactly_one_entry Sample.hs d "@bob:example.org"
              "bob" "cn" (VStr "guess") eq_refl eq_refl H1 eq_refl H2 H3 H4
              (demo_directory_returns "search")
              (demo_directory_finds_nothing "search")) as [_ Hlocal'].
  refine (conj Hldap _). rewrite Hlocal, Hlocal'.
  split; vm_compute; reflexivity.
Defined.

(** Simple mode for a user the directory accepts and the server does
    not know yet. *)
Lemma provisioning_witness :
  let d := Demo.directory "simple" in
  ldap3_imported d = true ∧ ldap_enabled d = true ∧
  ldap_mode d ∈ LDAPMode_LIST d ∧ ldap_mode d = LDAPMode_SIMPLE d ∧
  UserID_from_string_localpart d "@dave:example.org" = Ok "dave" ∧
  ldap_attributes d !! "uid" = Some "cn" ∧
  ldap_attributes d !! "name" = Some "givenName" ∧
  ldap_attributes d !! "mail" = Some "mail" ∧
  check_user_exists Sample.hs "@dave:example.org" = Ok None ∧
  _check_password Sample.hs d "@dave:example.org" (VStr "secret") = Raise TypeError.
Proof.
  intros d.
  assert (H1 : ldap_mode d ∈ LDAPMode_LIST d) by (apply list_elem_of_here).
  assert (H2 : UserID_from_string_localpart d "@dave:example.org" = Ok "dave")
    by (vm_compute; reflexivity).
  assert (H3 : ldap_attributes d !! "uid" = Some "cn") by (vm_compute; reflexivity).
  assert (H4 : ldap_attributes d !! "name" = Some "givenName")
    by (vm_compute; reflexivity).
  assert (H5 : ldap_attributes d !! "mail" = Some "mail") by (vm_compute; reflexivity).
  assert (H6 : check_user_exists Sample.hs "@dave:example.org" = Ok None)
    by (vm_compute; reflexivity).
  refine (conj eq_refl (conj eq_refl (conj H1 (conj eq_refl (conj H2 (conj H3
            (conj H4 (conj H5 (conj H6 _))))))))).
  apply (provisioning_without_single_entry_raises Sample.hs d "@dave:example.org"
           "dave" "cn" "givenName" "mail" (VStr "secret")
           eq_refl eq_refl H1 eq_refl H2 H3 H4 H5
           (demo_directory_answers "simple")
           (demo_directory_finds_nothing "simple") H6).
Defined.

(** A password change for Bob, asked for over the token with id 17,
    and one for a user the store does not know. *)
Lemma set_password_witness :
  let salt := "$2b$12$N9qo8uLOickgx2ZMRZoMye" in
  let requester := Some {| access_token_id := VInt 17 |} in
  hash Demo.hs salt "hunter2" = Ok "$2b$hunter2pepper" ∧
  set_password Demo.hs salt Demo.store "@nobody:example.org" "hunter2" requester []
    = (Raised (SynapseError 404 "Unknown user" NOT_FOUND),
       [user_set_password_hash "@nobody:example.org" "$2b$hunter2pepper"]) ∧
  set_password Demo.hs salt Demo.store "@bob:example.org" "hunter2" requester []
    = (Returned (),
       [user_set_password_hash "@bob:example.org" "$2b$hunter2pepper";
        user_delete_access_tokens "@bob:example.org" [VInt 17];
        remove_pushers_by_user "@bob:example.org" [VInt 17]]).
Proof.
  intros salt requester.
  assert (H : hash Demo.hs salt "hunter2" = Ok "$2b$hunter2pepper")
    by (vm_compute; reflexivity).
  refine (conj H _).
  destruct (set_password_revokes_after_storing Demo.hs salt Demo.store
              "@nobody:example.org" "hunter2" requester [] _ H) as (Hunknown & _ & _).
  destruct (set_password_revokes_after_storing Demo.hs salt Demo.store
              "@bob:example.org" "hunter2" requester [] _ H) as (_ & _ & Hdone).
  split.
  - apply (Hunknown "No row found"). vm_compute. reflexivity.
  - assert (Hret : (set_password Demo.hs salt Demo.store "@bob:example.org"
                      "hunter2" requester []).1 = Returned ())
      by (vm_compute; reflexivity).
    specialize (Hdone Hret).
    destruct (set_password _ _ _ _ _ _ _) as [e log]. simpl in *. by subst.
Defined.

(** The second request of a registration names the session of the
    first. *)
Lemma named_session_witness :
  let h := Demo.after_first in
  let S := "abcdefghijklmnopqrstuvwx" in
  let a : dict := {[ "session" := VStr S; "type" := VStr Sample.RECAPTCHA ]} in
  let params : dict := {[ "auth" := VDict a ]} in
  let s0 := Session S (Some {[ "username" := VStr "bob" ]})
              (Some {[ Sample.DUMMY := VBool true ]}) None (Some 1470000000000) in
  let run := check_auth Sample.hs [[Sample.DUMMY; Sample.RECAPTCHA]] params
               Sample.ip h in
  table_ok h ∧ S ≠ "" ∧ sessions h !! S = Some s0 ∧
  params !! "auth" = Some (VDict a) ∧ a !! "session" = Some (VStr S) ∧
  get_session_id params = Ok (VStr S) ∧
  is_Some (sessions run.2 !! S).
Proof.
  intros h S a params s0 run.
  assert (H0 : table_ok h) by (apply table_ok_decide; vm_compute; reflexivity).
  assert (H1 : S ≠ "") by discriminate.
  assert (H2 : sessions h !! S = Some s0) by (vm_compute; reflexivity).
  assert (H3 : params !! "auth" = Some (VDict a)) by (vm_compute; reflexivity).
  assert (H4 : a !! "session" = Some (VStr S)) by (vm_compute; reflexivity).
  refine (conj H0 (conj H1 (conj H2 (conj H3 (conj H4 _))))).
  destruct (named_session_is_continued Sample.hs [[Sample.DUMMY; Sample.RECAPTCHA]]
              params a Sample.ip h S s0 H0 H1 H2 H3 H4) as (Hid & Hin & _).
  exact (conj Hid Hin).
Defined.
